(** * Dependify: the pipeline orchestration core

    A shallow embedding of the orchestration code of the Dependify backend
    ([backend/modal_verify.py], [backend/checker.py], [backend/containers.py],
    [backend/modal_write.py], [backend/server.py]) and the properties of its
    specification.

    The transformation workers (the model calls), the progress sink, the
    filesystem and the repository host are external collaborators.  Each
    one is an oracle field of an environment record: a function that may
    answer with a value or with a raised exception.  The orchestration code
    itself is translated statement by statement. *)

From Stdlib Require Import String Ascii List ZArith Bool Arith Lia Floats DecimalString.
Import ListNotations.

Set Warnings "-inexact-float,-register-all".

Local Open Scope string_scope.
Local Open Scope list_scope.
Local Open Scope nat_scope.

(* ================================================================= *)
(** ** Python values *)

(** The exception classes that the handlers of [server.update] tell apart.
    [ContainerError] is a subclass of [DockerException]; every other
    subclass of [Exception] is a [PyError] with its class name. *)
Inductive exn : Type :=
| HTTPException (status_code : Z) (detail : string)
| ContainerError (stderr : option string) (message : string)
| DockerException (message : string)
| CalledProcessError (message : string)
| PyError (class message : string).


(** What [json.loads] returns, which is also what the response of the
    endpoint is made of.  A [JObj] is a Python [dict]; its bindings are
    looked up from the front. *)
Inductive json : Type :=
| JNull
| JBool (b : bool)
| JInt (z : Z)
| JFloat (f : float)
| JStr (s : string)
| JArr (items : list json)
| JObj (fields : list (string * json)).

Definition dict := list (string * json).

Fixpoint lookup (key : string) (d : dict) : option json :=
  match d with
  | [] => None
  | (k, v) :: rest => if String.eqb k key then Some v else lookup key rest
  end.

(** [d.get(key, default)] *)
Definition dict_get (key : string) (default : json) (d : dict) : json :=
  match lookup key d with
  | Some v => v
  | None => default
  end.

(** Truth value of an object in a condition. *)
Definition truthy (v : json) : bool :=
  match v with
  | JNull => false
  | JBool b => b
  | JInt z => negb (z =? 0)%Z
  | JFloat f => negb (f =? 0)%float
  | JStr s => negb (String.eqb s "")
  | JArr items => match items with [] => false | _ => true end
  | JObj fields => match fields with [] => false | _ => true end
  end.

Definition str_truthy (s : string) : bool := negb (String.eqb s "").

(** [x > y] where [y] is a float constant strictly between 0 and 1.  An
    [int] (and a [bool], which is an [int]) is compared exactly, so it is
    greater exactly when it is positive; a [float] is compared as a binary64
    number; any other operand raises [TypeError]. *)
Definition py_gt_fraction (x : json) (y : float) : exn + bool :=
  match x with
  | JBool b => inr b
  | JInt z => inr (0 <? z)%Z
  | JFloat f => inr (y <? f)%float
  | _ => inl (PyError "TypeError" "'>' not supported between these instances")
  end.

(** [str(n)] for a non-negative integer. *)
Definition str_of_nat (n : nat) : string :=
  NilEmpty.string_of_uint (Nat.to_uint n).

(* ================================================================= *)
(** ** Strings and paths *)

(** [s.startswith(p)] *)
Definition startswith (s p : string) : bool := String.prefix p s.

(** [sub in s] *)
Fixpoint contains (sub s : string) : bool :=
  String.prefix sub s ||
  match s with
  | EmptyString => false
  | String _ rest => contains sub rest
  end.

(** [s.endswith(p)] *)
Fixpoint endswith (s p : string) : bool :=
  String.eqb s p ||
  match s with
  | EmptyString => false
  | String _ rest => endswith rest p
  end.

(** The part of [s] after its last ["/"]: [os.path.basename(s)], which is
    also [s.split("/")[-1]]. *)
Fixpoint basename_from (s acc : string) : string :=
  match s with
  | EmptyString => acc
  | String c rest =>
      if Ascii.eqb c "/" then basename_from rest rest
      else basename_from rest acc
  end.

Definition basename (s : string) : string := basename_from s s.

(** [os.path.join(a, b)] on POSIX. *)
Definition os_path_join (a b : string) : string :=
  if startswith b "/" then b
  else if String.eqb a "" || endswith a "/" then (a ++ b)%string
  else (a ++ "/" ++ b)%string.

(** [s[n:]] *)
Fixpoint drop_prefix (n : nat) (s : string) : string :=
  match n, s with
  | O, _ => s
  | S n', String _ rest => drop_prefix n' rest
  | S _, EmptyString => EmptyString
  end.

(* ================================================================= *)
(** ** modal_verify.py: the verification and repair loop *)

Definition MAX_RETRIES : nat := 2.

(** The policy constant of the acceptance rule. *)
Definition ACCEPT_CONFIDENCE : float := 0.85%float.

(** The job dictionary that [server.update] builds for the verifier. *)
Record VerifyJob : Type := mkVerifyJob {
  vj_file_path : string;
  vj_original_code : string;
  vj_refactored_code : string;
  vj_comments : string
}.

(** The dictionary that [verify_and_fix] returns. *)
Record VerifyResult : Type := mkVerifyResult {
  file_path : string;
  refactored_code : string;
  refactored_code_comments : string;
  verified : bool;
  attempts : nat
}.

(** The three inner functions of [verify_and_fix] call a model and parse
    its answer; each one either returns or raises.  The number of the
    attempt is an argument because a model need not answer twice alike. *)
Record Workers : Type := mkWorkers {
  (** [verify_code(original, refactored)] in attempt [n] *)
  verify_code : nat -> string -> string -> exn + json;
  (** [analyze_failure(code, issues, original)] in attempt [n] *)
  analyze_failure : nat -> string -> json -> string -> exn + json;
  (** [fix_code(code, analysis, original)] in attempt [n] *)
  fix_code : nat -> string -> json -> string -> exn + string
}.

(** What a run of [verify_and_fix] does that is visible from outside, in
    order: rows sent to the progress table and calls of the three workers.
    A failed insert into the progress table is caught and printed, so an
    insert has no influence on the control flow. *)
Inductive VEvent : Type :=
| Publish (status message code : string)
| Validating (attempt : nat) (original candidate : string)
| Analyzing (attempt : nat) (candidate : string) (issues : json)
| Repairing (attempt : nat) (candidate : string) (analysis : json).

(** How the call ends. *)
Inductive Outcome (A : Type) : Type :=
| Returned (value : A)
| Raised (e : exn).
Arguments Returned {A} value.
Arguments Raised {A} e.

(** The result assumed when [verify_code] raises (line 169). *)
Definition assumed_pass : json :=
  JObj [("passed", JBool true); ("issues", JArr []); ("confidence", JFloat 0.5%float)].

(** Lines 164-169: the validator's result, or the assumed pass. *)
Definition validation_result (W : Workers) (attempt : nat)
    (original current_code : string) : json :=
  match verify_code W attempt original current_code with
  | inr result => result
  | inl _ => assumed_pass
  end.

(** Line 171:
    [result.get("passed", False) or result.get("confidence", 0) > 0.85].
    [result.get] raises [AttributeError] when [result] is no dict. *)
Definition accepted (result : json) : exn + bool :=
  match result with
  | JObj d =>
      if truthy (dict_get "passed" (JBool false) d) then inr true
      else py_gt_fraction (dict_get "confidence" (JInt 0) d) ACCEPT_CONFIDENCE
  | _ => inl (PyError "AttributeError" "object has no attribute 'get'")
  end.

(** Line 193: [result.get("issues", ["Unknown issues"])]; [result] is a
    dict when this line is reached. *)
Definition issues_of (result : json) : json :=
  match result with
  | JObj d => dict_get "issues" (JArr [JStr "Unknown issues"]) d
  | _ => JArr [JStr "Unknown issues"]
  end.

Definition verifying_message (filename : string) (attempt : nat) : string :=
  let msg := ("🔍 Verifying " ++ filename)%string in
  if (0 <? attempt)%nat then (msg ++ " (retry " ++ str_of_nat attempt ++ ")")%string
  else msg.

Definition prepend {A : Type} (evs : list VEvent) (r : list VEvent * A)
  : list VEvent * A :=
  (evs ++ fst r, snd r).

Section VerifyAndFix.

Variable W : Workers.
Variable job : VerifyJob.

Let filename : string := basename (vj_file_path job).
Let original_code : string := vj_original_code job.

(** Lines 215-223: the return after the loop. *)
Definition exhausted (current_code : string)
  : list VEvent * Outcome VerifyResult :=
  ([], Returned {| file_path := vj_file_path job;
                   refactored_code := current_code;
                   refactored_code_comments := vj_comments job;
                   verified := false;
                   attempts := MAX_RETRIES + 1 |}).

(** Lines 172-189: the return of an accepted candidate. *)
Definition accept (attempt : nat) (current_code : string)
  : list VEvent * Outcome VerifyResult :=
  ([Publish "VERIFIED" ("✅ Verified " ++ filename)%string current_code],
   Returned {| file_path := vj_file_path job;
               refactored_code := current_code;
               refactored_code_comments := vj_comments job;
               verified := true;
               attempts := attempt + 1 |}).

(** Lines 205-213: the analysis and the repair, both inside one [try].
    [analysis.get] on line 208 raises when the analysis is no dict.  The
    result is the new candidate, or the exception that breaks the loop. *)
Definition analyze_and_fix (attempt : nat) (current_code : string) (issues : json)
  : list VEvent * (exn + string) :=
  prepend [Analyzing attempt current_code issues]
    match analyze_failure W attempt current_code issues original_code with
    | inl e => ([], inl e)
    | inr analysis =>
        match analysis with
        | JObj _ =>
            ([Repairing attempt current_code analysis],
             fix_code W attempt current_code analysis original_code)
        | _ => ([], inl (PyError "AttributeError" "object has no attribute 'get'"))
        end
    end.

(** Lines 191-213, REJECTED: with attempts left the candidate is analysed
    and repaired and the loop goes on with the new one, or breaks when
    that raises; in the last attempt the loop just ends.  [continue] is
    the rest of the loop. *)
Definition on_rejected (continue : string -> list VEvent * Outcome VerifyResult)
    (attempt : nat) (result : json) (current_code : string)
  : list VEvent * Outcome VerifyResult :=
  if (attempt <? MAX_RETRIES)%nat then
    prepend [Publish "FIXING" ("🔧 Analyzing & fixing " ++ filename)%string current_code]
      (let fixed := analyze_and_fix attempt current_code (issues_of result) in
       prepend (fst fixed)
         match snd fixed with
         | inl _ => exhausted current_code
         | inr new_code => continue new_code
         end)
  else continue current_code.

(** Lines 149-213: the iterations of [for attempt in ...] that are still
    to run, with the candidate held on entry. *)
Fixpoint verify_loop (pending : list nat) (current_code : string)
  : list VEvent * Outcome VerifyResult :=
  match pending with
  | [] => exhausted current_code
  | attempt :: rest =>
      let result := validation_result W attempt original_code current_code in
      prepend [Publish "VERIFYING" (verifying_message filename attempt) current_code;
               Validating attempt original_code current_code]
        match accepted result with
        | inl e => ([], Raised e)
        | inr true => accept attempt current_code
        | inr false => on_rejected (verify_loop rest) attempt result current_code
        end
  end.

(** [verify_and_fix(job)]: the events of the run and how it ends. *)
Definition verify_and_fix : list VEvent * Outcome VerifyResult :=
  verify_loop (seq 0 (MAX_RETRIES + 1)) (vj_refactored_code job).

End VerifyAndFix.

(** The number of entries into VALIDATING in a run. *)
Definition is_validating (ev : VEvent) : bool :=
  match ev with Validating _ _ _ => true | _ => false end.

Definition validations (evs : list VEvent) : nat :=
  length (filter is_validating evs).

(* ================================================================= *)
(** ** checker.py: the artifact enumerator *)

(** A directory tree as [os.walk] sees it: the entries of a directory in
    the order of its listing. *)
Inductive fs_node : Type :=
| File (name : string)
| Dir (name : string) (entries : list fs_node).

(** Lines 31-34, for one directory [root]: the paths of its files. *)
Fixpoint files_in (root : string) (entries : list fs_node) : list string :=
  match entries with
  | [] => []
  | File filename :: rest => os_path_join root filename :: files_in root rest
  | Dir _ _ :: rest => files_in root rest
  end.

(** What [os.walk] contributes for the entry [n] of directory [root]: a
    file was listed by its directory already; a directory is walked top
    down, its own files first and then its sub-directories. *)
Fixpoint walk_entry (root : string) (n : fs_node) : list string :=
  match n with
  | File _ => []
  | Dir name entries =>
      let sub := os_path_join root name in
      files_in sub entries ++ flat_map (walk_entry sub) entries
  end.

(** [get_all_files_recursively(root_directory)] when the directory holds
    [entries]. *)
Definition get_all_files_recursively (root_directory : string)
    (entries : list fs_node) : list string :=
  files_in root_directory entries ++ flat_map (walk_entry root_directory) entries.

(** The pydantic model [CodeChange]. *)
Record CodeChange : Type := mkCodeChange {
  path : string;
  code_content : string;
  reason : string;
  add : bool
}.

Definition set_path (c : CodeChange) (p : string) : CodeChange :=
  {| path := p; code_content := code_content c; reason := reason c; add := add c |}.

(** The tuple given to [filepath.endswith] on line 121. *)
Definition DENYLIST : list string :=
  [".css"; ".json"; ".md"; ".svg"; ".ico"; ".mjs"; ".gitignore"; ".env"].

(** The condition of lines 119-123. *)
Definition excluded (filepath : string) : bool :=
  startswith (basename filepath) "."
  || existsb (endswith filepath) DENYLIST
  || contains ".git/" filepath.

(** The names of directory entries hold no ["/"]. *)
Fixpoint names_ok (n : fs_node) : bool :=
  match n with
  | File name => negb (contains "/" name)
  | Dir name entries => negb (contains "/" name) && forallb names_ok entries
  end.

(** Every path made by joining a name to the directory [dir] has a
    [.git/] in it. *)
Definition beneath_git (dir : string) : Prop :=
  forall name, startswith name "/" = false ->
               contains ".git/" (os_path_join dir name) = true.

Section FetchUpdates.

(** [analyze_file_with_llm(file_path)] for a file that can be read: it
    asks the model, parses and validates the answer, and returns [None]
    when any of that raises (lines 60-109). *)
Variable analyze_file_with_llm : string -> option CodeChange.

(** Lines 117-132.  The first component lists the files handed to the
    analysis, the second is [analysis_results]. *)
Fixpoint fetch_loop (all_files : list string) : list string * list CodeChange :=
  match all_files with
  | [] => ([], [])
  | filepath :: rest =>
      let '(queried, analysis_results) := fetch_loop rest in
      if excluded filepath then (queried, analysis_results)
      else
        match analyze_file_with_llm filepath with
        | None => (filepath :: queried, analysis_results)
        | Some response =>
            if Bool.eqb (add response) false then (filepath :: queried, analysis_results)
            else (filepath :: queried, set_path response filepath :: analysis_results)
        end
  end.

(** [fetch_updates(directory)] *)
Definition fetch_updates (directory : string) (entries : list fs_node)
  : list string * list CodeChange :=
  fetch_loop (get_all_files_recursively directory entries).

End FetchUpdates.

(* ================================================================= *)
(** ** modal_write.py: the writer *)

(** The pydantic model [JobReport]. *)
Record JobReport : Type := mkJobReport {
  jr_refactored_code : string;
  jr_refactored_code_comments : string
}.

(** The dictionary that [process_file] returns when it does not return
    [None]: the path of the job and the two fields of its [JobReport]. *)
Record WriteOutput : Type := mkWriteOutput {
  w_file_path : string;
  w_refactored_code : string;
  w_refactored_code_comments : string
}.

(** [process_file(job)].  [answer] is the report that lines 77-118 arrive
    at: the model is called, its answer parsed and validated, and the
    progress row inserted; when any of these raises, the handlers of lines
    124-130 return [None]. *)
Definition process_file (answer : option JobReport) (job : CodeChange)
  : option WriteOutput :=
  match answer with
  | Some job_report =>
      Some {| w_file_path := path job;
              w_refactored_code := jr_refactored_code job_report;
              w_refactored_code_comments := jr_refactored_code_comments job_report |}
  | None => None
  end.

(* ================================================================= *)
(** ** server.py: the [/update] endpoint *)

Record UpdateRequest : Type := mkUpdateRequest {
  repository : string;
  repository_owner : string;
  repository_name : string
}.

(** An entry of [refactored_jobs] (lines 225-230). *)
Record RefactoredJob : Type := mkRefactoredJob {
  rj_path : string;
  rj_new_content : string;
  rj_old_content : string;
  rj_comments : string
}.

(** The entry as the dictionary the code builds. *)
Definition refactored_job_dict (j : RefactoredJob) : json :=
  JObj [("path", JStr (rj_path j));
        ("new_content", JStr (rj_new_content j));
        ("old_content", JStr (rj_old_content j));
        ("comments", JStr (rj_comments j))].

(** The calls that leave the process, in the order they are made. *)
Inductive Call : Type :=
| CallRmtree (dir : string)
| CallMakedirs (dir : string)
| CallRunScript (repo : string)
| CallProcessFile (job_path : string)
| CallVerifyAndFix (job_path : string)
| CallCreateFork (owner name : string)
| CallGitClone (url : json) (dir : string)
| CallLoadRepository (dir : string)
| CallWriteFile (target content : string)
| CallCreateAndPushBranch (files_changed : list string)
| CallCreatePullRequest (branch : json).

(** Stage 3 of the pipeline. *)
Definition is_stage3 (c : Call) : bool :=
  match c with CallVerifyAndFix _ => true | _ => false end.

(** The repository materializer: fork, clone, write, push, pull request. *)
Definition is_materializer (c : Call) : bool :=
  match c with
  | CallCreateFork _ _ | CallGitClone _ _ | CallLoadRepository _
  | CallWriteFile _ _ | CallCreateAndPushBranch _ | CallCreatePullRequest _ => true
  | _ => false
  end.

(** The collaborators of one run.  [None] in an [option exn] is a call that
    succeeded. *)
Record Collaborators : Type := mkCollaborators {
  getcwd : exn + string;
  (** [shutil.rmtree] of a staging directory left by an earlier run (line 154) *)
  rmtree_stale : option exn;
  makedirs : option exn;
  (** [container_app.run()] and the clones of [containers.run_script]: the
      directory the script ends up in and the tree of the clone named
      [repository] in it *)
  clone_for_analysis : string -> exn + (string * list fs_node);
  (** [checker.analyze_file_with_llm] *)
  analyze_file_with_llm : string -> option CodeChange;
  (** the [i]-th call of [process_file.map.aio]: the call itself may fail,
      else the writer arrives at a report or not *)
  write_worker : nat -> CodeChange -> exn + option JobReport;
  (** the models behind the [i]-th call of [verify_and_fix.map.aio] *)
  verifier : nat -> Workers;
  create_fork : string -> string -> exn + option dict;
  (** [subprocess.run] of [git clone]: return code and standard error *)
  git_clone : json -> string -> exn + (Z * string);
  load_repository : string -> option exn;
  (** [os.path.exists] of a file of the clone *)
  path_exists : string -> bool;
  (** [open] and [write] of lines 284-285 *)
  write_file : string -> string -> option exn;
  (** branch name and user name *)
  create_and_push_branch : list string -> exn + (json * json);
  create_pull_request : json -> string -> string -> string -> json -> json -> exn + json;
  (** [shutil.rmtree] in the [finally] clause (line 359) *)
  rmtree_cleanup : option exn
}.

(** [containers.run_script(repo_url)], called remotely. *)
Definition run_script (C : Collaborators) (repo_url : string) : exn + list CodeChange :=
  match clone_for_analysis C repo_url with
  | inl e => inl e
  | inr (cwd, entries) =>
      inr (snd (fetch_updates (analyze_file_with_llm C) (cwd ++ "/repository")%string
                  entries))
  end.

(** [modal_write.process_file(job)], called remotely as the [i]-th job. *)
Definition remote_process_file (C : Collaborators) (i : nat) (job : CodeChange)
  : exn + option WriteOutput :=
  match write_worker C i job with
  | inl e => inl e
  | inr answer => inr (process_file answer job)
  end.

(** The part of the world a run changes: whether the staging directory
    exists, and the calls made so far (latest last). *)
Record World : Type := mkWorld {
  staging_exists : bool;
  calls : list Call
}.

(** Computations that read and change the world and may raise. *)
Definition M (A : Type) : Type := World -> Outcome A * World.

Definition ret {A : Type} (a : A) : M A := fun w => (Returned a, w).

Definition raise {A : Type} (e : exn) : M A := fun w => (Raised e, w).

Definition bind {A B : Type} (m : M A) (k : A -> M B) : M B :=
  fun w =>
    match m w with
    | (Returned a, w') => k a w'
    | (Raised e, w') => (Raised e, w')
    end.

Notation "x <- m ;; k" := (bind m (fun x => k))
  (at level 61, m at next level, right associativity).
Notation "m ;;; k" := (bind m (fun _ => k))
  (at level 61, right associativity).

Definition record_call (c : Call) : M unit :=
  fun w => (Returned tt, {| staging_exists := staging_exists w; calls := calls w ++ [c] |}).

Definition set_staging (b : bool) : M unit :=
  fun w => (Returned tt, {| staging_exists := b; calls := calls w |}).

Definition get_staging : M bool := fun w => (Returned (staging_exists w), w).

(** A call that returns a value or raises. *)
Definition call {A : Type} (c : Call) (answer : exn + A) : M A :=
  record_call c ;;;
  match answer with
  | inr a => ret a
  | inl e => raise e
  end.

(** A call made for its effect. *)
Definition call_unit (c : Call) (answer : option exn) : M unit :=
  record_call c ;;;
  match answer with
  | None => ret tt
  | Some e => raise e
  end.

(** The first job of [job_list] with the given path (lines 198-201 and
    221-224): [next((j for j in job_list if j.get("path") == p), None)]. *)
Definition find_job (job_list : list CodeChange) (p : string) : option CodeChange :=
  find (fun j => String.eqb (path j) p) job_list.

(** [original.get("code_content", "") if original else ""] *)
Definition original_content (original : option CodeChange) : string :=
  match original with
  | Some j => code_content j
  | None => ""
  end.

(** Lines 196-207. *)
Definition build_verify_jobs (job_list : list CodeChange)
    (write_outputs : list WriteOutput) : list VerifyJob :=
  map (fun output =>
         let original := find_job job_list (w_file_path output) in
         {| vj_file_path := w_file_path output;
            vj_original_code := original_content original;
            vj_refactored_code := w_refactored_code output;
            vj_comments := w_refactored_code_comments output |})
      write_outputs.

(** Lines 217-219. *)
Definition new_path (staging_dir file_path : string) : string :=
  if str_truthy file_path && (24 <? String.length file_path)%nat
  then (staging_dir ++ drop_prefix 24 file_path)%string
  else os_path_join staging_dir (basename file_path).

(** Lines 216-230: the entry made from an accepted result. *)
Definition refactored_job_of (staging_dir : string) (job_list : list CodeChange)
    (result : VerifyResult) : RefactoredJob :=
  let original_job := find_job job_list (file_path result) in
  {| rj_path := new_path staging_dir (file_path result);
     rj_new_content := refactored_code result;
     rj_old_content := original_content original_job;
     rj_comments := refactored_code_comments result |}.

(** The message of an HTTP error made from an exception (lines 343-354). *)
Definition to_http_error (e : exn) : exn :=
  match e with
  | HTTPException _ _ => e
  | ContainerError stderr message =>
      let err_output :=
        match stderr with
        | Some s => if str_truthy s then s else message
        | None => message
        end in
      HTTPException 500 ("Container execution error: " ++ err_output)%string
  | DockerException message =>
      HTTPException 500 ("Docker error: " ++ message)%string
  | CalledProcessError message =>
      HTTPException 500 ("Git operation failed: " ++ message)%string
  | PyError _ message =>
      HTTPException 500 ("An unexpected error occurred: " ++ message)%string
  end.

Definition json_of_nat (n : nat) : json := JInt (Z.of_nat n).

Section Update.

Variable C : Collaborators.
Variable payload : UpdateRequest.

(** Lines 180-186: the outputs of stage 2 that carry code, in the order
    of the jobs; [i] counts the outputs before this one. *)
Fixpoint collect_write_outputs (i : nat) (job_list : list CodeChange)
  : M (list WriteOutput) :=
  match job_list with
  | [] => ret []
  | job :: rest =>
      output <- call (CallProcessFile (path job)) (remote_process_file C i job) ;;
      write_outputs <- collect_write_outputs (S i) rest ;;
      ret match output with
          | Some o =>
              if str_truthy (w_refactored_code o) then o :: write_outputs
              else write_outputs
          | None => write_outputs
          end
  end.

(** Lines 213-234: the results of stage 3 that carry code. *)
Fixpoint collect_refactored_jobs (staging_dir : string) (job_list : list CodeChange)
    (i : nat) (verify_jobs : list VerifyJob) : M (list RefactoredJob) :=
  match verify_jobs with
  | [] => ret []
  | job :: rest =>
      record_call (CallVerifyAndFix (vj_file_path job)) ;;;
      match snd (verify_and_fix (verifier C i) job) with
      | Raised e => raise e
      | Returned result =>
          refactored_jobs <- collect_refactored_jobs staging_dir job_list (S i) rest ;;
          ret (if str_truthy (refactored_code result)
               then refactored_job_of staging_dir job_list result :: refactored_jobs
               else refactored_jobs)
      end
  end.

(** Lines 279-291: the paths of the files written. *)
Fixpoint apply_changes (refactored_jobs : list RefactoredJob) : M (list string) :=
  match refactored_jobs with
  | [] => ret []
  | job :: rest =>
      if path_exists C (rj_path job) then
        record_call (CallWriteFile (rj_path job) (rj_new_content job)) ;;;
        files_changed <- apply_changes rest ;;
        ret match write_file C (rj_path job) (rj_new_content job) with
            | None => rj_path job :: files_changed
            | Some _ => files_changed
            end
      else apply_changes rest
  end.

(** Lines 163-169. *)
Definition nothing_outdated : dict :=
  [("status", JStr "success");
   ("message", JStr "No outdated files found in repository");
   ("repository", JStr (repository payload));
   ("files_analyzed", JInt 0);
   ("files_updated", JInt 0)].

(** Lines 319-339. *)
Definition response_data (job_list : list CodeChange) (files_changed : list string)
    (new_branch_name pr_url is_own_repo username : json)
    (refactored_jobs : list RefactoredJob) : dict :=
  [("status", JStr "success");
   ("message", JStr "Repository updated and pull request created successfully");
   ("repository", JStr (repository payload));
   ("files_analyzed", json_of_nat (length job_list));
   ("files_updated", json_of_nat (length files_changed));
   ("branch", new_branch_name);
   ("pull_request_url", pr_url);
   ("is_own_repo", is_own_repo);
   ("output", JArr (map refactored_job_dict (firstn 5 refactored_jobs)))]
  ++ (if truthy is_own_repo then []
      else [("fork_info",
             JObj [("message", JStr "A temporary staging fork was created to propose these changes");
                   ("fork_owner", username);
                   ("fork_name", JStr (repository_name payload));
                   ("can_delete", JBool true);
                   ("delete_note", JStr "You can safely delete this fork after the PR is merged or closed")])]).

(** Lines 242-341: everything after stage 3. *)
Definition materialize (staging_dir : string) (job_list : list CodeChange)
    (refactored_jobs : list RefactoredJob) : M dict :=
  fork_result <- call (CallCreateFork (repository_owner payload) (repository_name payload))
                      (create_fork C (repository_owner payload) (repository_name payload)) ;;
  match fork_result with
  | None | Some [] =>
      raise (HTTPException 400
        "Failed to access repository. Make sure GITHUB_TOKEN is configured correctly.")
  | Some fork =>
      let is_own_repo := dict_get "is_own_repo" (JBool false) fork in
      let repo_url := dict_get "clone_url" JNull fork in
      match dict_get "owner" (JObj []) fork with
      | JObj _ =>
          cloned <- call (CallGitClone repo_url staging_dir) (git_clone C repo_url staging_dir) ;;
          if negb (fst cloned =? 0)%Z then
            raise (HTTPException 400 ("Failed to clone repository: " ++ snd cloned)%string)
          else
            set_staging true ;;;
            call_unit (CallLoadRepository staging_dir) (load_repository C staging_dir) ;;;
            files_changed <- apply_changes refactored_jobs ;;
            match files_changed with
            | [] => raise (HTTPException 400 "No files were successfully updated")
            | _ =>
                pushed <- call (CallCreateAndPushBranch files_changed)
                               (create_and_push_branch C files_changed) ;;
                let new_branch_name := fst pushed in
                let username := snd pushed in
                pr_url <- call (CallCreatePullRequest new_branch_name)
                               (create_pull_request C new_branch_name
                                  (repository_owner payload) (repository_name payload)
                                  "main" username is_own_repo) ;;
                ret (response_data job_list files_changed new_branch_name pr_url
                       is_own_repo username refactored_jobs)
            end
      | _ => raise (PyError "AttributeError" "object has no attribute 'get'")
      end
  end.

(** Lines 152-341: the body of the [try] once [staging_dir] is bound. *)
Definition pipeline (staging_dir : string) : M dict :=
  stale <- get_staging ;;
  (if stale then
     call_unit (CallRmtree staging_dir) (rmtree_stale C) ;;; set_staging false
   else ret tt) ;;;
  call_unit (CallMakedirs staging_dir) (makedirs C) ;;;
  set_staging true ;;;
  job_list <- call (CallRunScript (repository payload)) (run_script C (repository payload)) ;;
  match job_list with
  | [] => ret nothing_outdated
  | _ =>
      write_outputs <- collect_write_outputs 0 job_list ;;
      match write_outputs with
      | [] =>
          raise (HTTPException 400
            "Failed to refactor any files. Please check if the repository contains valid code files.")
      | _ =>
          let verify_jobs := build_verify_jobs job_list write_outputs in
          refactored_jobs <- collect_refactored_jobs staging_dir job_list 0 verify_jobs ;;
          match refactored_jobs with
          | [] =>
              raise (HTTPException 400
                "Failed to verify any files. Please check if the repository contains valid code files.")
          | _ => materialize staging_dir job_list refactored_jobs
          end
      end
  end.

(** Lines 355-362: the [finally] clause.  A failure of [rmtree] is
    caught and printed. *)
Definition cleanup (staging_dir : option string) (w : World) : World :=
  match staging_dir with
  | Some dir =>
      if str_truthy dir && staging_exists w then
        {| staging_exists := match rmtree_cleanup C with
                             | None => false
                             | Some _ => true
                             end;
           calls := calls w ++ [CallRmtree dir] |}
      else w
  | None => w
  end.

(** Lines 343-354: what the [except] clauses make of the end of the body. *)
Definition handle (out : Outcome dict) : Outcome dict :=
  match out with
  | Returned response => Returned response
  | Raised e => Raised (to_http_error e)
  end.

(** [update(request, payload, current_user)]: the response or the HTTP
    error of the run, and the world it leaves. *)
Definition update : M dict :=
  fun w =>
    let '(staging_dir, (out, w')) :=
      match getcwd C with
      | inl e => (None, (Raised e, w))
      | inr cwd =>
          let dir := os_path_join cwd "staging" in
          (Some dir, pipeline dir w)
      end in
    (handle out, cleanup staging_dir w').

End Update.

(* ================================================================= *)
(** ** Worker behaviours named by the specification *)



(** The result of a run that ends with the given candidate. *)
Definition result_with (job : VerifyJob) (code : string) (ok : bool) (n : nat)
  : VerifyResult :=
  {| file_path := vj_file_path job;
     refactored_code := code;
     refactored_code_comments := vj_comments job;
     verified := ok;
     attempts := n |}.

(** Stubs. *)
Definition job_example : VerifyJob :=
  {| vj_file_path := "/root/scripts/repository/src/app.py";
     vj_original_code := "print 'hi'";
     vj_refactored_code := "print('hi')";
     vj_comments := "print is a function in Python 3" |}.

Definition diagnosis : json :=
  JObj [("root_cause", JStr "truncated file");
        ("fix_instructions", JArr [JStr "restore the missing lines"])].

Definition rejection : json :=
  JObj [("passed", JBool false);
        ("issues", JArr [JStr "regression"]);
        ("confidence", JFloat 0%float)].

Definition soft_pass : json :=
  JObj [("passed", JBool false); ("issues", JArr []); ("confidence", JFloat 0.9%float)].

Definition W_always_rejects : Workers :=
  {| verify_code := fun _ _ _ => inr rejection;
     analyze_failure := fun _ _ _ _ => inr diagnosis;
     fix_code := fun n code _ _ => inr (code ++ "#")%string |}.

Definition W_soft_pass : Workers :=
  {| verify_code := fun _ _ _ => inr soft_pass;
     analyze_failure := fun _ _ _ _ => inr diagnosis;
     fix_code := fun n code _ _ => inr (code ++ "#")%string |}.

Definition W_validator_unparsable : Workers :=
  {| verify_code := fun _ _ _ => inl (PyError "JSONDecodeError" "Expecting value");
     analyze_failure := fun _ _ _ _ => inr diagnosis;
     fix_code := fun n code _ _ => inr (code ++ "#")%string |}.

Definition W_analyzer_down : Workers :=
  {| verify_code := fun _ _ _ => inr rejection;
     analyze_failure := fun _ _ _ _ => inl (PyError "APIConnectionError" "Connection error.");
     fix_code := fun n code _ _ => inr (code ++ "#")%string |}.

(* ================================================================= *)
(** ** Stubs for the enumerator *)

(** The clone made by [containers.run_script]. *)
Definition clone_root : string := "/root/scripts/repository".

(** An analysis that finds every file outdated. *)
Definition flag_everything (file_path : string) : option CodeChange :=
  Some {| path := "relative/file/path";
          code_content := "print 'hi'";
          reason := "print statement";
          add := true |}.

(* ================================================================= *)
(** ** Stubs for the correlator *)

Definition job_a : CodeChange :=
  {| path := "/root/scripts/repository/a.py";
     code_content := "print 'a'";
     reason := "print statement";
     add := true |}.

Definition job_b : CodeChange :=
  {| path := "/root/scripts/repository/b.py";
     code_content := "print 'b'";
     reason := "print statement";
     add := true |}.

(* ================================================================= *)
(** ** Stubs for the endpoint *)

Definition request_example : UpdateRequest :=
  {| repository := "https://github.com/octocat/legacy-app";
     repository_owner := "octocat";
     repository_name := "legacy-app" |}.

Definition report_example : JobReport :=
  {| jr_refactored_code := "print('hi')";
     jr_refactored_code_comments := "print is a function in Python 3" |}.

(** An analysis that finds [a.py] and [b.py] outdated. *)
Definition analysis_example (file_path : string) : option CodeChange :=
  Some {| path := "relative/file/path";
          code_content := if endswith file_path "a.py" then "print 'a'" else "print 'b'";
          reason := "print statement";
          add := true |}.

Definition fork_example : dict :=
  [("is_own_repo", JBool false);
   ("clone_url", JStr "https://github.com/dependify-bot/legacy-app.git");
   ("owner", JObj [("login", JStr "dependify-bot")])].

(** Collaborators that all succeed, but for stage 2 and for the removal of
    the staging directory in the [finally] clause, which are arguments. *)
Definition collaborators_with
    (stage2 : nat -> CodeChange -> exn + option JobReport)
    (removal : option exn) : Collaborators :=
  {| getcwd := inr "/srv/dependify";
     rmtree_stale := None;
     makedirs := None;
     clone_for_analysis := fun _ => inr ("/root/scripts", [File "a.py"; File "b.py"]);
     analyze_file_with_llm := analysis_example;
     write_worker := stage2;
     verifier := fun _ => W_soft_pass;
     create_fork := fun _ _ => inr (Some fork_example);
     git_clone := fun _ _ => inr (0%Z, "");
     load_repository := fun _ => None;
     path_exists := fun _ => true;
     write_file := fun _ _ => None;
     create_and_push_branch :=
       fun _ => inr (JStr "dependify-updates", JStr "dependify-bot");
     create_pull_request :=
       fun _ _ _ _ _ _ => inr (JStr "https://github.com/octocat/legacy-app/pull/1");
     rmtree_cleanup := removal |}.

(** Stage 2 writes the first file and returns [None] for the second. *)
Definition C_partial : Collaborators :=
  collaborators_with (fun i j => inr (if i =? 0 then Some report_example else None)) None.

(** Stage 2 returns [None] for every file. *)
Definition C_no_writes : Collaborators :=
  collaborators_with (fun _ _ => inr None) None.

(** The removal of the staging directory in the [finally] clause raises. *)
Definition C_removal_fails : Collaborators :=
  collaborators_with (fun i j => inr (if i =? 0 then Some report_example else None))
    (Some (PyError "PermissionError" "[Errno 13] Permission denied")).

Definition fresh_world : World := {| staging_exists := false; calls := [] |}.

(** An output of stage 2 that the loop of lines 180-186 skips: [None], or
    a dictionary whose [refactored_code] is empty. *)
Definition writes_nothing (output : exn + option WriteOutput) : Prop :=
  output = inr None
  \/ exists o, output = inr (Some o) /\ w_refactored_code o = "".

(** The calls of stage 2 for a list of jobs. *)
Definition stage2_calls (job_list : list CodeChange) : list Call :=
  map (fun j => CallProcessFile (path j)) job_list.

Definition add_calls (w : World) (cs : list Call) : World :=
  {| staging_exists := staging_exists w; calls := calls w ++ cs |}.



(* ================================================================= *)
(** ** The run of [verify_and_fix] as a state machine *)

Definition is_analyzing (ev : VEvent) : bool :=
  match ev with Analyzing _ _ _ => true | _ => false end.

Definition is_repairing (ev : VEvent) : bool :=
  match ev with Repairing _ _ _ => true | _ => false end.

(** The number of entries into ANALYZING and into REPAIRING in a run. *)
Definition analyses (evs : list VEvent) : nat := length (filter is_analyzing evs).

Definition repairs (evs : list VEvent) : nat := length (filter is_repairing evs).

(** The attempt numbers of the validations of a run, in order. *)
Definition validating_attempts (evs : list VEvent) : list nat :=
  flat_map (fun ev => match ev with Validating a _ _ => [a] | _ => [] end) evs.

(** The candidate of the last validation of a run. *)
Fixpoint last_candidate (evs : list VEvent) : option string :=
  match evs with
  | [] => None
  | ev :: rest =>
      match last_candidate rest with
      | Some c => Some c
      | None => match ev with Validating _ _ c => Some c | _ => None end
      end
  end.

(** The rows sent to the progress table with a given status. *)
Definition rows_with (status : string) (evs : list VEvent) : list VEvent :=
  filter (fun ev => match ev with
                    | Publish s _ _ => String.eqb s status
                    | _ => false
                    end) evs.

(** The states of section 4.4 as the loop runs through them: [Run W job a
    cur evs out] is a run that enters VALIDATING in attempt [a] with the
    candidate [cur], does [evs] and ends as [out]. *)
Inductive Run (W : Workers) (job : VerifyJob)
  : nat -> string -> list VEvent -> Outcome VerifyResult -> Prop :=
| run_raises (a : nat) (cur : string) (e : exn) :
    a <= MAX_RETRIES ->
    accepted (validation_result W a (vj_original_code job) cur) = inl e ->
    Run W job a cur
      [Publish "VERIFYING" (verifying_message (basename (vj_file_path job)) a) cur;
       Validating a (vj_original_code job) cur]
      (Raised e)
| run_verified (a : nat) (cur : string) :
    a <= MAX_RETRIES ->
    accepted (validation_result W a (vj_original_code job) cur) = inr true ->
    Run W job a cur
      [Publish "VERIFYING" (verifying_message (basename (vj_file_path job)) a) cur;
       Validating a (vj_original_code job) cur;
       Publish "VERIFIED" ("✅ Verified " ++ basename (vj_file_path job))%string cur]
      (Returned (result_with job cur true (a + 1)))
| run_analysis_fails (a : nat) (cur : string) :
    accepted (validation_result W a (vj_original_code job) cur) = inr false ->
    a < MAX_RETRIES ->
    ((exists e,
         analyze_failure W a cur
           (issues_of (validation_result W a (vj_original_code job) cur))
           (vj_original_code job) = inl e)
     \/ (exists analysis,
           analyze_failure W a cur
             (issues_of (validation_result W a (vj_original_code job) cur))
             (vj_original_code job) = inr analysis
           /\ forall d, analysis <> JObj d)) ->
    Run W job a cur
      [Publish "VERIFYING" (verifying_message (basename (vj_file_path job)) a) cur;
       Validating a (vj_original_code job) cur;
       Publish "FIXING" ("🔧 Analyzing & fixing " ++ basename (vj_file_path job))%string cur;
       Analyzing a cur (issues_of (validation_result W a (vj_original_code job) cur))]
      (Returned (result_with job cur false (MAX_RETRIES + 1)))
| run_repair_fails (a : nat) (cur : string) (d : dict) (e : exn) :
    accepted (validation_result W a (vj_original_code job) cur) = inr false ->
    a < MAX_RETRIES ->
    analyze_failure W a cur
      (issues_of (validation_result W a (vj_original_code job) cur))
      (vj_original_code job) = inr (JObj d) ->
    fix_code W a cur (JObj d) (vj_original_code job) = inl e ->
    Run W job a cur
      [Publish "VERIFYING" (verifying_message (basename (vj_file_path job)) a) cur;
       Validating a (vj_original_code job) cur;
       Publish "FIXING" ("🔧 Analyzing & fixing " ++ basename (vj_file_path job))%string cur;
       Analyzing a cur (issues_of (validation_result W a (vj_original_code job) cur));
       Repairing a cur (JObj d)]
      (Returned (result_with job cur false (MAX_RETRIES + 1)))
| run_repaired (a : nat) (cur : string) (d : dict) (new_code : string)
    (evs : list VEvent) (out : Outcome VerifyResult) :
    accepted (validation_result W a (vj_original_code job) cur) = inr false ->
    a < MAX_RETRIES ->
    analyze_failure W a cur
      (issues_of (validation_result W a (vj_original_code job) cur))
      (vj_original_code job) = inr (JObj d) ->
    fix_code W a cur (JObj d) (vj_original_code job) = inr new_code ->
    Run W job (S a) new_code evs out ->
    Run W job a cur
      ([Publish "VERIFYING" (verifying_message (basename (vj_file_path job)) a) cur;
        Validating a (vj_original_code job) cur;
        Publish "FIXING" ("🔧 Analyzing & fixing " ++ basename (vj_file_path job))%string cur;
        Analyzing a cur (issues_of (validation_result W a (vj_original_code job) cur));
        Repairing a cur (JObj d)] ++ evs)
      out
| run_exhausted (cur : string) :
    accepted (validation_result W MAX_RETRIES (vj_original_code job) cur) = inr false ->
    Run W job MAX_RETRIES cur
      [Publish "VERIFYING"
         (verifying_message (basename (vj_file_path job)) MAX_RETRIES) cur;
       Validating MAX_RETRIES (vj_original_code job) cur]
      (Returned (result_with job cur false (MAX_RETRIES + 1))).

(** A validator answer of the shape that the prompt asks for: a dictionary
    in which [passed], when present, is a boolean and [confidence], when
    present, is a number. *)
Definition answer_in_shape (result : json) : Prop :=
  exists d, result = JObj d
    /\ (lookup "passed" d = None \/ exists b, lookup "passed" d = Some (JBool b))
    /\ (lookup "confidence" d = None
        \/ (exists f, lookup "confidence" d = Some (JFloat f))
        \/ (exists z, lookup "confidence" d = Some (JInt z))).

(** The validator answers [verified] in the third attempt only. *)
Definition W_third_time : Workers :=
  {| verify_code := fun n _ _ => inr (if n =? 2 then assumed_pass else rejection);
     analyze_failure := fun _ _ _ _ => inr diagnosis;
     fix_code := fun n code _ _ => inr (code ++ "#")%string |}.

(* ================================================================= *)
(** ** Python string methods used on the answers of the models *)

(** The line feed. *)
Definition LF : string := String "010"%char "".

(** [c.isspace()] for the characters of ASCII: tab to carriage return,
    the four separators 28 to 31, and the space.  A string is the sequence
    of its bytes, so the white space of Unicode beyond ASCII is left alone. *)
Definition is_space (c : ascii) : bool :=
  let n := nat_of_ascii c in
  ((9 <=? n) && (n <=? 13)) || ((28 <=? n) && (n <=? 32)).

Fixpoint lstrip (s : string) : string :=
  match s with
  | EmptyString => EmptyString
  | String c rest => if is_space c then lstrip rest else s
  end.

Fixpoint rstrip (s : string) : string :=
  match s with
  | EmptyString => EmptyString
  | String c rest =>
      match rstrip rest with
      | EmptyString => if is_space c then EmptyString else String c EmptyString
      | kept => String c kept
      end
  end.

(** [s.strip()] *)
Definition py_strip (s : string) : string := rstrip (lstrip s).

(** [s.split(sep)] for a non-empty [sep], scanning from the left: [cur] is
    the piece under construction and [skip] counts the characters of a
    separator just found that are still to be passed over. *)
Fixpoint split_from (sep : string) (skip : nat) (cur s : string) : list string :=
  match s with
  | EmptyString => [cur]
  | String c rest =>
      match skip with
      | S k => split_from sep k cur rest
      | O =>
          if String.prefix sep s
          then cur :: split_from sep (String.length sep - 1) "" rest
          else split_from sep 0 (cur ++ String c "")%string rest
      end
  end.

Definition py_split (s sep : string) : list string := split_from sep 0 "" s.

(** [sep.join(pieces)] *)
Fixpoint py_join (sep : string) (pieces : list string) : string :=
  match pieces with
  | [] => ""
  | [piece] => piece
  | piece :: rest => (piece ++ sep ++ py_join sep rest)%string
  end.


(* ================================================================= *)
(** ** What the workers make of the answer of a model *)

(** Lines 137-142 of [modal_verify.fix_code], on the stripped answer: a
    leading code fence is cut off with its line, and a closing one too. *)
Definition strip_code_fence (fixed : string) : string :=
  if startswith fixed "```" then
    let lines := py_split fixed LF in
    if String.eqb (py_strip (last lines "")) "```"
    then py_join LF (removelast (tl lines))
    else py_join LF (tl lines)
  else fixed.

(** Lines 136-144: what [fix_code] returns for the text of the answer. *)
Definition fix_output (text : string) : string :=
  strip_code_fence (py_strip text).

(** [text.split(fence)[1].split("```")[0].strip()]; [None] is an
    [IndexError]. *)
Definition between_fences (fence text : string) : option string :=
  match nth_error (py_split text fence) 1 with
  | Some after =>
      match nth_error (py_split after "```") 0 with
      | Some body => Some (py_strip body)
      | None => None
      end
  | None => None
  end.

(** The text handed to [json.loads] by [verify_code] (lines 85-89), by
    [analyze_failure] (lines 111-115), by [checker.analyze_file_with_llm]
    (lines 73-77) and by [modal_write.process_file] (lines 97-101), for the
    text of the answer; [None] is an [IndexError]. *)
Definition json_text (answer : string) : option string :=
  let text := py_strip answer in
  if contains "```json" text then between_fences "```json" text
  else if contains "```" text then between_fences "```" text
  else Some text.

(** [verify_code] and [analyze_failure] for an answer of the model: the
    call of the model may raise, [json.loads] may raise. *)
Definition parse_answer (json_loads : string -> exn + json) (answer : exn + string)
  : exn + json :=
  match answer with
  | inl e => inl e
  | inr text =>
      match json_text text with
      | Some t => json_loads t
      | None => inl (PyError "IndexError" "list index out of range")
      end
  end.

(* ================================================================= *)
(** ** Measures of a directory tree and of an analysis *)

(** The number of files in and beneath an entry. *)
Fixpoint count_files (n : fs_node) : nat :=
  match n with
  | File _ => 1
  | Dir _ entries => list_sum (map count_files entries)
  end.

(** The analysis finds the file outdated: it returns a change with [add]. *)
Definition flagged (analyze : string -> option CodeChange) (filepath : string) : bool :=
  match analyze filepath with
  | Some response => add response
  | None => false
  end.

(** A clone of two nested directories, with version-control metadata and
    a lock file. *)
Definition tree_example : list fs_node :=
  [Dir ".git" [File "config"; Dir "objects" [File "pack"]];
   File "package.json";
   Dir "src" [File "app.py"; File ".env"; Dir "lib" [File "util.js"]];
   File "main.py"].

(* ================================================================= *)
(** ** What the stages of a run amount to *)

(** The entries whose target exists in the clone, and the calls that write
    them. *)
Definition target_exists (C : Collaborators) (j : RefactoredJob) : bool :=
  path_exists C (rj_path j).

Definition write_calls (C : Collaborators) (refactored_jobs : list RefactoredJob)
  : list Call :=
  map (fun j => CallWriteFile (rj_path j) (rj_new_content j))
      (filter (target_exists C) refactored_jobs).

Definition write_succeeds (C : Collaborators) (j : RefactoredJob) : bool :=
  match write_file C (rj_path j) (rj_new_content j) with
  | None => true
  | Some _ => false
  end.

(** The targets that exist and were written without an error. *)
Definition written (C : Collaborators) (refactored_jobs : list RefactoredJob)
  : list string :=
  map rj_path (filter (fun j => target_exists C j && write_succeeds C j) refactored_jobs).

(** The output that stage 2 keeps for a job and its report. *)
Definition output_of (job : CodeChange) (report : JobReport) : WriteOutput :=
  {| w_file_path := path job;
     w_refactored_code := jr_refactored_code report;
     w_refactored_code_comments := jr_refactored_code_comments report |}.

(** The verifier rejects and cannot analyse: every result is unverified. *)
Definition C_unverified : Collaborators :=
  {| getcwd := inr "/srv/dependify";
     rmtree_stale := None;
     makedirs := None;
     clone_for_analysis := fun _ => inr ("/root/scripts", [File "a.py"; File "b.py"]);
     analyze_file_with_llm := analysis_example;
     write_worker := fun _ _ => inr (Some report_example);
     verifier := fun _ => W_analyzer_down;
     create_fork := fun _ _ => inr (Some fork_example);
     git_clone := fun _ _ => inr (0%Z, "");
     load_repository := fun _ => None;
     path_exists := fun p => String.eqb p "/srv/dependify/staging/a.py";
     write_file := fun _ _ => None;
     create_and_push_branch :=
       fun _ => inr (JStr "dependify-updates", JStr "dependify-bot");
     create_pull_request :=
       fun _ _ _ _ _ _ => inr (JStr "https://github.com/octocat/legacy-app/pull/1");
     rmtree_cleanup := None |}.


(** The clone of stage 1 fails. *)
Definition C_clone_fails : Collaborators :=
  {| getcwd := inr "/srv/dependify";
     rmtree_stale := None;
     makedirs := None;
     clone_for_analysis :=
       fun _ => inl (CalledProcessError "Command 'git clone' returned non-zero exit status 128.");
     analyze_file_with_llm := analysis_example;
     write_worker := fun _ _ => inr (Some report_example);
     verifier := fun _ => W_soft_pass;
     create_fork := fun _ _ => inr (Some fork_example);
     git_clone := fun _ _ => inr (0%Z, "");
     load_repository := fun _ => None;
     path_exists := fun _ => true;
     write_file := fun _ _ => None;
     create_and_push_branch :=
       fun _ => inr (JStr "dependify-updates", JStr "dependify-bot");
     create_pull_request :=
       fun _ _ _ _ _ _ => inr (JStr "https://github.com/octocat/legacy-app/pull/1");
     rmtree_cleanup := None |}.

(* ================================================================= *)
(** ** server.py: the [/auth/github] endpoint *)






(** Stage 2 of the pipeline. *)
Definition is_stage2 (c : Call) : bool :=
  match c with CallProcessFile _ => true | _ => false end.

(** The set-up of the staging directory and stage 1. *)
Definition is_stage1 (c : Call) : bool :=
  match c with
  | CallRmtree _ | CallMakedirs _ | CallRunScript _ => true
  | _ => false
  end.

(* ================================================================= *)
(** ** The guarded call of the model *)

(** What the [try] statement of [modal_write.process_file] (lines 77-130)
    and of [checker.analyze_file_with_llm] (lines 60-109) calls for one
    file; [R] is the pydantic model the answer is validated against. *)
Record ModelServices (R : Type) : Type := mkModelServices {
  (** [client.messages.create(...)], down to the text of its first block *)
  messages_create : exn + string;
  json_loads : string -> exn + json;
  (** the pydantic model made of the parsed answer: [JobReport], [CodeChange] *)
  validate : json -> exn + R;
  (** the [k]-th [insert(data).execute()] into the progress table *)
  insert_row : nat -> option exn
}.

Arguments messages_create {R} _.
Arguments json_loads {R} _ _.
Arguments validate {R} _ _.
Arguments insert_row {R} _ _.

(** The body of the [try]: the answer is parsed and validated, the
    progress row is inserted, and inserted once more when that raised. *)
Definition try_body {R : Type} (S : ModelServices R) : exn + R :=
  match parse_answer (json_loads S) (messages_create S) with
  | inl e => inl e
  | inr parsed =>
      match validate S parsed with
      | inl e => inl e
      | inr report =>
          match insert_row S 0 with
          | None => inr report
          | Some _ =>
              match insert_row S 1 with
              | None => inr report
              | Some e => inl e
              end
          end
      end
  end.

(** The [try] statement: both handlers print and return [None]. *)
Definition guarded_answer {R : Type} (S : ModelServices R) : option R :=
  match try_body S with
  | inr report => Some report
  | inl _ => None
  end.

(** A model that answers well while the progress table is down. *)
Definition S_table_down (file_path : string) : ModelServices CodeChange :=
  {| messages_create := inr "{}";
     json_loads := fun _ => inr (JObj []);
     validate := fun _ => inr {| path := file_path;
                                 code_content := "print 'hi'";
                                 reason := "print statement";
                                 add := true |};
     insert_row := fun _ => Some (PyError "APIError" "connection refused") |}.

Definition C_table_down : Collaborators :=
  {| getcwd := inr "/srv/dependify";
     rmtree_stale := None;
     makedirs := None;
     clone_for_analysis := fun _ => inr ("/root/scripts", tree_example);
     analyze_file_with_llm := fun file_path => guarded_answer (S_table_down file_path);
     write_worker := fun _ _ => inr (Some report_example);
     verifier := fun _ => W_soft_pass;
     create_fork := fun _ _ => inr (Some fork_example);
     git_clone := fun _ _ => inr (0%Z, "");
     load_repository := fun _ => None;
     path_exists := fun _ => true;
     write_file := fun _ _ => None;
     create_and_push_branch :=
       fun _ => inr (JStr "dependify-updates", JStr "dependify-bot");
     create_pull_request :=
       fun _ _ _ _ _ _ => inr (JStr "https://github.com/octocat/legacy-app/pull/1");
     rmtree_cleanup := None |}.

(** A writer whose first insert fails and whose second goes through. *)
Definition S_second_insert : ModelServices JobReport :=
  {| messages_create := inr "{}";
     json_loads := fun _ => inr (JObj []);
     validate := fun _ => inr report_example;
     insert_row := fun k => if k =? 0 then Some (PyError "APIError" "column missing")
                            else None |}.

(** No occurrence of [sep] in [a ++ tail] starts inside [a]: the first
    place where [sep] can be found is the end of [a]. *)
Fixpoint starts_none (sep a tail : string) : bool :=
  match a with
  | EmptyString => true
  | String c a' =>
      negb (String.prefix sep (String c (a' ++ tail))) && starts_none sep a' tail
  end.


(* ================================================================= *)
(** ** The join as the specification words it *)





(* ================================================================= *)
(** * Properties *)

(** ** The verification and repair loop *)

Lemma validations_app (a b : list VEvent) :
  validations (a ++ b) = validations a + validations b.
Proof.
  unfold validations. rewrite filter_app, length_app. reflexivity.
Qed.

Lemma fst_prepend (A : Type) (evs : list VEvent) (r : list VEvent * A) :
  fst (prepend evs r) = evs ++ fst r.
Proof. reflexivity. Qed.

Lemma snd_prepend (A : Type) (evs : list VEvent) (r : list VEvent * A) :
  snd (prepend evs r) = snd r.
Proof. reflexivity. Qed.

Section VerifyProperties.

Variable W : Workers.
Variable job : VerifyJob.

(** One unfolding of the loop. *)
Lemma verify_loop_cons (attempt : nat) (rest : list nat) (cur : string) :
  verify_loop W job (attempt :: rest) cur =
  prepend [Publish "VERIFYING" (verifying_message (basename (vj_file_path job)) attempt) cur;
           Validating attempt (vj_original_code job) cur]
    match accepted (validation_result W attempt (vj_original_code job) cur) with
    | inl e => ([], Raised e)
    | inr true => accept job attempt cur
    | inr false =>
        on_rejected W job (verify_loop W job rest) attempt
          (validation_result W attempt (vj_original_code job) cur) cur
    end.
Proof. reflexivity. Qed.

Lemma analyze_and_fix_validations (attempt : nat) (cur : string) (issues : json) :
  validations (fst (analyze_and_fix W job attempt cur issues)) = 0.
Proof.
  unfold analyze_and_fix.
  destruct (analyze_failure W attempt cur issues (vj_original_code job)) as [e | analysis];
    [reflexivity | destruct analysis; reflexivity].
Qed.

(** A rejected candidate either ends the run as exhausted, which with
    attempts left needs a failed analysis or repair, or hands some
    candidate to the rest of the loop; no validation happens meanwhile. *)
Lemma on_rejected_cases (k : string -> list VEvent * Outcome VerifyResult)
    (attempt : nat) (result : json) (cur : string) :
  (exists evs e,
      validations evs = 0 /\ attempt < MAX_RETRIES /\
      snd (analyze_and_fix W job attempt cur (issues_of result)) = inl e /\
      on_rejected W job k attempt result cur = (evs, snd (exhausted job cur)))
  \/ (exists evs c,
      validations evs = 0 /\
      on_rejected W job k attempt result cur = (evs ++ fst (k c), snd (k c))).
Proof.
  unfold on_rejected.
  destruct (attempt <? MAX_RETRIES) eqn:Hlt.
  - apply Nat.ltb_lt in Hlt.
    pose proof (analyze_and_fix_validations attempt cur (issues_of result)) as Hv.
    destruct (analyze_and_fix W job attempt cur (issues_of result)) as [evs [e | c]];
      cbn [fst snd] in *.
    + left. eexists _, e.
      split; [ | split; [exact Hlt | split; [reflexivity | ]]].
      2: { unfold prepend; cbn [fst snd app]. rewrite app_nil_r. reflexivity. }
      exact Hv.
    + right. eexists _, c.
      split.
      2: { unfold prepend; cbn [fst snd app]. rewrite app_comm_cons. reflexivity. }
      exact Hv.
  - right. exists [], cur. split; [reflexivity | ].
    cbn [app]. destruct (k cur); reflexivity.
Qed.



(** Every way the loop can end. *)
Lemma verify_loop_outcome (pending : list nat) (cur : string) :
  match snd (verify_loop W job pending cur) with
  | Returned r =>
      (verified r = false /\ attempts r = MAX_RETRIES + 1)
      \/ (verified r = true /\ exists a, In a pending /\ attempts r = a + 1)
  | Raised e =>
      exists a c, In a pending /\ accepted (validation_result W a (vj_original_code job) c) = inl e
  end.
Proof.
  revert cur. induction pending as [| attempt rest IH]; intro cur.
  - cbn. left. split; reflexivity.
  - rewrite verify_loop_cons, snd_prepend.
    destruct (accepted _) as [e | [|]] eqn:Hacc.
    + cbn. exists attempt, cur. split; [now left | exact Hacc].
    + cbn. right. split; [reflexivity | ]. exists attempt. split; [now left | reflexivity].
    + destruct (on_rejected_cases (verify_loop W job rest) attempt
                  (validation_result W attempt (vj_original_code job) cur) cur)
        as [(evs & e & _ & _ & _ & ->) | (evs & c & _ & ->)]; cbn [snd].
      * left. split; reflexivity.
      * specialize (IH c). destruct (snd (verify_loop W job rest c)) as [r | e].
        -- destruct IH as [IH | (Hv & a & Ha & Hr)]; [now left | right].
           split; [exact Hv | ]. exists a. split; [now right | exact Hr].
        -- destruct IH as (a & c' & Ha & Hr). exists a, c'. split; [now right | exact Hr].
Qed.

End VerifyProperties.





(** An accepted candidate is returned as it is, verified. *)
Lemma verify_loop_accepts (W : Workers) (job : VerifyJob)
    (attempt : nat) (rest : list nat) (cur : string) :
  accepted (validation_result W attempt (vj_original_code job) cur) = inr true ->
  snd (verify_loop W job (attempt :: rest) cur)
  = Returned (result_with job cur true (attempt + 1))
  /\ validations (fst (verify_loop W job (attempt :: rest) cur)) = 1.
Proof.
  intro Hacc. rewrite verify_loop_cons, Hacc. split; reflexivity.
Qed.



(** C6. When [verify_code] raises, be it the call of the model or the
    parsing of its answer, the result is the assumed pass with confidence
    0.5, this entry into VALIDATING is accepted, and the run returns the
    candidate under test with [verified = true]; on the first call that
    candidate is the input [refactored_code]. *)
Theorem validator_failure_passes (W : Workers) (job : VerifyJob)
    (attempt : nat) (rest : list nat) (cur : string) (e : exn) :
  verify_code W attempt (vj_original_code job) cur = inl e ->
  validation_result W attempt (vj_original_code job) cur = assumed_pass
  /\ assumed_pass = JObj [("passed", JBool true); ("issues", JArr []);
                          ("confidence", JFloat 0.5%float)]
  /\ accepted assumed_pass = inr true
  /\ snd (verify_loop W job (attempt :: rest) cur)
     = Returned (result_with job cur true (attempt + 1))
  /\ (attempt = 0 -> cur = vj_refactored_code job ->
      snd (verify_and_fix W job)
      = Returned (result_with job (vj_refactored_code job) true 1)).
Proof.
  intro Hv.
  assert (Hr : validation_result W attempt (vj_original_code job) cur = assumed_pass).
  { unfold validation_result. rewrite Hv. reflexivity. }
  split; [exact Hr | ]. split; [reflexivity | ]. split; [reflexivity | ].
  assert (Hacc : accepted (validation_result W attempt (vj_original_code job) cur)
                 = inr true) by (rewrite Hr; reflexivity).
  split.
  - apply verify_loop_accepts. exact Hacc.
  - intros -> ->. unfold verify_and_fix.
    change (seq 0 (MAX_RETRIES + 1)) with (0 :: seq 1 MAX_RETRIES).
    apply verify_loop_accepts. exact Hacc.
Qed.

Lemma validator_failure_passes_witness :
  snd (verify_and_fix W_validator_unparsable job_example)
  = Returned (result_with job_example (vj_refactored_code job_example) true 1).
Proof.
  apply (proj2 (proj2 (proj2 (proj2
           (validator_failure_passes W_validator_unparsable job_example 0 []
              (vj_refactored_code job_example)
              (PyError "JSONDecodeError" "Expecting value") eq_refl)))));
    reflexivity.
Defined.

(** The three ways in which lines 206-210 raise. *)
Lemma analyze_and_fix_raises (W : Workers) (job : VerifyJob)
    (attempt : nat) (cur : string) (issues : json) :
  (exists e, analyze_failure W attempt cur issues (vj_original_code job) = inl e)
  \/ (exists analysis,
        analyze_failure W attempt cur issues (vj_original_code job) = inr analysis
        /\ ((forall d, analysis <> JObj d)
            \/ exists e, fix_code W attempt cur analysis (vj_original_code job) = inl e))
  <-> exists e, snd (analyze_and_fix W job attempt cur issues) = inl e.
Proof.
  unfold analyze_and_fix.
  destruct (analyze_failure W attempt cur issues (vj_original_code job)) as [e | analysis].
  - split; [ | intros _; left; exists e; reflexivity].
    intros _. exists e. reflexivity.
  - split.
    + intros [[e He] | (a & Ha & H)]; [discriminate | ].
      injection Ha as <-.
      destruct analysis; try (eexists; reflexivity).
      destruct H as [H | [e He]]; [exfalso; eapply H; reflexivity | ].
      exists e. exact He.
    + intros [e He]. right. exists analysis. split; [reflexivity | ].
      destruct analysis; try (left; intros d; discriminate).
      right. exists e. exact He.
Qed.

(** A failed analysis or repair with attempts left ends the run as
    exhausted, with the candidate that was rejected. *)
Lemma verify_loop_breaks (W : Workers) (job : VerifyJob)
    (attempt : nat) (rest : list nat) (cur : string) (e : exn) :
  attempt < MAX_RETRIES ->
  accepted (validation_result W attempt (vj_original_code job) cur) = inr false ->
  snd (analyze_and_fix W job attempt cur
         (issues_of (validation_result W attempt (vj_original_code job) cur))) = inl e ->
  snd (verify_loop W job (attempt :: rest) cur)
  = Returned (result_with job cur false (MAX_RETRIES + 1))
  /\ validations (fst (verify_loop W job (attempt :: rest) cur)) = 1.
Proof.
  intros Hlt Hacc He.
  rewrite verify_loop_cons, Hacc. unfold on_rejected.
  apply Nat.ltb_lt in Hlt. rewrite Hlt.
  rewrite !snd_prepend, !fst_prepend, He. split; [reflexivity | ].
  rewrite !validations_app, analyze_and_fix_validations. reflexivity.
Qed.

(** C7. When the analysis or the repair of a rejected candidate raises
    (the analyzer call or the parsing of its answer, an analysis that is
    no dictionary, or the fixer call), [verify_and_fix] raises nothing: it
    returns the candidate that was rejected, with [verified = false]. *)
Theorem repair_failure_breaks_loop (W : Workers) (job : VerifyJob)
    (attempt : nat) (rest : list nat) (cur : string) :
  attempt < MAX_RETRIES ->
  accepted (validation_result W attempt (vj_original_code job) cur) = inr false ->
  ((exists e, analyze_failure W attempt cur
                (issues_of (validation_result W attempt (vj_original_code job) cur))
                (vj_original_code job) = inl e)
   \/ (exists analysis,
         analyze_failure W attempt cur
           (issues_of (validation_result W attempt (vj_original_code job) cur))
           (vj_original_code job) = inr analysis
         /\ ((forall d, analysis <> JObj d)
             \/ exists e, fix_code W attempt cur analysis (vj_original_code job) = inl e))) ->
  snd (verify_loop W job (attempt :: rest) cur)
  = Returned (result_with job cur false (MAX_RETRIES + 1))
  /\ (attempt = 0 -> cur = vj_refactored_code job ->
      snd (verify_and_fix W job)
      = Returned (result_with job (vj_refactored_code job) false (MAX_RETRIES + 1))).
Proof.
  intros Hlt Hacc Hfail.
  apply analyze_and_fix_raises in Hfail. destruct Hfail as [e He].
  split.
  - apply (verify_loop_breaks W job attempt rest cur e Hlt Hacc He).
  - intros -> ->. unfold verify_and_fix.
    change (seq 0 (MAX_RETRIES + 1)) with (0 :: seq 1 MAX_RETRIES).
    apply (verify_loop_breaks W job 0 (seq 1 MAX_RETRIES) _ e Hlt Hacc He).
Qed.

Lemma repair_failure_breaks_loop_witness :
  snd (verify_and_fix W_analyzer_down job_example)
  = Returned (result_with job_example (vj_refactored_code job_example) false
                (MAX_RETRIES + 1)).
Proof.
  refine (proj2 (repair_failure_breaks_loop W_analyzer_down job_example 0 []
                   (vj_refactored_code job_example) _ _ _) eq_refl eq_refl).
  - unfold MAX_RETRIES. lia.
  - reflexivity.
  - left. eexists. reflexivity.
Defined.

(** C10. A result with [verified = false] always reports
    [attempts = MAX_RETRIES + 1].  When the first candidate is rejected and
    its analysis or repair raises, the run has validated once, which is
    fewer than [MAX_RETRIES + 1] times, and still reports
    [attempts = MAX_RETRIES + 1]. *)
Theorem exhausted_attempts_constant (W : Workers) (job : VerifyJob) :
  (forall r, snd (verify_and_fix W job) = Returned r ->
             verified r = false -> attempts r = MAX_RETRIES + 1)
  /\ (forall e,
      accepted (validation_result W 0 (vj_original_code job) (vj_refactored_code job))
      = inr false ->
      snd (analyze_and_fix W job 0 (vj_refactored_code job)
             (issues_of (validation_result W 0 (vj_original_code job)
                           (vj_refactored_code job)))) = inl e ->
      exists r, snd (verify_and_fix W job) = Returned r
                /\ verified r = false
                /\ attempts r = MAX_RETRIES + 1
                /\ validations (fst (verify_and_fix W job)) = 1
                /\ validations (fst (verify_and_fix W job)) < MAX_RETRIES + 1).
Proof.
  split.
  - intros r Hr Hv.
    pose proof (verify_loop_outcome W job (seq 0 (MAX_RETRIES + 1))
                  (vj_refactored_code job)) as H.
    unfold verify_and_fix in Hr. rewrite Hr in H.
    destruct H as [[_ H] | [H _]]; [exact H | congruence].
  - intros e Hacc He. unfold verify_and_fix.
    change (seq 0 (MAX_RETRIES + 1)) with (0 :: seq 1 MAX_RETRIES).
    assert (Hlt : 0 < MAX_RETRIES) by (unfold MAX_RETRIES; lia).
    destruct (verify_loop_breaks W job 0 (seq 1 MAX_RETRIES) _ e Hlt Hacc He) as [Hr Hn].
    eexists. split; [exact Hr | ]. rewrite Hn.
    repeat split. unfold MAX_RETRIES. lia.
Qed.

Lemma exhausted_attempts_constant_witness :
  exists r, snd (verify_and_fix W_analyzer_down job_example) = Returned r
            /\ verified r = false
            /\ attempts r = MAX_RETRIES + 1
            /\ validations (fst (verify_and_fix W_analyzer_down job_example)) = 1
            /\ validations (fst (verify_and_fix W_analyzer_down job_example))
               < MAX_RETRIES + 1.
Proof.
  apply (proj2 (exhausted_attempts_constant W_analyzer_down job_example)
           (PyError "APIConnectionError" "Connection error."));
    reflexivity.
Defined.

(** ** The artifact enumerator *)

Lemma prefix_app (p s : string) : String.prefix p (p ++ s)%string = true.
Proof.
  induction p as [| c p IH]; cbn.
  - destruct s; reflexivity.
  - destruct (ascii_dec c c) as [_ | Hne]; [exact IH | contradiction].
Qed.

Lemma contains_app (sub above below : string) :
  contains sub (above ++ sub ++ below)%string = true.
Proof.
  induction above as [| c above IH].
  - cbn [String.append]. destruct (sub ++ below)%string eqn:E;
      cbn [contains]; rewrite <- E, prefix_app; reflexivity.
  - cbn [String.append contains]. rewrite IH. apply orb_true_r.
Qed.

Lemma endswith_app (stem ext : string) :
  endswith (stem ++ ext)%string ext = true.
Proof.
  induction stem as [| c stem IH].
  - cbn [String.append]. destruct ext; cbn [endswith]; rewrite String.eqb_refl; reflexivity.
  - cbn [String.append endswith]. rewrite IH. apply orb_true_r.
Qed.

Lemma string_app_assoc (a b c : string) :
  ((a ++ b) ++ c)%string = (a ++ b ++ c)%string.
Proof.
  induction a as [| x a IH]; cbn; [reflexivity | rewrite IH; reflexivity].
Qed.

Lemma prefix_app_l (p a b : string) :
  String.prefix p a = true -> String.prefix p (a ++ b)%string = true.
Proof.
  revert a. induction p as [| c p IH]; intros a H.
  - destruct (a ++ b)%string; reflexivity.
  - destruct a as [| d a]; [discriminate H | ]. cbn in *.
    destruct (ascii_dec c d); [apply IH; exact H | discriminate H].
Qed.

Lemma contains_app_l (sub a b : string) :
  contains sub a = true -> contains sub (a ++ b)%string = true.
Proof.
  induction a as [| c a IH]; intro H.
  - cbn in H. rewrite orb_false_r in H.
    destruct sub; [ | discriminate H].
    destruct b; reflexivity.
  - cbn [contains] in H. apply orb_true_iff in H. cbn [String.append contains].
    apply orb_true_iff. destruct H as [H | H].
    + left. apply (prefix_app_l _ (String c a) b H).
    + right. apply IH. exact H.
Qed.

Lemma name_is_relative (name : string) :
  contains "/" name = false -> startswith name "/" = false.
Proof.
  destruct name as [| c name]; [reflexivity | ].
  cbn [contains]. intro H. apply orb_false_iff in H. exact (proj1 H).
Qed.

Lemma os_path_join_relative (dir name : string) :
  startswith name "/" = false ->
  os_path_join dir name = (dir ++ name)%string
  \/ os_path_join dir name = (dir ++ "/" ++ name)%string.
Proof.
  intro H. unfold os_path_join. rewrite H.
  destruct (String.eqb dir "" || endswith dir "/"); [left | right]; reflexivity.
Qed.

Lemma endswith_git (a : string) : endswith (a ++ ".git")%string "/" = false.
Proof.
  induction a as [| c a IH]; [reflexivity | ].
  cbn [String.append endswith]. rewrite IH, orb_false_r.
  apply String.eqb_neq. destruct a; discriminate.
Qed.

(** The files of a directory named [.git]. *)
Lemma beneath_git_start (parent : string) : beneath_git (os_path_join parent ".git").
Proof.
  intros name Hrel.
  assert (Hg : exists a, os_path_join parent ".git" = (a ++ ".git")%string).
  { destruct (os_path_join_relative parent ".git" eq_refl) as [-> | ->].
    - exists parent. reflexivity.
    - exists (parent ++ "/")%string. rewrite string_app_assoc. reflexivity. }
  destruct Hg as [a ->].
  unfold os_path_join. rewrite Hrel, endswith_git, orb_false_r.
  assert (Hne : String.eqb (a ++ ".git") "" = false)
    by (apply String.eqb_neq; destruct a; discriminate).
  rewrite Hne, string_app_assoc.
  apply (contains_app ".git/" a name).
Qed.

(** The sub-directories of such a directory. *)
Lemma beneath_git_step (dir name : string) :
  beneath_git dir -> startswith name "/" = false ->
  beneath_git (os_path_join dir name).
Proof.
  intros Hdir Hrel name' Hrel'.
  destruct (os_path_join_relative (os_path_join dir name) name' Hrel') as [-> | ->];
    apply contains_app_l, Hdir, Hrel.
Qed.

Lemma fs_node_induction (P : fs_node -> Prop) :
  (forall name, P (File name)) ->
  (forall name entries, Forall P entries -> P (Dir name entries)) ->
  forall n, P n.
Proof.
  intros HF HD. fix IH 1. intros [name | name entries].
  - apply HF.
  - apply HD. induction entries as [| e rest IHrest]; constructor;
      [apply IH | exact IHrest].
Qed.

Lemma files_in_beneath_git (dir : string) (entries : list fs_node) (p : string) :
  beneath_git dir -> forallb names_ok entries = true ->
  In p (files_in dir entries) -> contains ".git/" p = true.
Proof.
  intros Hdir. induction entries as [| [name | name sub] rest IH]; intros Hok Hin.
  - destruct Hin.
  - cbn [forallb names_ok] in Hok. apply andb_true_iff in Hok. destruct Hok as [Hn Hrest].
    destruct Hin as [<- | Hin]; [ | apply IH; assumption].
    apply Hdir, name_is_relative. apply negb_true_iff. exact Hn.
  - cbn [forallb] in Hok. apply andb_true_iff in Hok. apply IH; [apply Hok | exact Hin].
Qed.

(** Whatever the walk lists beneath a directory named [.git], at any
    depth, has a [.git/] in its path. *)
Lemma walk_entry_beneath_git (n : fs_node) :
  forall dir p, beneath_git dir -> names_ok n = true ->
                In p (walk_entry dir n) -> contains ".git/" p = true.
Proof.
  induction n as [name | name entries IH] using fs_node_induction;
    intros dir p Hdir Hok Hin.
  - destruct Hin.
  - cbn [names_ok] in Hok. apply andb_true_iff in Hok. destruct Hok as [Hn Hentries].
    assert (Hsub : beneath_git (os_path_join dir name)).
    { apply beneath_git_step; [exact Hdir | ].
      apply name_is_relative, negb_true_iff, Hn. }
    cbn [walk_entry] in Hin. apply in_app_or in Hin. destruct Hin as [Hin | Hin].
    + apply (files_in_beneath_git _ entries p Hsub Hentries Hin).
    + apply in_flat_map in Hin. destruct Hin as (e & He & Hin).
      rewrite Forall_forall in IH. apply (IH e He _ p Hsub); [ | exact Hin].
      rewrite forallb_forall in Hentries. apply Hentries, He.
Qed.

Section FetchProperties.

Variable analyze_file_with_llm : string -> option CodeChange.

(** The files handed to the analysis are the files that pass the filter,
    in the order of the walk. *)
Lemma fetch_loop_queried (all_files : list string) :
  fst (fetch_loop analyze_file_with_llm all_files)
  = filter (fun p => negb (excluded p)) all_files.
Proof.
  induction all_files as [| p rest IH]; [reflexivity | ].
  cbn [fetch_loop filter].
  destruct (fetch_loop analyze_file_with_llm rest) as [queried results].
  cbn [fst] in IH. subst queried.
  destruct (excluded p); cbn [negb]; [reflexivity | ].
  destruct (analyze_file_with_llm p) as [response |]; [ | reflexivity].
  destruct (Bool.eqb (add response) false); reflexivity.
Qed.

(** Every result carries the path of a file handed to the analysis. *)
Lemma fetch_loop_results (all_files : list string) (c : CodeChange) :
  In c (snd (fetch_loop analyze_file_with_llm all_files)) ->
  In (path c) (fst (fetch_loop analyze_file_with_llm all_files)).
Proof.
  induction all_files as [| p rest IH]; [intros [] | ].
  cbn [fetch_loop].
  destruct (fetch_loop analyze_file_with_llm rest) as [queried results].
  cbn [fst snd] in *.
  destruct (excluded p); [exact IH | ].
  destruct (analyze_file_with_llm p) as [response |].
  - destruct (Bool.eqb (add response) false); cbn [fst snd].
    + intro H. right. auto.
    + intros [<- | H]; [left; reflexivity | right; auto].
  - cbn [fst snd]. intro H. right. auto.
Qed.

End FetchProperties.

(** C5, as the code has it. The enumerator hands a file of the walk to the
    analysis exactly when the filter of lines 119-123 lets it pass, and
    every result refers to such a file.  The filter stops every file whose
    basename starts with a dot, every file whose path ends with an
    extension of the denylist, and every path with a [.git/] component,
    hence every file that the walk lists beneath a directory named [.git],
    at any depth.  [.txt] is not on the denylist: of a root that holds [a.txt] and [b.py]
    both files are enumerated, while of a root that holds [a.md] and
    [b.py] only [b.py] is. *)
Theorem enumerator_exclusions (analyze : string -> option CodeChange)
    (directory : string) (entries : list fs_node) :
  (forall p, In p (fst (fetch_updates analyze directory entries))
             <-> In p (get_all_files_recursively directory entries)
                 /\ excluded p = false)
  /\ (forall c, In c (snd (fetch_updates analyze directory entries)) ->
                In (path c) (fst (fetch_updates analyze directory entries)))
  /\ (forall p, startswith (basename p) "." = true -> excluded p = true)
  /\ (forall stem ext, In ext DENYLIST -> excluded (stem ++ ext)%string = true)
  /\ (forall above below, excluded (above ++ ".git/" ++ below)%string = true)
  /\ (forall parent git_entries p,
        forallb names_ok git_entries = true ->
        In p (walk_entry parent (Dir ".git" git_entries)) -> excluded p = true)
  /\ ~ In ".txt" DENYLIST
  /\ fst (fetch_updates analyze clone_root [File "a.txt"; File "b.py"])
     = ["/root/scripts/repository/a.txt"; "/root/scripts/repository/b.py"]
  /\ fst (fetch_updates analyze clone_root [File "a.md"; File "b.py"])
     = ["/root/scripts/repository/b.py"].
Proof.
  unfold fetch_updates.
  split; [ | split; [ | split; [ | split; [ | split; [ | split; [ | split; [ | split]]]]]]].
  - intro p. rewrite fetch_loop_queried, filter_In.
    destruct (excluded p); cbn [negb]; intuition congruence.
  - intro c. apply fetch_loop_results.
  - intros p Hdot. unfold excluded. rewrite Hdot. reflexivity.
  - intros stem ext Hin. unfold excluded.
    assert (H : existsb (endswith (stem ++ ext)%string) DENYLIST = true).
    { apply existsb_exists. exists ext. split; [exact Hin | apply endswith_app]. }
    rewrite H. rewrite orb_true_r. reflexivity.
  - intros above below. unfold excluded. rewrite contains_app. apply orb_true_r.
  - intros parent git_entries p Hok Hin. unfold excluded.
    assert (H : contains ".git/" p = true).
    { cbn [walk_entry] in Hin. apply in_app_or in Hin. destruct Hin as [Hin | Hin].
      - apply (files_in_beneath_git _ git_entries p (beneath_git_start parent) Hok Hin).
      - apply in_flat_map in Hin. destruct Hin as (e & He & Hin).
        apply (walk_entry_beneath_git e _ p (beneath_git_start parent)); [ | exact Hin].
        rewrite forallb_forall in Hok. apply Hok, He. }
    rewrite H. apply orb_true_r.
  - cbn. intuition discriminate.
  - rewrite fetch_loop_queried. reflexivity.
  - rewrite fetch_loop_queried. reflexivity.
Qed.

Lemma enumerator_exclusions_witness :
  excluded "/root/scripts/repository/.eslintrc" = true
  /\ excluded ("/root/scripts/repository/README" ++ ".md")%string = true.
Proof.
  split.
  - apply (proj1 (proj2 (proj2 (enumerator_exclusions flag_everything clone_root
                                   [File ".eslintrc"; File "README.md"])))).
    reflexivity.
  - apply (proj1 (proj2 (proj2 (proj2 (enumerator_exclusions flag_everything clone_root
                                          [File ".eslintrc"; File "README.md"]))))).
    cbn. tauto.
Defined.

(** C5, as the specification has it, fails: [a.txt] passes the filter, and
    with an analysis that finds both files outdated the output of the
    enumerator refers to [a.txt] as well. *)
Lemma txt_file_is_enumerated :
  excluded "/root/scripts/repository/a.txt" = false
  /\ map path (snd (fetch_updates flag_everything clone_root [File "a.txt"; File "b.py"]))
     = ["/root/scripts/repository/a.txt"; "/root/scripts/repository/b.py"]
  /\ ~ (forall analyze c,
          In c (snd (fetch_updates analyze clone_root [File "a.txt"; File "b.py"])) ->
          path c = "/root/scripts/repository/b.py").
Proof.
  split; [reflexivity | split; [reflexivity | ]].
  intro H.
  specialize (H flag_everything
                (set_path {| path := "relative/file/path"; code_content := "print 'hi'";
                             reason := "print statement"; add := true |}
                          "/root/scripts/repository/a.txt")).
  cbn in H. specialize (H (or_introl eq_refl)). discriminate H.
Qed.

(** ** The correlator *)



(** ** The endpoint *)

Lemma staging_dir_truthy (cwd : string) :
  str_truthy (os_path_join cwd "staging") = true.
Proof.
  unfold os_path_join. cbn [startswith String.prefix].
  destruct (String.eqb cwd "" || endswith cwd "/"); destruct cwd; reflexivity.
Qed.

Lemma handle_raised (e : exn) :
  exists status detail, handle (Raised e) = Raised (HTTPException status detail).
Proof.
  destruct e as [s d | stderr m | m | m | c m]; cbn; eauto.
Qed.

(** C9, as the code has it. On every exit path, whether the run returns a
    response or raises an HTTP error, the [finally] clause calls [rmtree]
    when the staging directory exists, and the directory is gone when that
    call succeeds.  A staging directory that is left behind means that this
    last call raised: the exception is caught and printed.  When
    [os.getcwd] raises, the run has touched nothing. *)
Theorem staging_removed_unless_removal_raises (C : Collaborators)
    (payload : UpdateRequest) (w : World) :
  (forall cwd, getcwd C = inr cwd -> rmtree_cleanup C = None ->
               staging_exists (snd (update C payload w)) = false)
  /\ (forall cwd, getcwd C = inr cwd ->
        staging_exists (snd (update C payload w)) = true ->
        exists e before,
          rmtree_cleanup C = Some e
          /\ calls (snd (update C payload w))
             = before ++ [CallRmtree (os_path_join cwd "staging")])
  /\ (forall e, getcwd C = inl e ->
        update C payload w = (Raised (to_http_error e), w)).
Proof.
  unfold update. split; [ | split].
  - intros cwd Hcwd Hrm. rewrite Hcwd.
    destruct (pipeline C payload (os_path_join cwd "staging") w) as [out w'].
    cbn [snd]. unfold cleanup. rewrite staging_dir_truthy, Hrm. cbn [andb].
    destruct (staging_exists w') eqn:E; [reflexivity | exact E].
  - intros cwd Hcwd. rewrite Hcwd.
    destruct (pipeline C payload (os_path_join cwd "staging") w) as [out w'].
    cbn [snd]. unfold cleanup. rewrite staging_dir_truthy. cbn [andb].
    destruct (staging_exists w') eqn:E; [ | congruence].
    cbn [staging_exists calls].
    destruct (rmtree_cleanup C) as [e |]; [ | discriminate].
    intros _. exists e, (calls w'). split; reflexivity.
  - intros e He. rewrite He. reflexivity.
Qed.

Lemma staging_removed_unless_removal_raises_witness :
  staging_exists (snd (update C_partial request_example fresh_world)) = false.
Proof.
  apply (proj1 (staging_removed_unless_removal_raises C_partial request_example fresh_world)
           "/srv/dependify"); reflexivity.
Defined.

(** C9, as the specification has it, fails: when [rmtree] raises in the
    [finally] clause the run still returns its response, and the staging
    directory is left behind. *)
Lemma staging_left_behind :
  (exists response,
      fst (update C_removal_fails request_example fresh_world) = Returned response)
  /\ staging_exists (snd (update C_removal_fails request_example fresh_world)) = true.
Proof.
  split; [eexists | ]; vm_compute; reflexivity.
Qed.

(** Stage 2 when no output carries code: the calls are made and the list
    of outputs is empty. *)
Lemma collect_write_outputs_nothing (C : Collaborators) (job_list : list CodeChange) :
  (forall i j, In j job_list -> writes_nothing (remote_process_file C i j)) ->
  forall i w,
    collect_write_outputs C i job_list w
    = (Returned [], add_calls w (stage2_calls job_list)).
Proof.
  induction job_list as [| job rest IH]; intros Hnone i w.
  - cbn. unfold ret, add_calls. rewrite app_nil_r. destruct w; reflexivity.
  - cbn [collect_write_outputs]. unfold bind at 1. unfold call, bind at 1, record_call.
    assert (IH' := IH (fun i j Hin => Hnone i j (or_intror Hin))).
    destruct (Hnone i job (or_introl eq_refl)) as [-> | (o & -> & Ho)];
      unfold ret, bind; rewrite IH'; unfold add_calls, stage2_calls; cbn;
      rewrite <- ?app_assoc; try rewrite Ho; reflexivity.
Qed.

(** The body of the [try] when no output of stage 2 carries code: it
    raises, and the calls it makes are those of the setup, of stage 1 and of
    stage 2. *)
Lemma pipeline_without_writes (C : Collaborators) (payload : UpdateRequest)
    (dir : string) (w : World) (job_list : list CodeChange) :
  run_script C (repository payload) = inr job_list ->
  job_list <> [] ->
  (forall i j, In j job_list -> writes_nothing (remote_process_file C i j)) ->
  exists e cs b,
    pipeline C payload dir w = (Raised e, {| staging_exists := b; calls := calls w ++ cs |})
    /\ (forall c, In c cs -> is_stage3 c = false /\ is_materializer c = false)
    /\ ((staging_exists w = true -> rmtree_stale C = None) ->
        makedirs C = None ->
        e = HTTPException 400
              "Failed to refactor any files. Please check if the repository contains valid code files.").
Proof.
  intros Hrun Hne Hnone.
  pose proof (collect_write_outputs_nothing C job_list Hnone 0) as Hcol.
  assert (Hcalls : forall c, In c (stage2_calls job_list) ->
                             is_stage3 c = false /\ is_materializer c = false).
  { intros c Hin. unfold stage2_calls in Hin. apply in_map_iff in Hin.
    destruct Hin as (j & <- & _). split; reflexivity. }
  unfold pipeline.
  unfold bind, get_staging, call_unit, call, bind, record_call, set_staging, ret, raise.
  cbn [staging_exists calls].
  destruct (staging_exists w) eqn:Hstale.
  - destruct (rmtree_stale C) as [e1 |] eqn:Hrm.
    + exists e1, [CallRmtree dir], true. split; [rewrite ?Hstale; reflexivity | split].
      * intros c [<- | []]. split; reflexivity.
      * intros Hs _. specialize (Hs eq_refl). discriminate Hs.
    + destruct (makedirs C) as [e2 |] eqn:Hmk.
      * exists e2, [CallRmtree dir; CallMakedirs dir], false.
        cbn [staging_exists calls]. rewrite <- app_assoc. split; [rewrite ?Hstale; reflexivity | split].
        -- intros c [<- | [<- | []]]; split; reflexivity.
        -- intros _ Hm. discriminate Hm.
      * rewrite Hrun. destruct job_list as [| j0 jl]; [congruence | ].
        rewrite Hcol. unfold add_calls. cbn [staging_exists calls].
        eexists _, ([CallRmtree dir; CallMakedirs dir; CallRunScript (repository payload)]
                      ++ stage2_calls (j0 :: jl)), true.
        rewrite <- !app_assoc. split; [rewrite ?Hstale; reflexivity | split].
        -- intros c Hin. apply in_app_or in Hin.
           destruct Hin as [[<- | [<- | [<- | []]]] | Hin];
             [split; reflexivity .. | apply Hcalls; exact Hin].
        -- intros _ _. reflexivity.
  - destruct (makedirs C) as [e2 |] eqn:Hmk.
    + exists e2, [CallMakedirs dir], false. split; [rewrite ?Hstale; reflexivity | split].
      * intros c [<- | []]. split; reflexivity.
      * intros _ Hm. discriminate Hm.
    + rewrite Hrun. destruct job_list as [| j0 jl]; [congruence | ].
      rewrite Hcol. unfold add_calls. cbn [staging_exists calls].
      eexists _, ([CallMakedirs dir; CallRunScript (repository payload)]
                    ++ stage2_calls (j0 :: jl)), true.
      rewrite <- !app_assoc. split; [rewrite ?Hstale; reflexivity | split].
      * intros c Hin. apply in_app_or in Hin.
        destruct Hin as [[<- | [<- | []]] | Hin];
          [split; reflexivity .. | apply Hcalls; exact Hin].
      * intros _ _. reflexivity.
Qed.

(** C3, as the code has it. When stage 1 finds jobs and no output of stage
    2 carries code, the run ends with an HTTP error and never with a
    response; it calls neither the verifier nor any part of the repository
    materializer; and when the staging directory could be set up the error
    is the one of line 189, status 400 with its reason. *)
Theorem no_write_output_fails_run (C : Collaborators) (payload : UpdateRequest)
    (w : World) (job_list : list CodeChange) :
  run_script C (repository payload) = inr job_list ->
  job_list <> [] ->
  (forall i j, In j job_list -> writes_nothing (remote_process_file C i j)) ->
  (exists status detail,
      fst (update C payload w) = Raised (HTTPException status detail))
  /\ (forall c, In c (calls (snd (update C payload w))) ->
                In c (calls w) \/ (is_stage3 c = false /\ is_materializer c = false))
  /\ (forall cwd, getcwd C = inr cwd ->
        (staging_exists w = true -> rmtree_stale C = None) ->
        makedirs C = None ->
        fst (update C payload w)
        = Raised (HTTPException 400
            "Failed to refactor any files. Please check if the repository contains valid code files.")).
Proof.
  intros Hrun Hne Hnone. unfold update.
  destruct (getcwd C) as [e | cwd].
  { cbn [fst snd cleanup]. split; [apply handle_raised | split].
    - intros c Hin. left. exact Hin.
    - intros cwd H. discriminate H. }
  destruct (pipeline_without_writes C payload (os_path_join cwd "staging") w
              job_list Hrun Hne Hnone) as (e & cs & b & -> & Hcs & H400).
  cbn [fst snd]. split; [apply handle_raised | split].
  - unfold cleanup. rewrite staging_dir_truthy. cbn [andb staging_exists calls].
    intros c Hin.
    assert (Hin' : In c (calls w ++ cs ++ [CallRmtree (os_path_join cwd "staging")])).
    { destruct b; [rewrite app_assoc; exact Hin | ].
      cbn [calls] in Hin. apply in_app_or in Hin. apply in_or_app.
      destruct Hin as [Hin | Hin]; [left; exact Hin | right].
      apply in_or_app. left. exact Hin. }
    apply in_app_or in Hin'. destruct Hin' as [Hin' | Hin']; [left; exact Hin' | right].
    apply in_app_or in Hin'. destruct Hin' as [Hin' | [<- | []]];
      [apply Hcs; exact Hin' | split; reflexivity].
  - intros cwd' _ Hs Hm. rewrite (H400 Hs Hm). reflexivity.
Qed.

Lemma no_write_output_fails_run_witness :
  fst (update C_no_writes request_example fresh_world)
  = Raised (HTTPException 400
      "Failed to refactor any files. Please check if the repository contains valid code files.").
Proof.
  refine (proj2 (proj2 (no_write_output_fails_run C_no_writes request_example fresh_world
                          [job_a; job_b] eq_refl _ _)) "/srv/dependify" eq_refl _ eq_refl).
  - discriminate.
  - intros i j _. left. reflexivity.
  - intros _. reflexivity.
Defined.

(** C3, as the specification has it, fails: the run with no output of
    stage 2 does not return a response with an empty accepted set, it
    raises the HTTP error 400. *)
Lemma no_write_output_is_not_success :
  fst (update C_no_writes request_example fresh_world)
  = Raised (HTTPException 400
      "Failed to refactor any files. Please check if the repository contains valid code files.")
  /\ ~ (exists response,
          fst (update C_no_writes request_example fresh_world) = Returned response).
Proof.
  split; [vm_compute; reflexivity | ].
  intros [response H]. vm_compute in H. discriminate H.
Qed.

Lemma bind_returned (A B : Type) (m : M A) (k : A -> M B) (w w' : World) (b : B) :
  bind m k w = (Returned b, w') ->
  exists a w1, m w = (Returned a, w1) /\ k a w1 = (Returned b, w').
Proof.
  unfold bind. destruct (m w) as [[a | e] w1]; intro H.
  - exists a, w1. split; [reflexivity | exact H].
  - discriminate H.
Qed.

Lemma call_returned (A : Type) (c : Call) (answer : exn + A) (w w' : World) (a : A) :
  call c answer w = (Returned a, w') -> answer = inr a.
Proof.
  unfold call, bind, record_call. destruct answer as [e | a']; cbn; intro H.
  - discriminate H.
  - injection H as -> _. reflexivity.
Qed.

Section UpdateProperties.

Variable C : Collaborators.
Variable payload : UpdateRequest.



End UpdateProperties.



(** ** The joins inside a run *)





(* ================================================================= *)
(** * Further properties *)

(** ** The verification loop as a state machine *)

(** The loop refines the state machine: the iterations [a], [a + 1], ...,
    [MAX_RETRIES] of the loop are a run that enters VALIDATING in attempt
    [a]. *)
Lemma verify_loop_run (W : Workers) (job : VerifyJob) (n : nat) :
  forall a cur,
    a + S n = MAX_RETRIES + 1 ->
    Run W job a cur (fst (verify_loop W job (seq a (S n)) cur))
      (snd (verify_loop W job (seq a (S n)) cur)).
Proof.
  induction n as [| n IH]; intros a cur Hn.
  - assert (a = MAX_RETRIES) as -> by lia.
    cbn [seq]. rewrite verify_loop_cons.
    destruct (accepted _) as [e | [|]] eqn:Hacc; unfold prepend; cbn [fst snd app].
    + apply run_raises; [lia | exact Hacc].
    + apply run_verified; [lia | exact Hacc].
    + unfold on_rejected. rewrite Nat.ltb_irrefl. cbn [verify_loop exhausted fst snd app].
      apply run_exhausted. exact Hacc.
  - assert (Hlt : a < MAX_RETRIES) by lia.
    change (seq a (S (S n))) with (a :: seq (S a) (S n)). rewrite verify_loop_cons.
    destruct (accepted _) as [e | [|]] eqn:Hacc; unfold prepend; cbn [fst snd app].
    + apply run_raises; [lia | exact Hacc].
    + apply run_verified; [lia | exact Hacc].
    + unfold on_rejected. rewrite (proj2 (Nat.ltb_lt _ _) Hlt).
      unfold analyze_and_fix.
      destruct (analyze_failure W a cur _ (vj_original_code job)) as [e | analysis] eqn:Han.
      * unfold prepend; cbn [fst snd app exhausted].
        apply run_analysis_fails; [exact Hacc | exact Hlt | ].
        left. exists e. exact Han.
      * destruct analysis as [ | b | z | f | s | items | d];
          try (unfold prepend; cbn [fst snd app exhausted];
               apply run_analysis_fails; [exact Hacc | exact Hlt | ];
               right; eexists; split; [exact Han | intros d; discriminate]).
        destruct (fix_code W a cur (JObj d) (vj_original_code job)) as [e | new_code] eqn:Hfix;
          unfold prepend; cbn [fst snd app exhausted].
        -- apply (run_repair_fails W job a cur d e Hacc Hlt Han Hfix).
        -- apply (run_repaired W job a cur d new_code _ _ Hacc Hlt Han Hfix).
           apply IH. lia.
Qed.

Lemma verify_and_fix_run (W : Workers) (job : VerifyJob) :
  Run W job 0 (vj_refactored_code job)
    (fst (verify_and_fix W job)) (snd (verify_and_fix W job)).
Proof.
  unfold verify_and_fix.
  change (MAX_RETRIES + 1) with (S MAX_RETRIES).
  apply verify_loop_run. lia.
Qed.

Lemma last_candidate_app (evs1 evs2 : list VEvent) (c : string) :
  last_candidate evs2 = Some c -> last_candidate (evs1 ++ evs2) = Some c.
Proof.
  intro H. induction evs1 as [| ev evs1 IH]; [exact H | ].
  cbn [app last_candidate]. rewrite IH. reflexivity.
Qed.

(** Membership in an explicit list of events. *)
Ltac in_events :=
  let Hin := fresh "Hin" in
  intros ? ? ? Hin; cbn in Hin;
  repeat (destruct Hin as [Hin | Hin]; [congruence | ]);
  destruct Hin.

Section RunProperties.

Variable W : Workers.
Variable job : VerifyJob.

(** A run never enters VALIDATING after attempt [MAX_RETRIES]. *)
Lemma run_attempt_bound a cur evs out :
  Run W job a cur evs out -> a <= MAX_RETRIES.
Proof. induction 1; lia. Qed.

Lemma run_validations_positive a cur evs out :
  Run W job a cur evs out -> 1 <= validations evs.
Proof. induction 1; cbn; lia. Qed.

(** What a result of a run holds. *)
Lemma run_result a cur evs r :
  Run W job a cur evs (Returned r) ->
  file_path r = vj_file_path job
  /\ refactored_code_comments r = vj_comments job
  /\ last_candidate evs = Some (refactored_code r).
Proof.
  intro H. remember (Returned r) as out eqn:Hout.
  induction H as [a cur e Hle Hacc | a cur Hle Hacc | a cur Hacc Hlt Hfail
                 | a cur d e Hacc Hlt Han Hfix
                 | a cur d new_code evs out Hacc Hlt Han Hfix Hrun IH
                 | cur Hacc];
    try discriminate Hout; try (injection Hout as <-; repeat split; reflexivity).
  destruct (IH Hout) as (Hp & Hc & Hl). repeat split; try assumption.
  apply last_candidate_app. exact Hl.
Qed.

(** The counts of a run. *)
Lemma run_counts a cur evs out :
  Run W job a cur evs out ->
  validating_attempts evs = seq a (validations evs)
  /\ repairs evs <= analyses evs <= validations evs
  /\ a + analyses evs <= MAX_RETRIES
  /\ (forall n o c, In (Validating n o c) evs -> o = vj_original_code job)
  /\ match out with
     | Returned r =>
         if verified r
         then attempts r = a + validations evs
              /\ analyses evs + 1 = validations evs
              /\ repairs evs = analyses evs
         else attempts r = MAX_RETRIES + 1
              /\ (analyses evs = validations evs
                  \/ a + validations evs = MAX_RETRIES + 1)
     | Raised _ => analyses evs + 1 = validations evs /\ repairs evs = analyses evs
     end.
Proof.
  induction 1 as [a cur e Hle Hacc | a cur Hle Hacc | a cur Hacc Hlt Hfail
                 | a cur d e Hacc Hlt Han Hfix
                 | a cur d new_code evs out Hacc Hlt Han Hfix Hrun IH
                 | cur Hacc].
  - cbn. repeat split; try (unfold MAX_RETRIES in *; lia); try in_events.
  - cbn. repeat split; try (unfold MAX_RETRIES in *; lia); try in_events.
  - cbn. repeat split; try (unfold MAX_RETRIES in *; lia); try in_events.
  - cbn. repeat split; try (unfold MAX_RETRIES in *; lia); try in_events.
  - destruct IH as (Hatt & Hle & Hbound & Horig & Hout).
    unfold validations, analyses, repairs, validating_attempts in *.
    cbn [app flat_map filter is_validating is_analyzing is_repairing length].
    rewrite Hatt. split; [reflexivity | ]. split; [lia | ]. split; [lia | ]. split.
    + intros n o c [H | [H | [H | [H | [H | H]]]]]; try congruence.
      apply (Horig n o c H).
    + destruct out as [r | e'].
      * destruct (verified r); [ | destruct Hout as [Ha [Hb | Hb]]]; lia.
      * lia.
  - cbn. repeat split; try (unfold MAX_RETRIES in *; lia); try in_events.
Qed.

(** The rows of the progress table. *)
Lemma run_rows a cur evs out :
  Run W job a cur evs out ->
  length (rows_with "VERIFYING" evs) = validations evs
  /\ length (rows_with "FIXING" evs) = analyses evs
  /\ rows_with "VERIFIED" evs
     = match out with
       | Returned r =>
           if verified r
           then [Publish "VERIFIED" ("✅ Verified " ++ basename (vj_file_path job))%string
                   (refactored_code r)]
           else []
       | Raised _ => []
       end.
Proof.
  induction 1 as [a cur e Hle Hacc | a cur Hle Hacc | a cur Hacc Hlt Hfail
                 | a cur d e Hacc Hlt Han Hfix
                 | a cur d new_code evs out Hacc Hlt Han Hfix Hrun IH
                 | cur Hacc];
    try (cbn; repeat split; reflexivity).
  destruct IH as (Hv & Hf & Hd).
  unfold rows_with, validations, analyses in *.
  cbn [app filter is_validating is_analyzing String.eqb Ascii.eqb Bool.eqb length].
  cbn. rewrite Hv, Hf. repeat split. exact Hd.
Qed.

End RunProperties.

Section RunOutcomes.

Variable W : Workers.
Variable job : VerifyJob.

(** Where the candidate of a result comes from. *)
Lemma run_provenance a cur evs r :
  Run W job a cur evs (Returned r) ->
  (refactored_code r = cur /\ repairs evs <= 1 /\ (repairs evs = 1 -> verified r = false))
  \/ exists n c d,
       In (Repairing n c (JObj d)) evs
       /\ fix_code W n c (JObj d) (vj_original_code job) = inr (refactored_code r).
Proof.
  intro H. remember (Returned r) as out eqn:Hout.
  induction H as [a cur e Hle Hacc | a cur Hle Hacc | a cur Hacc Hlt Hfail
                 | a cur d e Hacc Hlt Han Hfix
                 | a cur d new_code evs out Hacc Hlt Han Hfix Hrun IH
                 | cur Hacc];
    try discriminate Hout;
    try (injection Hout as <-; left; cbn; repeat split; try lia; congruence).
  right. destruct (IH Hout) as [(Hc & _) | (n & c & d' & Hin & Hf)].
  - exists a, cur, d. split; [ | rewrite Hc; exact Hfix].
    apply in_or_app. left. cbn. tauto.
  - exists n, c, d'. split; [ | exact Hf].
    apply in_or_app. right. exact Hin.
Qed.

(** A run raises only what line 171 raises. *)
Lemma run_raised a cur evs e :
  Run W job a cur evs (Raised e) ->
  exists n c, accepted (validation_result W n (vj_original_code job) c) = inl e.
Proof.
  intro H. remember (Raised e) as out eqn:Hout.
  induction H; try discriminate Hout; [ | auto].
  injection Hout as <-. eauto.
Qed.

End RunOutcomes.

(** Line 171 raises on no answer of the shape that the prompt asks for. *)
Lemma accepted_in_shape (result : json) :
  answer_in_shape result -> exists b, accepted result = inr b.
Proof.
  intros (d & -> & Hp & Hc). unfold accepted, dict_get.
  destruct Hp as [-> | [b ->]].
  - destruct Hc as [-> | [[f ->] | [z ->]]]; cbn; eauto.
  - destruct b; cbn; [eauto | ].
    destruct Hc as [-> | [[f ->] | [z ->]]]; cbn; eauto.
Qed.

(** X1. A result of [verify_and_fix] carries the path and the comments of
    its job, and its code is the candidate of the last validation of the
    run: no candidate is returned that the validator has not been asked
    about. *)
Theorem verify_and_fix_returns_validated (W : Workers) (job : VerifyJob)
    (r : VerifyResult) :
  snd (verify_and_fix W job) = Returned r ->
  file_path r = vj_file_path job
  /\ refactored_code_comments r = vj_comments job
  /\ last_candidate (fst (verify_and_fix W job)) = Some (refactored_code r).
Proof.
  intro H. pose proof (verify_and_fix_run W job) as Hrun. rewrite H in Hrun.
  exact (run_result W job _ _ _ _ Hrun).
Qed.

Lemma verify_and_fix_returns_validated_witness :
  file_path (result_with job_example "print('hi')##" false 3) = vj_file_path job_example
  /\ refactored_code_comments (result_with job_example "print('hi')##" false 3)
     = vj_comments job_example
  /\ last_candidate (fst (verify_and_fix W_always_rejects job_example))
     = Some (refactored_code (result_with job_example "print('hi')##" false 3)).
Proof.
  apply (verify_and_fix_returns_validated W_always_rejects job_example).
  reflexivity.
Defined.

(** X2. The code of a result is the [refactored_code] of the job, or it is
    what [fix_code] returned in a repair of the run; a run without a repair
    returns the code of the job unchanged. *)
Theorem verify_and_fix_code_provenance (W : Workers) (job : VerifyJob)
    (r : VerifyResult) :
  snd (verify_and_fix W job) = Returned r ->
  (refactored_code r = vj_refactored_code job
   \/ exists n c d,
        In (Repairing n c (JObj d)) (fst (verify_and_fix W job))
        /\ fix_code W n c (JObj d) (vj_original_code job) = inr (refactored_code r))
  /\ (repairs (fst (verify_and_fix W job)) = 0 ->
      refactored_code r = vj_refactored_code job).
Proof.
  intro H. pose proof (verify_and_fix_run W job) as Hrun. rewrite H in Hrun.
  destruct (run_provenance W job _ _ _ _ Hrun) as [(Hc & _) | (n & c & d & Hin & Hf)].
  - split; [left; exact Hc | intros _; exact Hc].
  - split; [right; exists n, c, d; split; assumption | ].
    intro H0. exfalso. unfold repairs in H0. apply length_zero_iff_nil in H0.
    assert (Hf' : In (Repairing n c (JObj d))
                    (filter is_repairing (fst (verify_and_fix W job)))).
    { apply filter_In. split; [exact Hin | reflexivity]. }
    rewrite H0 in Hf'. destruct Hf'.
Qed.

Lemma verify_and_fix_code_provenance_witness :
  (refactored_code (result_with job_example "print('hi')" true 1)
   = vj_refactored_code job_example
   \/ exists n c d,
        In (Repairing n c (JObj d)) (fst (verify_and_fix W_soft_pass job_example))
        /\ fix_code W_soft_pass n c (JObj d) (vj_original_code job_example)
           = inr (refactored_code (result_with job_example "print('hi')" true 1)))
  /\ (repairs (fst (verify_and_fix W_soft_pass job_example)) = 0 ->
      refactored_code (result_with job_example "print('hi')" true 1)
      = vj_refactored_code job_example).
Proof.
  apply (verify_and_fix_code_provenance W_soft_pass job_example).
  reflexivity.
Defined.

(** X3. In a verified result [attempts] is the number of validations of
    the run, and every validation but the last was followed by one analysis
    and one repair. *)
Theorem verified_attempts_count_validations (W : Workers) (job : VerifyJob)
    (r : VerifyResult) :
  snd (verify_and_fix W job) = Returned r ->
  verified r = true ->
  attempts r = validations (fst (verify_and_fix W job))
  /\ analyses (fst (verify_and_fix W job)) + 1 = validations (fst (verify_and_fix W job))
  /\ repairs (fst (verify_and_fix W job)) = analyses (fst (verify_and_fix W job)).
Proof.
  intros H Hv. pose proof (verify_and_fix_run W job) as Hrun. rewrite H in Hrun.
  destruct (run_counts W job _ _ _ _ Hrun) as (_ & _ & _ & _ & Hout).
  rewrite Hv in Hout. exact Hout.
Qed.

Lemma verified_attempts_count_validations_witness :
  attempts (result_with job_example "print('hi')##" true 3)
  = validations (fst (verify_and_fix W_third_time job_example))
  /\ analyses (fst (verify_and_fix W_third_time job_example)) + 1
     = validations (fst (verify_and_fix W_third_time job_example))
  /\ repairs (fst (verify_and_fix W_third_time job_example))
     = analyses (fst (verify_and_fix W_third_time job_example)).
Proof.
  apply (verified_attempts_count_validations W_third_time job_example);
    reflexivity.
Defined.

(** X4. The validations of a run are the attempts 0, 1, 2, ... without a
    gap; each compares a candidate with the original code of the job, never
    with an earlier candidate; and the first one is about the
    [refactored_code] of the job. *)
Theorem validations_in_order_against_original (W : Workers) (job : VerifyJob) :
  validating_attempts (fst (verify_and_fix W job))
  = seq 0 (validations (fst (verify_and_fix W job)))
  /\ (forall n o c, In (Validating n o c) (fst (verify_and_fix W job)) ->
                    o = vj_original_code job)
  /\ nth_error (fst (verify_and_fix W job)) 1
     = Some (Validating 0 (vj_original_code job) (vj_refactored_code job)).
Proof.
  pose proof (verify_and_fix_run W job) as Hrun.
  destruct (run_counts W job _ _ _ _ Hrun) as (Hatt & _ & _ & Horig & _).
  split; [exact Hatt | split; [exact Horig | ]].
  inversion Hrun; reflexivity.
Qed.

(** X5. A run analyses at most [MAX_RETRIES] times, never repairs without
    an analysis and never analyses without a validation; a result that is
    not verified comes from [MAX_RETRIES + 1] validations or from a run in
    which the last validation was followed by an analysis. *)
Theorem analyses_are_bounded (W : Workers) (job : VerifyJob) :
  repairs (fst (verify_and_fix W job)) <= analyses (fst (verify_and_fix W job))
  /\ analyses (fst (verify_and_fix W job)) <= validations (fst (verify_and_fix W job))
  /\ analyses (fst (verify_and_fix W job)) <= MAX_RETRIES
  /\ (forall r, snd (verify_and_fix W job) = Returned r -> verified r = false ->
        analyses (fst (verify_and_fix W job)) = validations (fst (verify_and_fix W job))
        \/ validations (fst (verify_and_fix W job)) = MAX_RETRIES + 1).
Proof.
  pose proof (verify_and_fix_run W job) as Hrun.
  destruct (run_counts W job _ _ _ _ Hrun) as (_ & Hle & Hb & _ & Hout).
  repeat split; try lia.
  intros r Hr Hv. rewrite Hr, Hv in Hout. destruct Hout as [_ [H | H]]; [left | right]; lia.
Qed.

Lemma analyses_are_bounded_witness :
  analyses (fst (verify_and_fix W_analyzer_down job_example))
  = validations (fst (verify_and_fix W_analyzer_down job_example))
  \/ validations (fst (verify_and_fix W_analyzer_down job_example)) = MAX_RETRIES + 1.
Proof.
  apply (proj2 (proj2 (proj2 (analyses_are_bounded W_analyzer_down job_example)))
           (result_with job_example "print('hi')" false 3));
    reflexivity.
Defined.

(** X6. The rows that a run sends to the progress table tell what it did:
    one VERIFYING row for each validation, one FIXING row for each
    analysis, and a VERIFIED row, with the code that is returned, exactly
    when the result is verified. *)
Theorem progress_rows_follow_the_run (W : Workers) (job : VerifyJob) :
  length (rows_with "VERIFYING" (fst (verify_and_fix W job)))
  = validations (fst (verify_and_fix W job))
  /\ length (rows_with "FIXING" (fst (verify_and_fix W job)))
     = analyses (fst (verify_and_fix W job))
  /\ rows_with "VERIFIED" (fst (verify_and_fix W job))
     = match snd (verify_and_fix W job) with
       | Returned r =>
           if verified r
           then [Publish "VERIFIED" ("✅ Verified " ++ basename (vj_file_path job))%string
                   (refactored_code r)]
           else []
       | Raised _ => []
       end.
Proof.
  exact (run_rows W job _ _ _ _ (verify_and_fix_run W job)).
Qed.

(** X7. When every answer that [verify_code] returns has the shape the
    prompt asks for, [verify_and_fix] returns a result: nothing that the
    analyzer or the fixer does, and no failure of the validator, makes it
    raise. *)
Theorem verify_and_fix_returns_in_shape (W : Workers) (job : VerifyJob) :
  (forall n original candidate result,
      verify_code W n original candidate = inr result -> answer_in_shape result) ->
  exists r, snd (verify_and_fix W job) = Returned r.
Proof.
  intro Hshape. pose proof (verify_and_fix_run W job) as Hrun.
  destruct (snd (verify_and_fix W job)) as [r | e]; [exists r; reflexivity | ].
  exfalso. apply run_raised in Hrun. destruct Hrun as (n & c & Hacc).
  unfold validation_result in Hacc.
  destruct (verify_code W n (vj_original_code job) c) as [e' | result] eqn:Hv.
  - discriminate Hacc.
  - destruct (accepted_in_shape result (Hshape _ _ _ _ Hv)) as [b Hb]. congruence.
Qed.

Lemma verify_and_fix_returns_in_shape_witness :
  exists r, snd (verify_and_fix W_third_time job_example) = Returned r.
Proof.
  apply (verify_and_fix_returns_in_shape W_third_time job_example).
  intros n original candidate result H. cbn in H.
  destruct (n =? 2); injection H as <-; eexists; repeat split;
    first [left; reflexivity | right; eexists; reflexivity
          | right; left; eexists; reflexivity].
Defined.

(** X8. Line 171 on answers that are not as the prompt asks.  An answer
    without [passed] and [confidence] is rejected.  Any truthy [passed]
    accepts, whatever [confidence] holds: a non-empty string as [passed]
    accepts.  With a falsy [passed], an integer [confidence] accepts
    exactly from 1 on, a [confidence] that is a string or null raises
    [TypeError], and an answer that is no dictionary raises
    [AttributeError]. *)
Theorem acceptance_of_odd_answers (d : dict) :
  (lookup "passed" d = None -> lookup "confidence" d = None ->
   accepted (JObj d) = inr false)
  /\ (forall v, lookup "passed" d = Some v -> truthy v = true ->
        accepted (JObj d) = inr true)
  /\ (forall c s, lookup "passed" d = Some (JStr (String c s)) ->
        accepted (JObj d) = inr true)
  /\ (forall v z, lookup "passed" d = Some v -> truthy v = false ->
        lookup "confidence" d = Some (JInt z) ->
        accepted (JObj d) = inr (1 <=? z)%Z)
  /\ (forall v s, lookup "passed" d = Some v -> truthy v = false ->
        lookup "confidence" d = Some (JStr s) \/ lookup "confidence" d = Some JNull ->
        exists m, accepted (JObj d) = inl (PyError "TypeError" m))
  /\ (forall items, exists m, accepted (JArr items) = inl (PyError "AttributeError" m)).
Proof.
  unfold accepted, dict_get. repeat split.
  - intros -> ->. reflexivity.
  - intros v -> ->. reflexivity.
  - intros c s ->. reflexivity.
  - intros v z -> -> ->. cbn. f_equal.
    destruct (Z.ltb_spec 0 z), (Z.leb_spec 1 z); try reflexivity; lia.
  - intros v s -> -> [-> | ->]; cbn; eauto.
  - intros items. eauto.
Qed.

Lemma acceptance_of_odd_answers_witness :
  accepted (JObj [("passed", JStr "false"); ("confidence", JFloat 0%float)]) = inr true.
Proof.
  apply (proj1 (proj2 (acceptance_of_odd_answers
                         [("passed", JStr "false"); ("confidence", JFloat 0%float)]))
           (JStr "false")); reflexivity.
Defined.

(** ** Splitting and joining *)

Lemma string_app_nil_r (s : string) : (s ++ "")%string = s.
Proof. induction s as [| c s IH]; cbn; [reflexivity | rewrite IH; reflexivity]. Qed.

Lemma prefix_nil (s : string) : String.prefix "" s = true.
Proof. destruct s; reflexivity. Qed.

Lemma prefix_cons (c d : ascii) (p s : string) :
  String.prefix (String c p) (String d s) = Ascii.eqb c d && String.prefix p s.
Proof.
  cbn. destruct (ascii_dec c d) as [-> | Hne].
  - rewrite Ascii.eqb_refl. reflexivity.
  - apply Ascii.eqb_neq in Hne. rewrite Hne. reflexivity.
Qed.

(** A prefix can be cut off and put back. *)
Lemma prefix_drop (p s : string) :
  String.prefix p s = true -> s = (p ++ drop_prefix (String.length p) s)%string.
Proof.
  revert s. induction p as [| c p IH]; intros s H; [reflexivity | ].
  destruct s as [| d s]; [discriminate H | ].
  rewrite prefix_cons in H. apply andb_true_iff in H. destruct H as [Hc Hp].
  apply Ascii.eqb_eq in Hc. subst d. cbn. f_equal. apply IH. exact Hp.
Qed.

Lemma split_from_nonempty (sep : string) (s : string) :
  forall skip cur, split_from sep skip cur s <> [].
Proof.
  induction s as [| c s IH]; intros skip cur; cbn [split_from]; [discriminate | ].
  destruct skip; [ | apply IH].
  destruct (String.prefix sep (String c s)); [discriminate | apply IH].
Qed.

(** A string that holds the separator splits into two pieces at least. *)
Lemma split_contains (sep s : string) :
  sep <> "" ->
  contains sep s = true -> forall cur, 2 <= length (split_from sep 0 cur s).
Proof.
  intro Hsep. induction s as [| c s IH]; intros H cur.
  - cbn in H. rewrite orb_false_r in H. destruct sep; [contradiction | discriminate H].
  - cbn [contains] in H. cbn [split_from].
    destruct (String.prefix sep (String c s)) eqn:Hp.
    + pose proof (split_from_nonempty sep s (String.length sep - 1) "") as Hne.
      destruct (split_from sep (String.length sep - 1) "" s); [contradiction | cbn; lia].
    + apply IH. exact H.
Qed.

(** A string that does not hold the separator is its only piece. *)
Lemma split_without (sep s : string) :
  contains sep s = false -> forall cur, split_from sep 0 cur s = [(cur ++ s)%string].
Proof.
  induction s as [| c s IH]; intros H cur.
  - cbn. rewrite string_app_nil_r. reflexivity.
  - cbn [contains] in H. apply orb_false_iff in H. destruct H as [Hp Hc].
    cbn [split_from]. rewrite Hp, (IH Hc), string_app_assoc. reflexivity.
Qed.











(** ** The text between the fences *)

(** A piece starts with what was collected for it so far. *)
Lemma split_from_head (sep s : string) :
  forall cur, exists t rest, split_from sep 0 cur s = (cur ++ t)%string :: rest.
Proof.
  induction s as [| c s IH]; intro cur.
  - exists "", []. cbn. rewrite string_app_nil_r. reflexivity.
  - cbn [split_from]. destruct (String.prefix sep (String c s)).
    + exists "". eexists. rewrite string_app_nil_r. reflexivity.
    + destruct (IH (cur ++ String c "")%string) as (t & rest & ->).
      exists (String c t), rest. rewrite string_app_assoc. reflexivity.
Qed.

Lemma split_from_skip (sep a s : string) :
  forall cur, split_from sep (String.length a) cur (a ++ s) = split_from sep 0 cur s.
Proof.
  induction a as [| c a IH]; intro cur; [destruct s; reflexivity | ].
  cbn [String.length String.append split_from]. apply IH.
Qed.

Lemma prefix_shorter (p q s : string) :
  String.prefix (p ++ q) s = true -> String.prefix p s = true.
Proof.
  revert s. induction p as [| c p IH]; intros s H; [apply prefix_nil | ].
  destruct s as [| d s]; [discriminate H | ].
  cbn [String.append] in H. rewrite prefix_cons in *.
  apply andb_true_iff in H. destruct H as [Hc Hp].
  rewrite Hc, (IH _ Hp). reflexivity.
Qed.

Lemma contains_shorter (p q s : string) :
  contains (p ++ q) s = true -> contains p s = true.
Proof.
  induction s as [| c s IH]; cbn [contains]; intro H.
  - rewrite orb_false_r in *. apply (prefix_shorter p q _ H).
  - apply orb_true_iff in H. apply orb_true_iff. destruct H as [H | H].
    + left. apply (prefix_shorter p q _ H).
    + right. apply IH. exact H.
Qed.

(** [between_fences] finds both of its indices when the fence is there. *)
Lemma between_fences_total (fence text : string) :
  fence <> "" -> contains fence text = true ->
  exists t, between_fences fence text = Some t.
Proof.
  intros Hf Hc. unfold between_fences, py_split.
  pose proof (split_contains fence text Hf Hc "") as Hlen.
  destruct (split_from fence 0 "" text) as [| p0 [| p1 rest]]; cbn in Hlen; try lia.
  cbn [nth_error].
  destruct (split_from_head "```" p1 "") as (t & rest' & ->). eexists. reflexivity.
Qed.

(** X10. The indexing of lines 86-89, [split(...)[1].split("```")[0]],
    never raises: for every answer there is a text that goes to
    [json.loads].  So [verify_code] and [analyze_failure] raise only what
    the call of the model or [json.loads] raises. *)
Theorem json_text_never_fails (answer : string) :
  (exists t, json_text answer = Some t)
  /\ (forall json_loads e,
        parse_answer json_loads (inr answer) = inl e ->
        exists t, json_text answer = Some t /\ json_loads t = inl e).
Proof.
  assert (H : exists t, json_text answer = Some t).
  { unfold json_text.
    destruct (contains "```json" (py_strip answer)) eqn:Hj.
    - apply between_fences_total; [discriminate | exact Hj].
    - destruct (contains "```" (py_strip answer)) eqn:Hf.
      + apply between_fences_total; [discriminate | exact Hf].
      + eexists. reflexivity. }
  split; [exact H | ].
  intros json_loads e He. destruct H as [t Ht].
  unfold parse_answer in He. rewrite Ht in He. exists t. split; [exact Ht | exact He].
Qed.

Lemma json_text_never_fails_witness :
  exists t, json_text "{}" = Some t
            /\ (fun _ => inl (PyError "JSONDecodeError" "Expecting value")) t
               = @inl exn json (PyError "JSONDecodeError" "Expecting value").
Proof.
  apply (proj2 (json_text_never_fails "{}")
           (fun _ => inl (PyError "JSONDecodeError" "Expecting value"))).
  reflexivity.
Defined.

(** [split] cuts at the first place where the separator is found. *)
Lemma split_first (sep a b : string) :
  sep <> "" ->
  starts_none sep a (sep ++ b) = true ->
  forall cur,
    split_from sep 0 cur (a ++ sep ++ b) = (cur ++ a)%string :: split_from sep 0 "" b.
Proof.
  intros Hsep. induction a as [| c a IH]; intros Ha cur.
  - destruct sep as [| d sep']; [contradiction | ].
    cbn [String.append split_from]. rewrite string_app_nil_r.
    change (String d (sep' ++ b)) with (String d sep' ++ b)%string.
    rewrite prefix_app. cbn [String.length].
    replace (S (String.length sep') - 1) with (String.length sep') by lia.
    rewrite split_from_skip. reflexivity.
  - cbn [starts_none] in Ha. apply andb_true_iff in Ha. destruct Ha as [Hc Ha].
    apply negb_true_iff in Hc.
    cbn [String.append split_from]. rewrite Hc, (IH Ha).
    rewrite string_app_assoc. reflexivity.
Qed.

(** The first piece of a split holds everything before the first place
    where the separator is found. *)
Lemma split_head_past (sep a tail : string) :
  starts_none sep a tail = true ->
  forall cur, exists t rest,
    split_from sep 0 cur (a ++ tail) = (cur ++ a ++ t)%string :: rest.
Proof.
  induction a as [| c a IH]; intros Ha cur.
  - cbn [String.append]. apply split_from_head.
  - cbn [starts_none] in Ha. apply andb_true_iff in Ha. destruct Ha as [Hc Ha].
    apply negb_true_iff in Hc.
    cbn [String.append split_from]. rewrite Hc.
    destruct (IH Ha (cur ++ String c "")%string) as (t & rest & ->).
    exists t, rest. rewrite string_app_assoc. reflexivity.
Qed.

Lemma starts_none_app (sep a b tail : string) :
  starts_none sep a (b ++ tail) = true ->
  starts_none sep b tail = true ->
  starts_none sep (a ++ b) tail = true.
Proof.
  intros Ha Hb. induction a as [| c a IH]; [exact Hb | ].
  cbn [starts_none] in Ha. apply andb_true_iff in Ha. destruct Ha as [Hc Ha].
  cbn [String.append starts_none]. rewrite string_app_assoc, Hc, (IH Ha). reflexivity.
Qed.

(** A longer separator is found at no place where a shorter one is not. *)
Lemma starts_none_longer (p q a tail : string) :
  starts_none p a tail = true -> starts_none (p ++ q) a tail = true.
Proof.
  induction a as [| c a IH]; intro Ha; [reflexivity | ].
  cbn [starts_none] in *. apply andb_true_iff in Ha. destruct Ha as [Hc Ha].
  rewrite (IH Ha), andb_true_r. apply negb_true_iff in Hc. apply negb_true_iff.
  destruct (String.prefix (p ++ q) (String c (a ++ tail))) eqn:E; [ | reflexivity].
  apply prefix_shorter in E. congruence.
Qed.

(** A text that holds no fence and does not end in a backtick: the fence
    that follows it is the first one. *)
Lemma fence_is_first (x : string) :
  contains "```" x = false -> endswith x "`" = false ->
  forall tail, starts_none "```" x ("```" ++ tail) = true.
Proof.
  intros Hc He tail. induction x as [| c x IH]; [reflexivity | ].
  cbn [contains] in Hc. apply orb_false_elim in Hc. destruct Hc as [Hp Hc].
  cbn [endswith] in He. apply orb_false_elim in He. destruct He as [Heq He].
  cbn [starts_none]. rewrite (IH Hc He), andb_true_r. apply negb_true_iff.
  destruct x as [| d [| e x]].
  - cbn [String.eqb] in Heq.
    destruct (Ascii.eqb c "`") eqn:Ec; [discriminate Heq | ].
    cbn [String.append]. rewrite prefix_cons, (Ascii.eqb_sym "`" c), Ec. reflexivity.
  - cbn [endswith String.eqb] in He.
    destruct (Ascii.eqb d "`") eqn:Ed; [discriminate He | ].
    cbn [String.append]. rewrite !prefix_cons, (Ascii.eqb_sym "`" d), Ed.
    cbn [andb]. apply andb_false_r.
  - cbn [String.append]. rewrite !prefix_cons, prefix_nil in *. exact Hp.
Qed.

(** A text that does not hold the json fence: the json fence that follows
    it is the first one. *)
Lemma json_fence_is_first (x : string) :
  contains "```json" x = false ->
  forall tail, starts_none "```json" x ("```json" ++ tail) = true.
Proof.
  intros Hc tail. induction x as [| c x IH]; [reflexivity | ].
  cbn [contains] in Hc. apply orb_false_elim in Hc. destruct Hc as [Hp Hc].
  cbn [starts_none]. rewrite (IH Hc), andb_true_r. apply negb_true_iff.
  destruct x as [| c1 [| c2 [| c3 [| c4 [| c5 [| c6 x]]]]]];
    cbn [String.append]; rewrite !prefix_cons, ?prefix_nil in *;
    try exact Hp;
    cbn;
    repeat match goal with
           | |- context [Ascii.eqb ?a ?b] => destruct (Ascii.eqb a b); cbn
           end;
    reflexivity.
Qed.

(** After a closing fence that no [json] follows, with one or two
    backticks between or without, the json fence does not start in it. *)
Lemma closing_fence_is_plain (post : string) :
  startswith post "json" = false ->
  startswith post "`json" = false ->
  startswith post "``json" = false ->
  starts_none "```json" "```" post = true.
Proof.
  unfold startswith. intros H0 H1 H2.
  cbn [starts_none String.append].
  rewrite !prefix_cons, !Ascii.eqb_refl. cbn [andb].
  rewrite H0, H1, H2. reflexivity.
Qed.

(** The text between a json fence and the closing fence of its block. *)
Lemma block_after_json_fence (body post : string) :
  contains "```" body = false -> endswith body "`" = false ->
  startswith post "`json" = false -> startswith post "``json" = false ->
  exists after rest,
    split_from "```json" 0 "" (body ++ "```" ++ post) = after :: rest
    /\ exists rest', split_from "```" 0 "" after = body :: rest'.
Proof.
  intros Hc He H1 H2.
  destruct (startswith post "json") eqn:H0.
  - unfold startswith in H0. apply prefix_drop in H0.
    set (post' := drop_prefix (String.length "json") post) in H0. rewrite H0.
    change ("```" ++ "json" ++ post')%string with ("```json" ++ post')%string.
    rewrite split_first; [ | discriminate | ].
    + exists body. eexists. split; [reflexivity | ].
      rewrite (split_without "```" body Hc). eexists. reflexivity.
    + apply (starts_none_longer "```" "json").
      apply (fence_is_first body Hc He ("json" ++ post')).
  - assert (Hs : starts_none "```json" (body ++ "```") post = true).
    { apply starts_none_app; [ | apply closing_fence_is_plain; assumption].
      apply (starts_none_longer "```" "json"). apply (fence_is_first body Hc He). }
    destruct (split_head_past "```json" (body ++ "```") post Hs "") as (t & rest & E).
    rewrite string_app_assoc in E. rewrite E.
    exists ("" ++ (body ++ "```") ++ t)%string, rest. split; [reflexivity | ].
    cbn [String.append]. rewrite string_app_assoc.
    rewrite split_first; [ | discriminate | apply (fence_is_first body Hc He)].
    eexists. reflexivity.
Qed.

(** X11. Which text goes to [json.loads].  An answer without a fence goes
    as it is, stripped.  In an answer with a json fence, take the first
    one: when the text after it holds a block that is closed by a fence,
    the block holding no fence itself and not ending in a backtick, then
    the stripped block goes.  What stands before the json fence plays no
    part, be it prose with backticks or other fenced blocks; what follows
    the closing fence plays none either, unless it goes on with [json]
    after one or two more backticks, which makes a later json fence
    overlap the closing one.  In an answer with plain fences only, the
    stripped text between the first two fences goes, a language tag
    included, when neither the text before the first fence nor the text
    between the two ends in a backtick. *)
Theorem json_text_is_the_block (answer pre body post : string) :
  (contains "```" (py_strip answer) = false -> json_text answer = Some (py_strip answer))
  /\ (py_strip answer = (pre ++ "```json" ++ body ++ "```" ++ post)%string ->
      contains "```json" pre = false ->
      contains "```" body = false -> endswith body "`" = false ->
      startswith post "`json" = false -> startswith post "``json" = false ->
      json_text answer = Some (py_strip body))
  /\ (py_strip answer = (pre ++ "```" ++ body ++ "```" ++ post)%string ->
      contains "```json" (py_strip answer) = false ->
      contains "```" pre = false -> endswith pre "`" = false ->
      contains "```" body = false -> endswith body "`" = false ->
      json_text answer = Some (py_strip body)).
Proof.
  split; [ | split].
  - intro H. unfold json_text. rewrite H.
    destruct (contains "```json" (py_strip answer)) eqn:Hj; [ | reflexivity].
    apply (contains_shorter "```" "json") in Hj. congruence.
  - intros Htext Hpre Hc He H1 H2. unfold json_text. rewrite Htext.
    rewrite (contains_app "```json" pre). unfold between_fences, py_split.
    rewrite split_first; [ | discriminate | apply (json_fence_is_first pre Hpre)].
    cbn [nth_error].
    destruct (block_after_json_fence body post Hc He H1 H2)
      as (after & rest & -> & rest' & E).
    cbn [nth_error]. rewrite E. reflexivity.
  - intros Htext Hj Hpc Hpe Hc He. unfold json_text. rewrite Hj, Htext.
    rewrite (contains_app "```" pre). unfold between_fences, py_split.
    rewrite split_first; [ | discriminate | apply (fence_is_first pre Hpc Hpe)].
    rewrite split_first; [ | discriminate | apply (fence_is_first body Hc He)].
    cbn [nth_error String.append].
    rewrite (split_without "```" body Hc). reflexivity.
Qed.

Lemma json_text_is_the_block_witness :
  json_text ("Run `pip list`, then ```sh" ++ LF ++ "pip list" ++ LF ++ "``` gives: ```json"
             ++ LF ++ "{note: `print` is a statement}" ++ LF ++ "``` Done.")
  = Some (py_strip (LF ++ "{note: `print` is a statement}" ++ LF)).
Proof.
  apply (proj1 (proj2 (json_text_is_the_block
                         ("Run `pip list`, then ```sh" ++ LF ++ "pip list" ++ LF
                          ++ "``` gives: ```json"
                          ++ LF ++ "{note: `print` is a statement}" ++ LF ++ "``` Done.")
                         ("Run `pip list`, then ```sh" ++ LF ++ "pip list" ++ LF
                          ++ "``` gives: ")
                         (LF ++ "{note: `print` is a statement}" ++ LF) " Done.")));
    reflexivity.
Defined.

(** ** The walk and the analysis *)

Lemma files_in_walk_length (root : string) (entries : list fs_node) :
  (forall e, In e entries ->
             forall dir, length (walk_entry dir e)
                         = match e with File _ => 0 | Dir _ _ => count_files e end) ->
  length (files_in root entries) + length (flat_map (walk_entry root) entries)
  = list_sum (map count_files entries).
Proof.
  induction entries as [| e rest IH]; intro H; [reflexivity | ].
  assert (IH' := IH (fun e' He' => H e' (or_intror He'))).
  pose proof (H e (or_introl eq_refl) root) as He.
  cbn [flat_map map list_sum]. rewrite length_app, He.
  unfold list_sum in *.
  destruct e as [name | name sub]; cbn [files_in length fold_right];
    [cbn [count_files] | ]; lia.
Qed.

Lemma walk_entry_length (n : fs_node) :
  forall dir, length (walk_entry dir n)
              = match n with File _ => 0 | Dir _ _ => count_files n end.
Proof.
  induction n as [name | name entries IH] using fs_node_induction; intro dir;
    [reflexivity | ].
  cbn [walk_entry count_files]. rewrite length_app.
  apply files_in_walk_length. rewrite Forall_forall in IH. exact IH.
Qed.

Lemma prefix_trans (a b c : string) :
  String.prefix a b = true -> String.prefix b c = true -> String.prefix a c = true.
Proof.
  revert b c. induction a as [| x a IH]; intros b c Hab Hbc; [apply prefix_nil | ].
  destruct b as [| y b]; [discriminate Hab | ].
  destruct c as [| z c]; [discriminate Hbc | ].
  rewrite prefix_cons in *. apply andb_true_iff in Hab, Hbc.
  destruct Hab as [Hxy Hab]. destruct Hbc as [Hyz Hbc].
  apply Ascii.eqb_eq in Hxy, Hyz. subst. rewrite Ascii.eqb_refl. cbn [andb].
  apply (IH _ _ Hab Hbc).
Qed.

Lemma prefix_join (dir name : string) :
  startswith name "/" = false -> String.prefix dir (os_path_join dir name) = true.
Proof.
  intro H. destruct (os_path_join_relative dir name H) as [-> | ->]; apply prefix_app.
Qed.

Lemma files_in_prefix (root dir : string) (entries : list fs_node) (p : string) :
  String.prefix root dir = true -> forallb names_ok entries = true ->
  In p (files_in dir entries) -> String.prefix root p = true.
Proof.
  intro Hdir. induction entries as [| [name | name sub] rest IH]; intros Hok Hin.
  - destruct Hin.
  - cbn [forallb names_ok] in Hok. apply andb_true_iff in Hok. destruct Hok as [Hn Hrest].
    destruct Hin as [<- | Hin]; [ | apply IH; assumption].
    apply (prefix_trans _ dir); [exact Hdir | ].
    apply prefix_join, name_is_relative, negb_true_iff, Hn.
  - cbn [forallb] in Hok. apply andb_true_iff in Hok. apply IH; [apply Hok | exact Hin].
Qed.

Lemma walk_entry_prefix (root : string) (n : fs_node) :
  forall dir p, String.prefix root dir = true -> names_ok n = true ->
                In p (walk_entry dir n) -> String.prefix root p = true.
Proof.
  induction n as [name | name entries IH] using fs_node_induction;
    intros dir p Hdir Hok Hin.
  - destruct Hin.
  - cbn [names_ok] in Hok. apply andb_true_iff in Hok. destruct Hok as [Hn Hentries].
    assert (Hsub : String.prefix root (os_path_join dir name) = true).
    { apply (prefix_trans _ dir); [exact Hdir | ].
      apply prefix_join, name_is_relative, negb_true_iff, Hn. }
    cbn [walk_entry] in Hin. apply in_app_or in Hin. destruct Hin as [Hin | Hin].
    + apply (files_in_prefix root _ entries p Hsub Hentries Hin).
    + apply in_flat_map in Hin. destruct Hin as (e & He & Hin).
      rewrite Forall_forall in IH. apply (IH e He _ p Hsub); [ | exact Hin].
      rewrite forallb_forall in Hentries. apply Hentries, He.
Qed.

Lemma prefix_refl (s : string) : String.prefix s s = true.
Proof.
  induction s as [| c s IH]; [reflexivity | ].
  rewrite prefix_cons, Ascii.eqb_refl, IH. reflexivity.
Qed.

Lemma get_all_files_prefix (root_directory : string) (entries : list fs_node) :
  forallb names_ok entries = true ->
  forall p, In p (get_all_files_recursively root_directory entries) ->
            String.prefix root_directory p = true.
Proof.
  unfold get_all_files_recursively.
  intros Hok p Hin. apply in_app_or in Hin. destruct Hin as [Hin | Hin].
  - apply (files_in_prefix _ root_directory entries p (prefix_refl _) Hok Hin).
  - apply in_flat_map in Hin. destruct Hin as (e & He & Hin).
    apply (walk_entry_prefix root_directory e _ p (prefix_refl _)); [ | exact Hin].
    rewrite forallb_forall in Hok. apply Hok, He.
Qed.

(** X12. [get_all_files_recursively] lists every file of the tree, at any
    depth, and nothing else: it returns as many paths as the tree has
    files, and no directory.  When no name in the tree holds a slash, every
    path starts with the root directory. *)
Theorem walk_lists_every_file (root_directory : string) (entries : list fs_node) :
  length (get_all_files_recursively root_directory entries)
  = list_sum (map count_files entries)
  /\ (forallb names_ok entries = true ->
      forall p, In p (get_all_files_recursively root_directory entries) ->
                String.prefix root_directory p = true).
Proof.
  split.
  - unfold get_all_files_recursively. rewrite length_app. apply files_in_walk_length.
    intros e _. apply walk_entry_length.
  - apply get_all_files_prefix.
Qed.

Lemma walk_lists_every_file_witness :
  String.prefix clone_root "/root/scripts/repository/src/lib/util.js" = true.
Proof.
  apply (proj2 (walk_lists_every_file clone_root tree_example) eq_refl).
  cbn. tauto.
Defined.

Section FetchResults.

Variable analyze : string -> option CodeChange.

Lemma fetch_loop_paths (all_files : list string) :
  map path (snd (fetch_loop analyze all_files))
  = filter (fun p => negb (excluded p) && flagged analyze p) all_files.
Proof.
  induction all_files as [| p rest IH]; [reflexivity | ].
  cbn [fetch_loop filter]. unfold flagged at 1.
  destruct (fetch_loop analyze rest) as [queried results]. cbn [snd] in IH.
  destruct (excluded p); cbn [negb andb]; [exact IH | ].
  destruct (analyze p) as [response |]; [ | exact IH].
  destruct (add response); cbn [Bool.eqb snd map]; [ | exact IH].
  rewrite IH. reflexivity.
Qed.

Lemma fetch_loop_result (all_files : list string) (c : CodeChange) :
  In c (snd (fetch_loop analyze all_files)) ->
  add c = true
  /\ exists response, analyze (path c) = Some response
                      /\ c = set_path response (path c).
Proof.
  induction all_files as [| p rest IH]; [intros [] | ].
  cbn [fetch_loop]. destruct (fetch_loop analyze rest) as [queried results].
  cbn [snd] in IH. destruct (excluded p); [exact IH | ].
  destruct (analyze p) as [response |] eqn:Ha; [ | exact IH].
  destruct (add response) eqn:Hadd; cbn [Bool.eqb snd]; [ | exact IH].
  intros [<- | Hin]; [ | exact (IH Hin)].
  split; [exact Hadd | ]. exists response. split; [exact Ha | reflexivity].
Qed.

End FetchResults.

(** X13. The results of [fetch_updates] are, in the order of the walk, the
    files that pass the filter and that the analysis finds outdated.  Each
    result is the change the analysis returned for that file, with [add]
    set, except for its path: whatever path the model wrote is replaced by
    the path of the file. *)
Theorem fetch_updates_results (analyze : string -> option CodeChange)
    (directory : string) (entries : list fs_node) :
  map path (snd (fetch_updates analyze directory entries))
  = filter (fun p => negb (excluded p) && flagged analyze p)
      (get_all_files_recursively directory entries)
  /\ (forall c, In c (snd (fetch_updates analyze directory entries)) ->
        add c = true
        /\ exists response, analyze (path c) = Some response
                            /\ code_content c = code_content response
                            /\ reason c = reason response).
Proof.
  unfold fetch_updates. split; [apply fetch_loop_paths | ].
  intros c Hin. destruct (fetch_loop_result analyze _ c Hin) as (Hadd & r & Hr & Hc).
  split; [exact Hadd | ]. exists r. split; [exact Hr | ].
  rewrite Hc. split; reflexivity.
Qed.

Lemma fetch_updates_results_witness :
  add job_a = true
  /\ exists response, analysis_example (path job_a) = Some response
                      /\ code_content job_a = code_content response
                      /\ reason job_a = reason response.
Proof.
  apply (proj2 (fetch_updates_results analysis_example "/root/scripts/repository"
                  [File "a.py"; File "b.py"])).
  cbn. tauto.
Defined.

(** X14. [run_script] raises what the clone raises.  Otherwise every job it
    returns is a file of the clone that passes the filter, has [add] set,
    and, when no name in the clone holds a slash, has a path that starts
    with [<cwd>/repository]. *)
Theorem run_script_jobs (C : Collaborators) (repo_url : string) :
  (forall e, clone_for_analysis C repo_url = inl e -> run_script C repo_url = inl e)
  /\ (forall cwd entries job_list job,
        clone_for_analysis C repo_url = inr (cwd, entries) ->
        run_script C repo_url = inr job_list ->
        In job job_list ->
        add job = true
        /\ excluded (path job) = false
        /\ In (path job) (get_all_files_recursively (cwd ++ "/repository") entries)
        /\ (forallb names_ok entries = true ->
            String.prefix (cwd ++ "/repository") (path job) = true)).
Proof.
  unfold run_script. split.
  - intros e ->. reflexivity.
  - intros cwd entries job_list job -> Hrun Hin. injection Hrun as <-.
    unfold fetch_updates in Hin.
    assert (Hp : In (path job)
                   (map path (snd (fetch_loop (analyze_file_with_llm C)
                                     (get_all_files_recursively (cwd ++ "/repository")
                                        entries)))))
      by (apply in_map; exact Hin).
    rewrite fetch_loop_paths in Hp. apply filter_In in Hp. destruct Hp as [Hwalk Hf].
    apply andb_true_iff in Hf. destruct Hf as [Hex _].
    split; [apply (fetch_loop_result _ _ job Hin) | ].
    split; [apply negb_true_iff; exact Hex | ].
    split; [exact Hwalk | ].
    intro Hok. apply (get_all_files_prefix _ entries Hok). exact Hwalk.
Qed.

Lemma run_script_jobs_witness :
  add job_b = true
  /\ excluded (path job_b) = false
  /\ In (path job_b)
       (get_all_files_recursively ("/root/scripts" ++ "/repository")
          [File "a.py"; File "b.py"])
  /\ (forallb names_ok [File "a.py"; File "b.py"] = true ->
      String.prefix ("/root/scripts" ++ "/repository") (path job_b) = true).
Proof.
  apply (proj2 (run_script_jobs C_no_writes "https://github.com/octocat/legacy-app")
           "/root/scripts" [File "a.py"; File "b.py"] [job_a; job_b] job_b);
    [reflexivity | reflexivity | cbn; tauto].
Defined.

(** ** The stages of a run *)

Lemma drop_prefix_app (n : nat) (a b : string) :
  n <= String.length a -> drop_prefix n (a ++ b) = (drop_prefix n a ++ b)%string.
Proof.
  revert a. induction n as [| n IH]; intros a H; [reflexivity | ].
  destruct a as [| c a]; cbn [String.length] in H; [lia | ].
  cbn [String.append drop_prefix]. apply IH. lia.
Qed.

Lemma drop_prefix_all (a : string) : drop_prefix (String.length a) a = "".
Proof. induction a as [| c a IH]; [reflexivity | exact IH]. Qed.

Lemma length_append (a b : string) :
  String.length (a ++ b) = String.length a + String.length b.
Proof. induction a as [| c a IH]; cbn; [reflexivity | rewrite IH; reflexivity]. Qed.

(** X15. The path in the staging clone (lines 217-219).  A path of more
    than 24 characters loses its first 24.  So a file of a clone whose root
    has exactly 24 characters, as [/root/scripts/repository] has, lands at
    the same place beneath the staging directory; with a root of more
    characters, the rest of the root stays in the path.  A path of at most
    24 characters lands in the staging directory under its basename alone.  *)
Theorem new_path_rerooting (staging_dir root rel : string) :
  (forall file_path, 24 < String.length file_path ->
     new_path staging_dir file_path = (staging_dir ++ drop_prefix 24 file_path)%string)
  /\ (String.length root = 24 -> rel <> "" ->
      new_path staging_dir (root ++ rel) = (staging_dir ++ rel)%string)
  /\ (24 <= String.length root -> rel <> "" ->
      new_path staging_dir (root ++ rel)
      = (staging_dir ++ drop_prefix 24 root ++ rel)%string)
  /\ (forall file_path, String.length file_path <= 24 ->
        new_path staging_dir file_path
        = os_path_join staging_dir (basename file_path)).
Proof.
  assert (Hlong : forall file_path, 24 < String.length file_path ->
            new_path staging_dir file_path
            = (staging_dir ++ drop_prefix 24 file_path)%string).
  { intros file_path H. unfold new_path.
    assert (Ht : str_truthy file_path = true) by (destruct file_path; [cbn in H; lia | reflexivity]).
    rewrite Ht, (proj2 (Nat.ltb_lt _ _) H). reflexivity. }
  assert (Hrel : forall r, 24 <= String.length r -> rel <> "" ->
            24 < String.length (r ++ rel)).
  { intros r Hr Hne. rewrite length_append. destruct rel; [contradiction | cbn; lia]. }
  split; [exact Hlong | split; [ | split]].
  - intros Hroot Hne. rewrite Hlong by (apply Hrel; [lia | exact Hne]).
    rewrite drop_prefix_app by lia. rewrite <- Hroot, drop_prefix_all. reflexivity.
  - intros Hroot Hne. rewrite Hlong by (apply Hrel; assumption).
    rewrite drop_prefix_app by lia. reflexivity.
  - intros file_path H. unfold new_path.
    apply Nat.ltb_ge in H. rewrite H, andb_false_r. reflexivity.
Qed.

Lemma new_path_rerooting_witness :
  new_path "/srv/dependify/staging" ("/root/scripts/repository" ++ "/src/app.py")
  = ("/srv/dependify/staging" ++ "/src/app.py")%string.
Proof.
  apply (proj1 (proj2 (new_path_rerooting "/srv/dependify/staging"
                         "/root/scripts/repository" "/src/app.py")));
    [reflexivity | discriminate].
Defined.

(** The loop of lines 279-291 as a filter. *)
Lemma apply_changes_spec (C : Collaborators) (refactored_jobs : list RefactoredJob) :
  forall w,
    apply_changes C refactored_jobs w
    = (Returned (written C refactored_jobs), add_calls w (write_calls C refactored_jobs)).
Proof.
  induction refactored_jobs as [| job rest IH]; intro w.
  - unfold written, write_calls, add_calls, ret. cbn. rewrite app_nil_r.
    destruct w; reflexivity.
  - cbn [apply_changes]. unfold written, write_calls, target_exists, write_succeeds in *.
    cbn [filter]. destruct (path_exists C (rj_path job)); cbn [andb].
    + unfold bind, record_call, ret. rewrite IH.
      unfold add_calls. cbn [staging_exists calls map]. rewrite <- app_assoc.
      destruct (write_file C (rj_path job) (rj_new_content job)); reflexivity.
    + apply IH.
Qed.

(** X16. The loop that applies the changes (lines 279-291) raises nothing.
    It writes the entries whose target exists in the clone, in order, and
    no others; [files_changed] holds the targets whose write went through;
    an entry whose target is missing, or whose write raises, is passed over
    and the loop goes on. *)
Theorem apply_changes_writes_existing (C : Collaborators)
    (refactored_jobs : list RefactoredJob) (w : World) :
  fst (apply_changes C refactored_jobs w) = Returned (written C refactored_jobs)
  /\ staging_exists (snd (apply_changes C refactored_jobs w)) = staging_exists w
  /\ calls (snd (apply_changes C refactored_jobs w))
     = calls w ++ write_calls C refactored_jobs
  /\ (forall f, In f (written C refactored_jobs) <->
        exists j, In j refactored_jobs /\ rj_path j = f
                  /\ path_exists C f = true
                  /\ write_file C f (rj_new_content j) = None).
Proof.
  rewrite apply_changes_spec. repeat split.
  - unfold written. intro H. apply in_map_iff in H. destruct H as (j & <- & Hj).
    apply filter_In in Hj. destruct Hj as [Hin Hc].
    apply andb_true_iff in Hc. destruct Hc as [He Hw].
    exists j. repeat split; try assumption.
    unfold write_succeeds in Hw.
    destruct (write_file C (rj_path j) (rj_new_content j)); [discriminate | reflexivity].
  - intros (j & Hin & <- & He & Hw). unfold written. apply in_map.
    apply filter_In. split; [exact Hin | ].
    unfold target_exists, write_succeeds. rewrite He, Hw. reflexivity.
Qed.

Section StageProperties.

Variable C : Collaborators.

(** Stage 2, job by job. *)
Lemma collect_write_outputs_returned (job_list : list CodeChange) :
  forall i w w' write_outputs,
    collect_write_outputs C i job_list w = (Returned write_outputs, w') ->
    w' = add_calls w (stage2_calls job_list)
    /\ (forall k j, nth_error job_list k = Some j ->
          exists answer,
            write_worker C (i + k) j = inr answer
            /\ forall report, answer = Some report ->
                 jr_refactored_code report <> "" ->
                 In (output_of j report) write_outputs)
    /\ (forall o, In o write_outputs ->
          exists k j report,
            nth_error job_list k = Some j
            /\ write_worker C (i + k) j = inr (Some report)
            /\ jr_refactored_code report <> ""
            /\ o = output_of j report).
Proof.
  induction job_list as [| job rest IH]; intros i w w' outs H.
  - cbn in H. injection H as <- <-. split; [ | split].
    + unfold add_calls, stage2_calls. cbn. rewrite app_nil_r. destruct w; reflexivity.
    + intros [| k] j Hk; discriminate Hk.
    + intros o [].
  - cbn [collect_write_outputs] in H.
    apply bind_returned in H. destruct H as (output & w1 & Hcall & H).
    apply bind_returned in H. destruct H as (outs' & w2 & Hrest & H).
    unfold ret in H. injection H as <- <-.
    assert (Hw1 : w1 = add_calls w [CallProcessFile (path job)]).
    { unfold call, bind, record_call in Hcall.
      destruct (remote_process_file C i job); cbn in Hcall; [discriminate | ].
      injection Hcall as _ <-. reflexivity. }
    apply call_returned in Hcall.
    destruct (IH _ _ _ _ Hrest) as (Hw2 & Hfwd & Hbwd).
    unfold remote_process_file in Hcall.
    destruct (write_worker C i job) as [e | answer] eqn:Hworker; [discriminate | ].
    injection Hcall as <-.
    split; [ | split].
    + rewrite Hw2, Hw1. unfold add_calls, stage2_calls. cbn. rewrite <- app_assoc.
      reflexivity.
    + intros [| k] j Hk.
      * injection Hk as <-. rewrite Nat.add_0_r. exists answer. split; [exact Hworker | ].
        intros report -> Hne. cbn [process_file w_refactored_code].
        apply String.eqb_neq in Hne. unfold str_truthy. rewrite Hne. left. reflexivity.
      * cbn [nth_error] in Hk. destruct (Hfwd k j Hk) as (a & Ha & Hin).
        exists a. rewrite <- Nat.add_succ_comm. split; [exact Ha | ].
        intros report Hr Hne. specialize (Hin report Hr Hne).
        destruct answer as [r0 |]; cbn [process_file]; [ | exact Hin].
        destruct (str_truthy _); [right | ]; exact Hin.
    + assert (Hold : forall o, In o outs' ->
                exists k j report,
                  nth_error (job :: rest) k = Some j
                  /\ write_worker C (i + k) j = inr (Some report)
                  /\ jr_refactored_code report <> ""
                  /\ o = output_of j report).
      { intros o Ho. destruct (Hbwd o Ho) as (k & j & r & Hk & Hwk & Hne & Ho').
        exists (S k), j, r. rewrite <- Nat.add_succ_comm. repeat split; assumption. }
      intros o Ho. destruct answer as [r0 |]; cbn [process_file] in Ho; [ | exact (Hold o Ho)].
      cbn [w_refactored_code] in Ho.
      destruct (str_truthy (jr_refactored_code r0)) eqn:Ht; [ | exact (Hold o Ho)].
      destruct Ho as [<- | Ho]; [ | exact (Hold o Ho)].
      exists 0, job, r0. rewrite Nat.add_0_r. repeat split; try assumption.
      unfold str_truthy in Ht. apply negb_true_iff in Ht. apply String.eqb_neq. exact Ht.
Qed.

(** Stage 2 raises what one of its calls raises. *)
Lemma collect_write_outputs_raised (job_list : list CodeChange) :
  forall i w w' e,
    collect_write_outputs C i job_list w = (Raised e, w') ->
    exists k j, nth_error job_list k = Some j /\ write_worker C (i + k) j = inl e.
Proof.
  induction job_list as [| job rest IH]; intros i w w' e H; [discriminate H | ].
  cbn [collect_write_outputs] in H. unfold bind at 1 in H.
  unfold call, bind, record_call, remote_process_file in H.
  destruct (write_worker C i job) as [e0 | answer] eqn:Hworker; cbn in H.
  - injection H as <- _. exists 0, job. rewrite Nat.add_0_r. split; [reflexivity | exact Hworker].
  - unfold bind in H.
    destruct (collect_write_outputs C (S i) rest _) as [[outs | e1] w2] eqn:Hrest;
      [discriminate H | ].
    injection H as <- _. destruct (IH _ _ _ _ Hrest) as (k & j & Hk & Hw).
    exists (S k), j. rewrite <- Nat.add_succ_comm. split; [exact Hk | exact Hw].
Qed.

(** Stage 3, job by job. *)
Lemma collect_refactored_jobs_returned (dir : string) (job_list : list CodeChange)
    (verify_jobs : list VerifyJob) :
  forall i w w' refactored_jobs,
    collect_refactored_jobs C dir job_list i verify_jobs w
    = (Returned refactored_jobs, w') ->
    w' = add_calls w (map (fun vj => CallVerifyAndFix (vj_file_path vj)) verify_jobs)
    /\ (forall k vj, nth_error verify_jobs k = Some vj ->
          exists r,
            snd (verify_and_fix (verifier C (i + k)) vj) = Returned r
            /\ (refactored_code r <> "" ->
                In (refactored_job_of dir job_list r) refactored_jobs))
    /\ (forall rj, In rj refactored_jobs ->
          exists k vj r,
            nth_error verify_jobs k = Some vj
            /\ snd (verify_and_fix (verifier C (i + k)) vj) = Returned r
            /\ refactored_code r <> ""
            /\ rj = refactored_job_of dir job_list r).
Proof.
  induction verify_jobs as [| job rest IH]; intros i w w' rjs H.
  - cbn in H. injection H as <- <-. split; [ | split].
    + unfold add_calls. cbn. rewrite app_nil_r. destruct w; reflexivity.
    + intros [| k] j Hk; discriminate Hk.
    + intros o [].
  - cbn [collect_refactored_jobs] in H. unfold bind at 1, record_call in H.
    destruct (snd (verify_and_fix (verifier C i) job)) as [result | e] eqn:Hres;
      [ | discriminate H].
    apply bind_returned in H. destruct H as (rjs' & w2 & Hrest & H).
    unfold ret in H. injection H as <- <-.
    destruct (IH _ _ _ _ Hrest) as (Hw2 & Hfwd & Hbwd).
    split; [ | split].
    + rewrite Hw2. unfold add_calls. cbn. rewrite <- app_assoc. reflexivity.
    + intros [| k] vj Hk.
      * injection Hk as <-. rewrite Nat.add_0_r. exists result. split; [exact Hres | ].
        intro Hne. apply String.eqb_neq in Hne. unfold str_truthy. rewrite Hne.
        left. reflexivity.
      * cbn [nth_error] in Hk. destruct (Hfwd k vj Hk) as (r & Hr & Hin).
        exists r. rewrite <- Nat.add_succ_comm. split; [exact Hr | ].
        intro Hne. specialize (Hin Hne). destruct (str_truthy _); [right | ]; exact Hin.
    + assert (Hold : forall rj, In rj rjs' ->
                exists k vj r,
                  nth_error (job :: rest) k = Some vj
                  /\ snd (verify_and_fix (verifier C (i + k)) vj) = Returned r
                  /\ refactored_code r <> ""
                  /\ rj = refactored_job_of dir job_list r).
      { intros rj Hrj. destruct (Hbwd rj Hrj) as (k & vj & r & Hk & Hr & Hne & Heq).
        exists (S k), vj, r. rewrite <- Nat.add_succ_comm. repeat split; assumption. }
      intros rj Hrj. destruct (str_truthy (refactored_code result)) eqn:Ht;
        [ | exact (Hold rj Hrj)].
      destruct Hrj as [<- | Hrj]; [ | exact (Hold rj Hrj)].
      exists 0, job, result. rewrite Nat.add_0_r. repeat split; try assumption.
      unfold str_truthy in Ht. apply negb_true_iff in Ht. apply String.eqb_neq. exact Ht.
Qed.

End StageProperties.

(** X17. Stage 2 (lines 180-186).  When the batch returns, it has called
    [process_file] once for each job, in order, and nothing else; it keeps
    the output of a job exactly when the writer arrived at a report whose
    [refactored_code] is not empty, and that output carries the path of
    the job.  When the batch raises, one of the calls raised that
    exception. *)
Theorem stage2_keeps_reports (C : Collaborators) (job_list : list CodeChange)
    (w w' : World) :
  (forall write_outputs,
      collect_write_outputs C 0 job_list w = (Returned write_outputs, w') ->
      w' = add_calls w (stage2_calls job_list)
      /\ (forall k j, nth_error job_list k = Some j ->
            exists answer,
              write_worker C k j = inr answer
              /\ forall report, answer = Some report ->
                   jr_refactored_code report <> "" ->
                   In (output_of j report) write_outputs)
      /\ (forall o, In o write_outputs ->
            exists k j report,
              nth_error job_list k = Some j
              /\ write_worker C k j = inr (Some report)
              /\ jr_refactored_code report <> ""
              /\ o = output_of j report))
  /\ (forall e,
        collect_write_outputs C 0 job_list w = (Raised e, w') ->
        exists k j, nth_error job_list k = Some j /\ write_worker C k j = inl e).
Proof.
  split.
  - intros outs H. exact (collect_write_outputs_returned C job_list 0 w w' outs H).
  - intros e H. exact (collect_write_outputs_raised C job_list 0 w w' e H).
Qed.

Lemma stage2_keeps_reports_witness :
  exists k j, nth_error [job_a; job_b] k = Some j
              /\ write_worker
                   (collaborators_with
                      (fun i _ => if i =? 1 then inl (PyError "TimeoutError" "timed out")
                                  else inr (Some report_example)) None) k j
                 = inl (PyError "TimeoutError" "timed out").
Proof.
  apply (proj2 (stage2_keeps_reports
                  (collaborators_with
                     (fun i _ => if i =? 1 then inl (PyError "TimeoutError" "timed out")
                                 else inr (Some report_example)) None)
                  [job_a; job_b] fresh_world
                  {| staging_exists := false;
                     calls := [CallProcessFile (path job_a); CallProcessFile (path job_b)] |})).
  reflexivity.
Defined.

(** X18. Stage 3 (lines 213-234).  When the batch returns, it has called
    [verify_and_fix] once for each verification job, in order; every call
    returned a result, and the result is kept exactly when its code is not
    empty.  The [verified] flag of a result is not looked at: a result that
    is not verified is kept like a verified one. *)
Theorem stage3_keeps_unverified (C : Collaborators) (dir : string)
    (job_list : list CodeChange) (verify_jobs : list VerifyJob)
    (w w' : World) (refactored_jobs : list RefactoredJob) :
  collect_refactored_jobs C dir job_list 0 verify_jobs w
  = (Returned refactored_jobs, w') ->
  w' = add_calls w (map (fun vj => CallVerifyAndFix (vj_file_path vj)) verify_jobs)
  /\ (forall k vj, nth_error verify_jobs k = Some vj ->
        exists r,
          snd (verify_and_fix (verifier C k) vj) = Returned r
          /\ (refactored_code r <> "" ->
              In (refactored_job_of dir job_list r) refactored_jobs))
  /\ (forall rj, In rj refactored_jobs ->
        exists k vj r,
          nth_error verify_jobs k = Some vj
          /\ snd (verify_and_fix (verifier C k) vj) = Returned r
          /\ refactored_code r <> ""
          /\ rj = refactored_job_of dir job_list r).
Proof.
  intro H. exact (collect_refactored_jobs_returned C dir job_list verify_jobs 0 w w' _ H).
Qed.

Lemma stage3_keeps_unverified_witness :
  exists r,
    snd (verify_and_fix (verifier C_unverified 0) job_example) = Returned r
    /\ (refactored_code r <> "" ->
        In (refactored_job_of "/srv/dependify/staging" [job_a; job_b] r)
           [refactored_job_of "/srv/dependify/staging" [job_a; job_b]
              (result_with job_example "print('hi')" false 3)]).
Proof.
  refine (proj1 (proj2 (stage3_keeps_unverified C_unverified "/srv/dependify/staging"
                          [job_a; job_b] [job_example] fresh_world
                          {| staging_exists := false;
                             calls := [CallVerifyAndFix (vj_file_path job_example)] |}
                          _ _)) 0 job_example eq_refl).
  reflexivity.
Defined.

(** ** The materializer *)

(** Membership in a trace that is written out. *)
Ltac in_trace :=
  repeat match goal with
         | H : In _ (_ ++ _) |- _ => apply in_app_or in H; destruct H as [H | H]
         | H : In _ (_ :: _) |- _ => destruct H as [H | H]
         | H : In _ [] |- _ => destruct H
         | H : In _ (write_calls _ _) |- _ =>
             unfold write_calls in H; apply in_map_iff in H;
             let j := fresh "j" in
             let Hj := fresh "Hj" in
             destruct H as (j & H & Hj)
         | H : @eq Call _ _ |- _ => first [discriminate H | injection H as H; subst]
         end.

(** The six shapes of the calls of [materialize], each with what the
    collaborators answered. *)
Lemma materialize_cases (C : Collaborators) (payload : UpdateRequest) (dir : string)
    (job_list : list CodeChange) (refactored_jobs : list RefactoredJob)
    (w w' : World) (out : Outcome dict) :
  materialize C payload dir job_list refactored_jobs w = (out, w') ->
  let fork := CallCreateFork (repository_owner payload) (repository_name payload) in
  exists trace,
    calls w' = calls w ++ trace
    /\ ((trace = [fork] /\ exists e, out = Raised e)
        \/ exists url stderr,
             (trace = [fork; CallGitClone url dir] /\ exists e, out = Raised e)
             \/ (git_clone C url dir = inr (0%Z, stderr)
                 /\ ((trace = [fork; CallGitClone url dir; CallLoadRepository dir]
                      /\ exists e, out = Raised e)
                     \/ (load_repository C dir = None
                         /\ ((trace = [fork; CallGitClone url dir; CallLoadRepository dir]
                                      ++ write_calls C refactored_jobs
                              /\ written C refactored_jobs = []
                              /\ out = Raised (HTTPException 400
                                                 "No files were successfully updated"))
                             \/ (written C refactored_jobs <> []
                                 /\ ((trace = [fork; CallGitClone url dir;
                                               CallLoadRepository dir]
                                              ++ write_calls C refactored_jobs
                                              ++ [CallCreateAndPushBranch
                                                    (written C refactored_jobs)]
                                      /\ exists e, out = Raised e)
                                     \/ exists branch,
                                          trace = [fork; CallGitClone url dir;
                                                   CallLoadRepository dir]
                                                  ++ write_calls C refactored_jobs
                                                  ++ [CallCreateAndPushBranch
                                                        (written C refactored_jobs);
                                                      CallCreatePullRequest branch]))))))).
Proof.
  unfold materialize. intro H. cbn zeta.
  unfold bind at 1, call, bind at 1, record_call in H.
  destruct (create_fork C (repository_owner payload) (repository_name payload))
    as [e | fork_result]; cbn [ret raise] in H.
  { injection H as <- <-. eexists. split; [reflexivity | ]. left. eauto. }
  unfold ret in H.
  destruct fork_result as [[| binding fork] |];
    try (unfold raise in H; injection H as <- <-; eexists; split; [reflexivity | ];
         left; eauto).
  destruct (dict_get "owner" (JObj []) (binding :: fork));
    try (unfold raise in H; injection H as <- <-; eexists; split; [reflexivity | ];
         left; eauto).
  unfold bind at 1, call, bind at 1, record_call in H. cbn [staging_exists calls] in H.
  set (url := dict_get "clone_url" JNull (binding :: fork)) in *.
  destruct (git_clone C url dir) as [e | [rc stderr]] eqn:Hclone; cbn [ret raise] in H.
  { injection H as <- <-. eexists. split; [cbn; rewrite <- app_assoc; reflexivity | ].
    right. exists url, "". left. eauto. }
  unfold ret in H. cbn [fst snd] in H.
  destruct (rc =? 0)%Z eqn:Hrc; cbn [negb] in H.
  2: { unfold raise in H. injection H as <- <-.
       eexists. split; [cbn; rewrite <- app_assoc; reflexivity | ].
       right. exists url, stderr. left. eauto. }
  apply Z.eqb_eq in Hrc. subst rc.
  unfold bind at 1, set_staging in H. cbn [staging_exists calls] in H.
  unfold bind at 1, call_unit, bind at 1, record_call in H. cbn [staging_exists calls] in H.
  destruct (load_repository C dir) as [e |] eqn:Hload; cbn [ret raise] in H.
  { injection H as <- <-. eexists. split; [cbn; rewrite <- !app_assoc; reflexivity | ].
    right. exists url, stderr. right. split; [first [exact Hclone | reflexivity] | ]. left. eauto. }
  unfold ret, bind at 1 in H. rewrite apply_changes_spec in H.
  unfold add_calls in H. cbn [staging_exists calls] in H.
  destruct (written C refactored_jobs) as [| f fc] eqn:Hwritten.
  { unfold raise in H. injection H as <- <-.
    eexists. split; [cbn [calls]; rewrite <- !app_assoc; reflexivity | ].
    right. exists url, stderr. right. split; [first [exact Hclone | reflexivity] | ].
    right. split; [first [exact Hload | reflexivity] | ]. left. repeat split; reflexivity. }
  unfold bind at 1, call, bind at 1, record_call in H. cbn [staging_exists calls] in H.
  destruct (create_and_push_branch C (f :: fc)) as [e | pushed]; cbn [ret raise] in H.
  { injection H as <- <-.
    eexists. split; [cbn [calls]; rewrite <- !app_assoc; reflexivity | ].
    right. exists url, stderr. right. split; [first [exact Hclone | reflexivity] | ].
    right. split; [first [exact Hload | reflexivity] | ]. right. split; [discriminate | ]. left.
    split; [reflexivity | eauto]. }
  unfold ret, bind at 1, call, bind at 1, record_call in H. cbn [staging_exists calls] in H.
  assert (Hshape : calls w' = calls w ++ [CallCreateFork (repository_owner payload)
                                            (repository_name payload);
                                          CallGitClone url dir; CallLoadRepository dir]
                                ++ write_calls C refactored_jobs
                                ++ [CallCreateAndPushBranch (f :: fc);
                                    CallCreatePullRequest (fst pushed)]).
  { destruct (create_pull_request C (fst pushed) _ _ _ _ _); cbn [ret raise] in H;
      injection H as _ <-; cbn [calls]; rewrite <- !app_assoc; reflexivity. }
  eexists. split; [exact Hshape | ].
  right. exists url, stderr. right. split; [first [exact Hclone | reflexivity] | ].
  right. split; [first [exact Hload | reflexivity] | ]. right. split; [discriminate | ]. right.
  exists (fst pushed). reflexivity.
Qed.

(** X19. The order of the materializer (lines 242-341), in every run of it,
    however it ends.  A branch is pushed only with the files that were
    written, and only when there is one at least; a pull request is
    created only after the push; a file is written only when it exists in
    the clone and the clone was made with return code 0; and a response is
    returned only after the pull request was created. *)
Theorem materialize_pushes_written_files (C : Collaborators) (payload : UpdateRequest)
    (dir : string) (job_list : list CodeChange) (refactored_jobs : list RefactoredJob)
    (w w' : World) (out : Outcome dict) :
  materialize C payload dir job_list refactored_jobs w = (out, w') ->
  exists trace,
    calls w' = calls w ++ trace
    /\ (forall fc, In (CallCreateAndPushBranch fc) trace ->
          fc = written C refactored_jobs /\ fc <> [])
    /\ (forall b, In (CallCreatePullRequest b) trace ->
          In (CallCreateAndPushBranch (written C refactored_jobs)) trace)
    /\ (forall t c, In (CallWriteFile t c) trace ->
          path_exists C t = true
          /\ exists url stderr,
               In (CallGitClone url dir) trace
               /\ git_clone C url dir = inr (0%Z, stderr))
    /\ (forall response, out = Returned response ->
          exists b, In (CallCreatePullRequest b) trace).
Proof.
  intro H. apply materialize_cases in H. cbn zeta in H.
  destruct H as (trace & Hcalls & Hshape). exists trace. split; [exact Hcalls | ].
  destruct Hshape as
    [[-> [e ->]]
    | (url & stderr &
       [[-> [e ->]]
       | [Hclone
            [[-> [e ->]]
            | [Hload
                 [(-> & Hw & ->)
                 | [Hw [[-> [e ->]] | [branch ->]]]]]]]])].
  - repeat split; intros; in_trace; discriminate.
  - repeat split; intros; in_trace; discriminate.
  - repeat split; intros; in_trace; discriminate.
  - split; [intros; in_trace | split; [intros; in_trace | split; [ | intros; discriminate]]].
    intros t c Hin. in_trace. apply filter_In in Hj.
    split; [apply Hj | ]. exists url, stderr. split; [cbn; tauto | exact Hclone].
  - split; [ | split; [intros; in_trace | split; [ | intros; discriminate]]].
    + intros fc Hin. in_trace. split; [reflexivity | exact Hw].
    + intros t c Hin. in_trace. apply filter_In in Hj.
      split; [apply Hj | ]. exists url, stderr. split; [cbn; tauto | exact Hclone].
  - split; [ | split; [ | split]].
    + intros fc Hin. in_trace. split; [reflexivity | exact Hw].
    + intros b Hin. apply in_or_app. right. apply in_or_app. right. left. reflexivity.
    + intros t c Hin. in_trace. apply filter_In in Hj.
      split; [apply Hj | ]. exists url, stderr. split; [cbn; tauto | exact Hclone].
    + intros response _. exists branch.
      apply in_or_app. right. apply in_or_app. right. right. left. reflexivity.
Qed.

Lemma materialize_pushes_written_files_witness :
  exists trace,
    calls (snd (materialize C_partial request_example "/srv/dependify/staging"
                  [job_a; job_b]
                  [refactored_job_of "/srv/dependify/staging" [job_a; job_b]
                     (result_with job_example "print('hi')" true 1)]
                  fresh_world))
    = calls fresh_world ++ trace
    /\ (forall fc, In (CallCreateAndPushBranch fc) trace ->
          fc = written C_partial
                 [refactored_job_of "/srv/dependify/staging" [job_a; job_b]
                    (result_with job_example "print('hi')" true 1)]
          /\ fc <> [])
    /\ (forall b, In (CallCreatePullRequest b) trace ->
          In (CallCreateAndPushBranch
                (written C_partial
                   [refactored_job_of "/srv/dependify/staging" [job_a; job_b]
                      (result_with job_example "print('hi')" true 1)])) trace)
    /\ (forall t c, In (CallWriteFile t c) trace ->
          path_exists C_partial t = true
          /\ exists url stderr,
               In (CallGitClone url "/srv/dependify/staging") trace
               /\ git_clone C_partial url "/srv/dependify/staging" = inr (0%Z, stderr))
    /\ (forall response,
          fst (materialize C_partial request_example "/srv/dependify/staging"
                 [job_a; job_b]
                 [refactored_job_of "/srv/dependify/staging" [job_a; job_b]
                    (result_with job_example "print('hi')" true 1)]
                 fresh_world) = Returned response ->
          exists b, In (CallCreatePullRequest b) trace).
Proof.
  apply (materialize_pushes_written_files C_partial request_example
           "/srv/dependify/staging" [job_a; job_b]
           [refactored_job_of "/srv/dependify/staging" [job_a; job_b]
              (result_with job_example "print('hi')" true 1)]
           fresh_world).
  apply surjective_pairing.
Defined.

(** X20. The business failures of the materializer.  When [create_fork]
    returns nothing, the run raises status 400 and clones nothing.  When
    [git clone] ends with a return code other than 0, it raises status 400
    with the standard error of git in the reason, and writes nothing.  When
    no file could be written, it raises status 400 and pushes nothing. *)
Theorem materialize_business_failures (C : Collaborators) (payload : UpdateRequest)
    (dir : string) (job_list : list CodeChange) (refactored_jobs : list RefactoredJob)
    (w : World) :
  let fork_call := CallCreateFork (repository_owner payload) (repository_name payload) in
  (create_fork C (repository_owner payload) (repository_name payload) = inr None
   \/ create_fork C (repository_owner payload) (repository_name payload) = inr (Some []) ->
   materialize C payload dir job_list refactored_jobs w
   = (Raised (HTTPException 400
        "Failed to access repository. Make sure GITHUB_TOKEN is configured correctly."),
      add_calls w [fork_call]))
  /\ (forall binding fork owner rc stderr,
        create_fork C (repository_owner payload) (repository_name payload)
        = inr (Some (binding :: fork)) ->
        dict_get "owner" (JObj []) (binding :: fork) = JObj owner ->
        git_clone C (dict_get "clone_url" JNull (binding :: fork)) dir
        = inr (rc, stderr) ->
        (rc <> 0%Z ->
         materialize C payload dir job_list refactored_jobs w
         = (Raised (HTTPException 400 ("Failed to clone repository: " ++ stderr)),
            add_calls w [fork_call;
                         CallGitClone (dict_get "clone_url" JNull (binding :: fork)) dir]))
        /\ (rc = 0%Z -> load_repository C dir = None ->
            written C refactored_jobs = [] ->
            materialize C payload dir job_list refactored_jobs w
            = (Raised (HTTPException 400 "No files were successfully updated"),
               {| staging_exists := true;
                  calls := calls w
                           ++ [fork_call;
                               CallGitClone (dict_get "clone_url" JNull (binding :: fork))
                                 dir;
                               CallLoadRepository dir]
                           ++ write_calls C refactored_jobs |}))).
Proof.
  cbn zeta. split.
  - intros [H | H]; unfold materialize, bind, call, bind, record_call, ret, raise;
      rewrite H; reflexivity.
  - intros binding fork owner rc stderr Hfork Howner Hclone. split.
    + intro Hrc. apply Z.eqb_neq in Hrc.
      unfold materialize, bind, call, bind, record_call, ret, raise.
      rewrite Hfork, Howner. cbn [staging_exists calls]. rewrite Hclone.
      cbn [fst snd]. rewrite Hrc. unfold add_calls. cbn [negb calls staging_exists].
      rewrite <- app_assoc. reflexivity.
    + intros -> Hload Hw.
      unfold materialize. unfold bind at 1, call, bind at 1, record_call, ret.
      rewrite Hfork, Howner.
      unfold bind at 1, call, bind at 1, record_call, ret. cbn [staging_exists calls].
      rewrite Hclone. cbn [fst snd Z.eqb negb].
      unfold bind at 1, set_staging. unfold bind at 1, call_unit, bind at 1, record_call.
      cbn [staging_exists calls]. rewrite Hload. unfold ret, bind at 1.
      rewrite apply_changes_spec, Hw. unfold raise, add_calls.
      cbn [staging_exists calls]. rewrite <- !app_assoc. reflexivity.
Qed.

Lemma materialize_business_failures_witness :
  materialize (collaborators_with (fun _ _ => inr None) None) request_example
    "/srv/dependify/staging" [job_a; job_b] [] fresh_world
  = (Raised (HTTPException 400 "No files were successfully updated"),
     {| staging_exists := true;
        calls := calls fresh_world
                 ++ [CallCreateFork "octocat" "legacy-app";
                     CallGitClone (dict_get "clone_url" JNull fork_example)
                       "/srv/dependify/staging";
                     CallLoadRepository "/srv/dependify/staging"]
                 ++ write_calls (collaborators_with (fun _ _ => inr None) None) [] |}).
Proof.
  refine (proj2 (proj2 (materialize_business_failures
                          (collaborators_with (fun _ _ => inr None) None)
                          request_example "/srv/dependify/staging" [job_a; job_b] []
                          fresh_world)
                   ("is_own_repo", JBool false)
                   [("clone_url", JStr "https://github.com/dependify-bot/legacy-app.git");
                    ("owner", JObj [("login", JStr "dependify-bot")])]
                   [("login", JStr "dependify-bot")] 0%Z "" eq_refl eq_refl eq_refl)
            eq_refl eq_refl eq_refl).
Defined.

(** ** Stage 1 in a run *)

(** The body of the [try] up to the answer of stage 1, when the staging
    directory could be set up. *)
Lemma pipeline_stage1 (C : Collaborators) (payload : UpdateRequest) (dir : string)
    (w : World) :
  (staging_exists w = true -> rmtree_stale C = None) ->
  makedirs C = None ->
  let w1 := {| staging_exists := true;
               calls := calls w
                        ++ (if staging_exists w then [CallRmtree dir] else [])
                        ++ [CallMakedirs dir; CallRunScript (repository payload)] |} in
  (forall e, run_script C (repository payload) = inl e ->
             pipeline C payload dir w = (Raised e, w1))
  /\ (run_script C (repository payload) = inr [] ->
      pipeline C payload dir w = (Returned (nothing_outdated payload), w1)).
Proof.
  intros Hrm Hmk. cbn zeta.
  split; [intros e Hrun | intro Hrun];
    unfold pipeline, bind, get_staging, call_unit, call, bind, record_call,
      set_staging, ret, raise;
    cbn [staging_exists calls];
    (destruct (staging_exists w) eqn:Hstale;
     [rewrite (Hrm eq_refl) | ]; rewrite Hmk; cbn [staging_exists calls];
     rewrite Hrun; cbn [app]; rewrite <- ?app_assoc; reflexivity).
Qed.



(** X22. Only HTTP errors leave the endpoint.  When stage 1 raises, be it
    the clone or the platform, the run raises the HTTP error that the
    handlers of lines 343-354 make of the exception, status 500 with the
    text of the exception in the reason unless it is an HTTP error itself;
    a failed [git clone] of stage 1 reads "Git operation failed".  No later
    stage is called, and the staging directory is removed. *)
Theorem stage1_failure_is_http_error (C : Collaborators) (payload : UpdateRequest)
    (w : World) :
  (forall e, fst (update C payload w) = Raised e ->
             exists status detail, e = HTTPException status detail)
  /\ (forall cwd e,
        getcwd C = inr cwd ->
        (staging_exists w = true -> rmtree_stale C = None) ->
        makedirs C = None ->
        run_script C (repository payload) = inl e ->
        let dir := os_path_join cwd "staging" in
        fst (update C payload w) = Raised (to_http_error e)
        /\ (forall message, e = CalledProcessError message ->
              fst (update C payload w)
              = Raised (HTTPException 500 ("Git operation failed: " ++ message)))
        /\ (forall class message, e = PyError class message ->
              fst (update C payload w)
              = Raised (HTTPException 500
                          ("An unexpected error occurred: " ++ message)))
        /\ calls (snd (update C payload w))
           = calls w ++ (if staging_exists w then [CallRmtree dir] else [])
             ++ [CallMakedirs dir; CallRunScript (repository payload); CallRmtree dir]
        /\ (rmtree_cleanup C = None -> staging_exists (snd (update C payload w)) = false)).
Proof.
  split.
  - intros e H. unfold update in H.
    destruct (getcwd C) as [e0 | cwd].
    + cbn [fst] in H. destruct (handle_raised e0) as (s & d & Hh).
      rewrite Hh in H. injection H as <-. eauto.
    + destruct (pipeline C payload (os_path_join cwd "staging") w) as [[r | e0] w1];
        cbn [fst] in H; [discriminate H | ].
      destruct (handle_raised e0) as (s & d & Hh).
      rewrite Hh in H. injection H as <-. eauto.
  - intros cwd e Hcwd Hrm Hmk Hrun. cbn zeta. unfold update. rewrite Hcwd.
    rewrite (proj1 (pipeline_stage1 C payload (os_path_join cwd "staging") w Hrm Hmk)
               e Hrun).
    cbn [fst snd handle]. split; [reflexivity | ].
    split; [intros message ->; reflexivity | ].
    split; [intros class message ->; reflexivity | ].
    unfold cleanup. rewrite staging_dir_truthy. cbn [andb staging_exists calls].
    split; [rewrite <- !app_assoc; reflexivity | ].
    intros ->. reflexivity.
Qed.

Lemma stage1_failure_is_http_error_witness :
  fst (update C_clone_fails request_example fresh_world)
  = Raised (HTTPException 500
      ("Git operation failed: "
       ++ "Command 'git clone' returned non-zero exit status 128.")).
Proof.
  apply (proj1 (proj2 (proj2 (stage1_failure_is_http_error C_clone_fails request_example
                                fresh_world)
                         "/srv/dependify"
                         (CalledProcessError
                            "Command 'git clone' returned non-zero exit status 128.")
                         eq_refl (fun _ => eq_refl) eq_refl eq_refl))
           "Command 'git clone' returned non-zero exit status 128.").
  reflexivity.
Defined.

(** ** The [/auth/github] endpoint *)



(** ** The order of the stages *)

Lemma stage2_appends (C : Collaborators) (job_list : list CodeChange) :
  forall i w out w',
    collect_write_outputs C i job_list w = (out, w') ->
    exists cs, calls w' = calls w ++ cs /\ Forall (fun c => is_stage2 c = true) cs.
Proof.
  induction job_list as [| job rest IH]; intros i w out w' H.
  - cbn in H. injection H as _ <-. exists []. rewrite app_nil_r. split; [reflexivity | constructor].
  - cbn [collect_write_outputs] in H. unfold bind at 1, call, bind at 1, record_call in H.
    destruct (remote_process_file C i job) as [e | output]; cbn [ret raise] in H.
    + injection H as _ <-. exists [CallProcessFile (path job)].
      split; [reflexivity | repeat constructor].
    + unfold ret, bind at 1 in H.
      destruct (collect_write_outputs C (S i) rest _) as [[outs | e] w2] eqn:Hrest;
        apply IH in Hrest; destruct Hrest as (cs & Hcs & Hall);
        injection H as _ <-; exists (CallProcessFile (path job) :: cs);
        (split; [rewrite Hcs; cbn [calls]; rewrite <- app_assoc; reflexivity
                | constructor; [reflexivity | exact Hall]]).
Qed.

Lemma stage3_appends (C : Collaborators) (dir : string) (job_list : list CodeChange)
    (verify_jobs : list VerifyJob) :
  forall i w out w',
    collect_refactored_jobs C dir job_list i verify_jobs w = (out, w') ->
    exists cs, calls w' = calls w ++ cs /\ Forall (fun c => is_stage3 c = true) cs
               /\ (verify_jobs <> [] -> cs <> []).
Proof.
  induction verify_jobs as [| job rest IH]; intros i w out w' H.
  - cbn in H. injection H as _ <-. exists []. rewrite app_nil_r.
    split; [reflexivity | split; [constructor | intro Hne; contradiction]].
  - cbn [collect_refactored_jobs] in H. unfold bind at 1, record_call in H.
    destruct (snd (verify_and_fix (verifier C i) job)) as [result | e].
    + unfold bind at 1 in H.
      destruct (collect_refactored_jobs C dir job_list (S i) rest _)
        as [[rjs | e] w2] eqn:Hrest;
        apply IH in Hrest; destruct Hrest as (cs & Hcs & Hall & _);
        injection H as _ <-; exists (CallVerifyAndFix (vj_file_path job) :: cs);
        (split; [rewrite Hcs; cbn [calls]; rewrite <- app_assoc; reflexivity
                | split; [constructor; [reflexivity | exact Hall] | discriminate]]).
    + unfold raise in H. injection H as _ <-.
      exists [CallVerifyAndFix (vj_file_path job)].
      split; [reflexivity | split; [repeat constructor | discriminate]].
Qed.

Lemma write_calls_materializer (C : Collaborators) (refactored_jobs : list RefactoredJob) :
  Forall (fun c => is_materializer c = true) (write_calls C refactored_jobs).
Proof.
  unfold write_calls. apply Forall_forall. intros c Hin.
  apply in_map_iff in Hin. destruct Hin as (j & <- & _). reflexivity.
Qed.

Lemma materialize_appends (C : Collaborators) (payload : UpdateRequest) (dir : string)
    (job_list : list CodeChange) (refactored_jobs : list RefactoredJob)
    (w w' : World) (out : Outcome dict) :
  materialize C payload dir job_list refactored_jobs w = (out, w') ->
  exists cs, calls w' = calls w ++ cs /\ Forall (fun c => is_materializer c = true) cs.
Proof.
  intro H. apply materialize_cases in H. cbn zeta in H.
  destruct H as (trace & Hcalls & Hshape). exists trace. split; [exact Hcalls | ].
  pose proof (write_calls_materializer C refactored_jobs) as Hw.
  destruct Hshape as
    [[-> _]
    | (url & stderr &
       [[-> _]
       | [_ [[-> _] | [_ [(-> & _ & _) | [_ [[-> _] | [branch ->]]]]]]]])];
    repeat (apply Forall_app; split); repeat constructor; exact Hw.
Qed.

Ltac close_stage :=
  repeat split;
  first [ assumption | (intro; contradiction) | (intros _; assumption)
        | apply Forall_nil ].

Lemma pipeline_trace (C : Collaborators) (payload : UpdateRequest) (dir : string)
    (w wf : World) (out : Outcome dict) :
  pipeline C payload dir w = (out, wf) ->
  exists s1 s2 s3 s4,
    calls wf = calls w ++ s1 ++ s2 ++ s3 ++ s4
    /\ Forall (fun c => is_stage1 c = true) s1
    /\ Forall (fun c => is_stage2 c = true) s2
    /\ Forall (fun c => is_stage3 c = true) s3
    /\ Forall (fun c => is_materializer c = true) s4
    /\ (s3 <> [] -> s2 <> [])
    /\ (s4 <> [] -> s3 <> []).
Proof.
  assert (Hend : forall w0 s1,
            calls w0 = calls w ++ s1 -> Forall (fun c => is_stage1 c = true) s1 ->
            exists s1 s2 s3 s4,
              calls w0 = calls w ++ s1 ++ s2 ++ s3 ++ s4
              /\ Forall (fun c => is_stage1 c = true) s1
              /\ Forall (fun c => is_stage2 c = true) s2
              /\ Forall (fun c => is_stage3 c = true) s3
              /\ Forall (fun c => is_materializer c = true) s4
              /\ (s3 <> [] -> s2 <> [])
              /\ (s4 <> [] -> s3 <> [])).
  { intros w0 s1 Hcalls Hs1. exists s1, [], [], []. rewrite !app_nil_r. close_stage. }
  intro Hp. unfold pipeline in Hp.
  unfold bind at 1, get_staging in Hp.
  set (setup := if staging_exists w then [CallRmtree dir] else []).
  assert (Hsetup : Forall (fun c => is_stage1 c = true) setup)
    by (unfold setup; destruct (staging_exists w); repeat constructor).
  unfold bind at 1 in Hp.
  destruct ((if staging_exists w
             then call_unit (CallRmtree dir) (rmtree_stale C) ;;; set_staging false
             else ret tt) w) as [[u | e] w1] eqn:Hstale.
  2: { injection Hp as _ <-.
       apply (Hend w1 setup); [ | exact Hsetup].
       unfold setup. destruct (staging_exists w); [ | discriminate Hstale].
       unfold bind, call_unit, bind, record_call, set_staging in Hstale.
       destruct (rmtree_stale C); cbn in Hstale; [ | discriminate Hstale].
       injection Hstale as _ <-. reflexivity. }
  assert (Hw1 : calls w1 = calls w ++ setup).
  { unfold setup. destruct (staging_exists w).
    - unfold bind, call_unit, bind, record_call, set_staging in Hstale.
      destruct (rmtree_stale C); cbn in Hstale; [discriminate Hstale | ].
      injection Hstale as _ <-. reflexivity.
    - unfold ret in Hstale. injection Hstale as _ <-. rewrite app_nil_r. reflexivity. }
  unfold bind at 1, call_unit, bind at 1, record_call in Hp.
  destruct (makedirs C) as [e |]; cbn [ret raise] in Hp.
  { injection Hp as _ <-.
    apply (Hend _ (setup ++ [CallMakedirs dir])).
    - cbn [calls]. rewrite Hw1, <- app_assoc. reflexivity.
    - apply Forall_app. split; [exact Hsetup | repeat constructor]. }
  unfold ret, bind at 1, set_staging in Hp. cbn [staging_exists calls] in Hp.
  unfold bind at 1, call, bind at 1, record_call in Hp. cbn [staging_exists calls] in Hp.
  set (s1 := setup ++ [CallMakedirs dir; CallRunScript (repository payload)]).
  assert (Hs1 : Forall (fun c => is_stage1 c = true) s1)
    by (apply Forall_app; split; [exact Hsetup | repeat constructor]).
  assert (Hc1 : (calls w1 ++ [CallMakedirs dir]) ++ [CallRunScript (repository payload)]
                = calls w ++ s1).
  { unfold s1. rewrite Hw1, <- !app_assoc. reflexivity. }
  rewrite Hc1 in Hp.
  destruct (run_script C (repository payload)) as [e | job_list]; cbn [ret raise] in Hp.
  { injection Hp as _ <-. apply (Hend _ s1); [reflexivity | exact Hs1]. }
  unfold ret in Hp.
  destruct job_list as [| j0 jl].
  { injection Hp as _ <-. apply (Hend _ s1); [reflexivity | exact Hs1]. }
  unfold bind at 1 in Hp.
  destruct (collect_write_outputs C 0 (j0 :: jl) _) as [[outs | e] w2] eqn:H2.
  2: { injection Hp as _ <-. apply stage2_appends in H2.
       destruct H2 as (s2 & Hc2 & Hs2). cbn [calls] in Hc2.
       exists s1, s2, [], []. rewrite !app_nil_r, Hc2, <- app_assoc. close_stage. }
  pose proof (collect_write_outputs_returned C _ _ _ _ _ H2) as (Hw2 & _ & _).
  assert (Hc2 : calls w2 = calls w ++ s1 ++ stage2_calls (j0 :: jl)).
  { rewrite Hw2. unfold add_calls. cbn [calls]. rewrite <- app_assoc. reflexivity. }
  assert (Hs2 : Forall (fun c => is_stage2 c = true) (stage2_calls (j0 :: jl))).
  { unfold stage2_calls. apply Forall_forall. intros c Hin.
    apply in_map_iff in Hin. destruct Hin as (j & <- & _). reflexivity. }
  assert (Hne2 : stage2_calls (j0 :: jl) <> []) by discriminate.
  destruct outs as [| o0 outs'].
  { unfold raise in Hp. injection Hp as _ <-.
    exists s1, (stage2_calls (j0 :: jl)), [], []. rewrite !app_nil_r. close_stage. }
  unfold bind at 1 in Hp.
  destruct (collect_refactored_jobs C dir (j0 :: jl) 0 _ w2) as [[rjs | e] w3] eqn:H3;
    apply stage3_appends in H3; destruct H3 as (s3 & Hc3 & Hs3 & Hne3).
  2: { injection Hp as _ <-.
       exists s1, (stage2_calls (j0 :: jl)), s3, [].
       rewrite !app_nil_r, Hc3, Hc2, <- !app_assoc. close_stage. }
  assert (Hs3ne : s3 <> []) by (apply Hne3; discriminate).
  destruct rjs as [| r0 rjs'].
  { unfold raise in Hp. injection Hp as _ <-.
    exists s1, (stage2_calls (j0 :: jl)), s3, [].
    rewrite !app_nil_r, Hc3, Hc2, <- !app_assoc. close_stage. }
  apply materialize_appends in Hp. destruct Hp as (s4 & Hc4 & Hs4).
  exists s1, (stage2_calls (j0 :: jl)), s3, s4.
  rewrite Hc4, Hc3, Hc2, <- !app_assoc. close_stage.
Qed.

(** X24. The stages of a run follow each other and never interleave.  The
    calls of the body of the [try] are, in this order: the set-up of the
    staging directory and stage 1; then the calls of the writer; then the
    calls of the verifier; then the calls of the materializer.  The
    verifier is called only after the writer was, and the materializer
    only after the verifier was.  The [finally] clause adds at most the
    removal of the staging directory. *)
Theorem stages_run_in_order (C : Collaborators) (payload : UpdateRequest)
    (dir : string) (w : World) :
  exists s1 s2 s3 s4,
    calls (snd (pipeline C payload dir w)) = calls w ++ s1 ++ s2 ++ s3 ++ s4
    /\ Forall (fun c => is_stage1 c = true) s1
    /\ Forall (fun c => is_stage2 c = true) s2
    /\ Forall (fun c => is_stage3 c = true) s3
    /\ Forall (fun c => is_materializer c = true) s4
    /\ (s3 <> [] -> s2 <> [])
    /\ (s4 <> [] -> s3 <> [])
    /\ (calls (cleanup C (Some dir) (snd (pipeline C payload dir w)))
        = calls (snd (pipeline C payload dir w))
        \/ calls (cleanup C (Some dir) (snd (pipeline C payload dir w)))
           = calls (snd (pipeline C payload dir w)) ++ [CallRmtree dir]).
Proof.
  destruct (pipeline C payload dir w) as [out wf] eqn:Hp. cbn [snd].
  destruct (pipeline_trace C payload dir w wf out Hp)
    as (s1 & s2 & s3 & s4 & H0 & H1 & H2 & H3 & H4 & H5 & H6).
  exists s1, s2, s3, s4.
  split; [exact H0 | ]. split; [exact H1 | ]. split; [exact H2 | ].
  split; [exact H3 | ]. split; [exact H4 | ]. split; [exact H5 | ].
  split; [exact H6 | ].
  unfold cleanup. destruct (str_truthy dir && staging_exists wf);
    [right | left]; reflexivity.
Qed.

(** ** The guarded call of the model *)

Lemma guarded_answer_some (R : Type) (S : ModelServices R) (r : R) :
  guarded_answer S = Some r <->
  exists text t parsed,
    messages_create S = inr text
    /\ json_text text = Some t
    /\ json_loads S t = inr parsed
    /\ validate S parsed = inr r
    /\ (insert_row S 0 = None \/ insert_row S 1 = None).
Proof.
  unfold guarded_answer, try_body, parse_answer. split.
  - intro H.
    destruct (messages_create S) as [e | text]; [discriminate H | ].
    destruct (json_text text) as [t |] eqn:Ht; [ | discriminate H].
    destruct (json_loads S t) as [e | parsed] eqn:Hparsed; [discriminate H | ].
    destruct (validate S parsed) as [e | report] eqn:Hreport; [discriminate H | ].
    exists text, t, parsed.
    split; [reflexivity | ]. split; [exact Ht | ]. split; [exact Hparsed | ].
    destruct (insert_row S 0) as [e0 |].
    + destruct (insert_row S 1) as [e1 |]; [discriminate H | ].
      injection H as <-. split; [exact Hreport | right; reflexivity].
    + injection H as <-. split; [exact Hreport | left; reflexivity].
  - intros (text & t & parsed & -> & -> & -> & -> & Hins).
    destruct (insert_row S 0) as [e0 |]; [ | reflexivity].
    destruct Hins as [Hins | ->]; [discriminate Hins | reflexivity].
Qed.

Lemma guarded_answer_table_down (R : Type) (S : ModelServices R) :
  insert_row S 0 <> None -> insert_row S 1 <> None -> guarded_answer S = None.
Proof.
  intros H0 H1. destruct (guarded_answer S) as [r |] eqn:H; [ | reflexivity].
  apply guarded_answer_some in H.
  destruct H as (_ & _ & _ & _ & _ & _ & _ & [H | H]); contradiction.
Qed.

(** X25. [process_file] returns an output only when all of this went
    through: the model answered, the text between the fences of the answer
    was parsed by [json.loads], the parsed answer made a [JobReport], and
    the progress row was inserted, at the first try or at the second.  The
    output then carries the path of the job and the two fields of that
    report.  In every other case the function returns [None] and raises
    nothing: a progress table that is down drops the file, however good
    the answer of the model was. *)
Theorem process_file_outcomes (S : ModelServices JobReport) (job : CodeChange) :
  (forall output,
      process_file (guarded_answer S) job = Some output ->
      w_file_path output = path job
      /\ exists text t parsed report,
           messages_create S = inr text
           /\ json_text text = Some t
           /\ json_loads S t = inr parsed
           /\ validate S parsed = inr report
           /\ (insert_row S 0 = None \/ insert_row S 1 = None)
           /\ w_refactored_code output = jr_refactored_code report
           /\ w_refactored_code_comments output = jr_refactored_code_comments report)
  /\ (forall text t parsed report,
        messages_create S = inr text -> json_text text = Some t ->
        json_loads S t = inr parsed -> validate S parsed = inr report ->
        insert_row S 0 = None \/ insert_row S 1 = None ->
        process_file (guarded_answer S) job
        = Some {| w_file_path := path job;
                  w_refactored_code := jr_refactored_code report;
                  w_refactored_code_comments := jr_refactored_code_comments report |})
  /\ (insert_row S 0 <> None -> insert_row S 1 <> None ->
      process_file (guarded_answer S) job = None)
  /\ (forall e, messages_create S = inl e -> process_file (guarded_answer S) job = None)
  /\ (forall text t e, messages_create S = inr text -> json_text text = Some t ->
        json_loads S t = inl e -> process_file (guarded_answer S) job = None)
  /\ (forall text t parsed e, messages_create S = inr text -> json_text text = Some t ->
        json_loads S t = inr parsed -> validate S parsed = inl e ->
        process_file (guarded_answer S) job = None).
Proof.
  split; [ | split; [ | split; [ | split; [ | split]]]].
  - intros output H. unfold process_file in H.
    destruct (guarded_answer S) as [report |] eqn:Hg; [ | discriminate H].
    injection H as <-. split; [reflexivity | ].
    apply guarded_answer_some in Hg.
    destruct Hg as (text & t & parsed & H1 & H2 & H3 & H4 & H5).
    exists text, t, parsed, report. repeat split; try assumption.
  - intros text t parsed report H1 H2 H3 H4 H5.
    assert (Hg : guarded_answer S = Some report)
      by (apply guarded_answer_some; exists text, t, parsed; repeat split; assumption).
    rewrite Hg. reflexivity.
  - intros H0 H1. rewrite (guarded_answer_table_down JobReport S H0 H1). reflexivity.
  - intros e H. unfold guarded_answer, try_body, parse_answer. rewrite H. reflexivity.
  - intros text t e H1 H2 H3. unfold guarded_answer, try_body, parse_answer.
    rewrite H1, H2, H3. reflexivity.
  - intros text t parsed e H1 H2 H3 H4. unfold guarded_answer, try_body, parse_answer.
    rewrite H1, H2, H3, H4. reflexivity.
Qed.

Lemma process_file_outcomes_witness :
  process_file (guarded_answer S_second_insert) job_a
  = Some {| w_file_path := path job_a;
            w_refactored_code := jr_refactored_code report_example;
            w_refactored_code_comments := jr_refactored_code_comments report_example |}.
Proof.
  apply (proj1 (proj2 (process_file_outcomes S_second_insert job_a))
           "{}" "{}" (JObj []) report_example);
    [reflexivity | reflexivity | reflexivity | reflexivity | right; reflexivity].
Defined.

Lemma fetch_loop_finds_nothing (analyze : string -> option CodeChange)
    (all_files : list string) :
  (forall p, In p all_files -> analyze p = None) ->
  snd (fetch_loop analyze all_files) = [].
Proof.
  induction all_files as [| p rest IH]; intro Hnone; [reflexivity | ].
  cbn [fetch_loop].
  assert (Hrest : snd (fetch_loop analyze rest) = [])
    by (apply IH; intros q Hq; apply Hnone; right; exact Hq).
  destruct (fetch_loop analyze rest) as [queried results]. cbn [snd] in Hrest.
  destruct (excluded p); [exact Hrest | ].
  rewrite (Hnone p (or_introl eq_refl)). exact Hrest.
Qed.

(** X26. A progress table that is down hides every outdated file.  When
    both inserts of the reader fail for every file, [analyze_file_with_llm]
    returns [None] for each, whatever the model answered; [run_script]
    then returns no job, and the endpoint answers with the success
    response "No outdated files found in repository", not with an error. *)
Theorem table_down_reports_nothing_outdated (C : Collaborators)
    (S : string -> ModelServices CodeChange) (payload : UpdateRequest)
    (w : World) (cwd root : string) (entries : list fs_node) :
  (forall p, analyze_file_with_llm C p = guarded_answer (S p)) ->
  (forall p, insert_row (S p) 0 <> None /\ insert_row (S p) 1 <> None) ->
  getcwd C = inr cwd ->
  (staging_exists w = true -> rmtree_stale C = None) ->
  makedirs C = None ->
  clone_for_analysis C (repository payload) = inr (root, entries) ->
  run_script C (repository payload) = inr []
  /\ fst (update C payload w) = Returned (nothing_outdated payload)
  /\ lookup "message" (nothing_outdated payload)
     = Some (JStr "No outdated files found in repository").
Proof.
  intros Han Hdown Hcwd Hrm Hmk Hclone.
  assert (Hrun : run_script C (repository payload) = inr []).
  { unfold run_script. rewrite Hclone. f_equal. unfold fetch_updates.
    apply fetch_loop_finds_nothing. intros p _. rewrite Han.
    apply guarded_answer_table_down; apply Hdown. }
  split; [exact Hrun | split; [ | reflexivity]].
  unfold update. rewrite Hcwd.
  rewrite (proj2 (pipeline_stage1 C payload (os_path_join cwd "staging") w Hrm Hmk) Hrun).
  reflexivity.
Qed.

Lemma table_down_reports_nothing_outdated_witness :
  run_script C_table_down (repository request_example) = inr []
  /\ fst (update C_table_down request_example fresh_world)
     = Returned (nothing_outdated request_example)
  /\ lookup "message" (nothing_outdated request_example)
     = Some (JStr "No outdated files found in repository").
Proof.
  apply (table_down_reports_nothing_outdated C_table_down S_table_down request_example
           fresh_world "/srv/dependify" "/root/scripts" tree_example);
    [ intro p; reflexivity
    | intro p; split; discriminate
    | reflexivity
    | intros _; reflexivity
    | reflexivity
    | reflexivity ].
Defined.


(* ================================================================= *)
(** * The response of a run *)











(* ================================================================= *)
(** * The joins of a run *)





